(** * AltAlpha Lab: simulation and optimisation engine

    A shallow embedding of the signal rule ([strategy.py]), the vectorised
    backtester ([backtest.py]), the day-by-day simulator
    ([live_simulator.py]), the Sharpe computation ([metrics.py],
    [optimizer.py]) and the grid search ([optimizer.py]); then of the
    frame they all read ([features.py]), of the drawdown events of the
    analyst ([ai_analyst.py]) and of the feature set and the time-based
    split of the classifier ([ml_model.py]).

    Floats are idealised as exact rationals ([Q], compared with [==]).
    A pandas/NumPy [NaN] cell is [None] in an [option Q].  A Python
    exception is a [Raise] outcome.  A float division by zero is the
    [Raise DivisionByZero] outcome, whether Python raises
    [ZeroDivisionError] (two Python floats) or NumPy yields [inf]/[nan]
    (a [numpy.float64] operand): such a run leaves the rational fragment
    and nothing is claimed about it. *)

From Stdlib Require Import String Bool ZArith QArith Qround Qabs Lqa Lia.
From Stdlib Require Import List Permutation Sorted.
Import ListNotations.

Open Scope Q_scope.

(** ** Outcomes *)

Inductive exn : Type :=
| DivisionByZero
| IndexError
| ValueError
| KeyError.

Inductive result (A : Type) : Type :=
| Ok (a : A)
| Raise (e : exn).

Arguments Ok {A} a.
Arguments Raise {A} e.

Definition bind {A B : Type} (m : result A) (k : A -> result B) : result B :=
  match m with
  | Ok a => k a
  | Raise e => Raise e
  end.

Notation "x <- m ;; k" := (bind m (fun x => k))
  (at level 61, m at next level, right associativity).

(** A loop that builds a list and stops at the first fault. *)
Fixpoint mapM {A B : Type} (f : A -> result B) (l : list A) : result (list B) :=
  match l with
  | [] => Ok []
  | a :: l' =>
      b <- f a ;;
      bs <- mapM f l' ;;
      Ok (b :: bs)
  end.

(** ** Numeric helpers shared by the modules *)

Module Num.

Definition Qltb (x y : Q) : bool := negb (Qle_bool y x).
Definition Qgtb (x y : Q) : bool := Qltb y x.
Definition Qneqb (x y : Q) : bool := negb (Qeq_bool x y).

(** An unguarded float division [x / y]. *)
Definition fdiv (x y : Q) : result Q :=
  if Qeq_bool y 0 then Raise DivisionByZero else Ok (x / y).

(** Round half to even, the rule of Python's [round] and of [numpy.round]. *)
Definition rint (x : Q) : Z :=
  let f := Qfloor x in
  match Qcompare (x - inject_Z f) (1 # 2) with
  | Lt => f
  | Gt => (f + 1)%Z
  | Eq => if Z.even f then f else (f + 1)%Z
  end.

Definition pow10 (n : nat) : Q := inject_Z (10 ^ Z.of_nat n).

Definition round (x : Q) (n : nat) : Q := inject_Z (rint (x * pow10 n)) / pow10 n.

(** [Series.fillna(v)] and [Series.dropna()]. *)
Definition fillna {A : Type} (v : A) (l : list (option A)) : list A :=
  map (fun c => match c with Some x => x | None => v end) l.

Fixpoint dropna {A : Type} (l : list (option A)) : list A :=
  match l with
  | [] => []
  | Some x :: l' => x :: dropna l'
  | None :: l' => dropna l'
  end.

(** Element-wise binary operation on two columns. *)
Fixpoint map2 {A B C : Type} (f : A -> B -> C) (l1 : list A) (l2 : list B) : list C :=
  match l1, l2 with
  | a :: l1', b :: l2' => f a b :: map2 f l1' l2'
  | _, _ => []
  end.

(** [numpy.cumprod]: running product, the first cell being the first value. *)
Fixpoint cumprod_from (acc : Q) (l : list Q) : list Q :=
  match l with
  | [] => []
  | x :: l' => let a := acc * x in a :: cumprod_from a l'
  end.

Definition cumprod (l : list Q) : list Q :=
  match l with
  | [] => []
  | x :: l' => x :: cumprod_from x l'
  end.

(** [numpy.prod]. *)
Definition prod (l : list Q) : Q := fold_left Qmult l 1.

(** Python's [sum]. *)
Definition sum (l : list Q) : Q := fold_left Qplus l 0.

(** Python's [max] and [min] of a non-empty sequence given as head and
    tail: the running value is replaced on a strict improvement. *)
Definition py_max (x : Q) (l : list Q) : Q :=
  fold_left (fun m y => if Qgtb y m then y else m) l x.

Definition py_min (x : Q) (l : list Q) : Q :=
  fold_left (fun m y => if Qltb y m then y else m) l x.

(** Ascending insertion sort, used to order a sample before interpolating. *)
Fixpoint insert_sorted (x : Q) (l : list Q) : list Q :=
  match l with
  | [] => [x]
  | y :: l' => if Qle_bool x y then x :: l else y :: insert_sorted x l'
  end.

Definition sort_asc (l : list Q) : list Q := fold_right insert_sorted [] l.

(** [numpy.percentile(a, q)] with the default linear interpolation: the
    value at virtual index [(n-1)*q/100] of the sorted sample.  [q] outside
    [0, 100] raises [ValueError]; an empty sample raises [IndexError]. *)
Definition np_percentile (a : list Q) (q : Q) : result Q :=
  if Qltb q 0 || Qltb 100 q then Raise ValueError
  else
    match sort_asc a with
    | [] => Raise IndexError
    | x0 :: rest =>
        let s := x0 :: rest in
        let n := length s in
        let vi := inject_Z (Z.of_nat (n - 1)) * q / 100 in
        let lo := Z.to_nat (Qfloor vi) in
        let hi := Nat.min (lo + 1) (n - 1) in
        let g := vi - inject_Z (Z.of_nat lo) in
        let a_lo := nth lo s x0 in
        let a_hi := nth hi s x0 in
        Ok (a_lo + g * (a_hi - a_lo))
    end.

End Num.

Import Num.

(** ** The feature series ([features.merge_price_and_sentiment]'s frame) *)

Record FeatureRow : Type := mkFeatureRow {
  date : string;
  close : Q;
  returns : option Q;
  sentiment : Q;
  sentiment_avg_5d : option Q;
  volatility_5d : option Q
}.

Definition FeatureSeries : Type := list FeatureRow.

(** [np.percentile(df["volatility_5d"].dropna(), volatility_percentile)] *)
Definition volatility_threshold_of (df : FeatureSeries) (volatility_percentile : Q) : result Q :=
  np_percentile (dropna (map volatility_5d df)) volatility_percentile.

(** A comparison with a [NaN] operand is false. *)
Definition nan_gt (x : option Q) (y : Q) : bool :=
  match x with Some v => Qgtb v y | None => false end.

Definition nan_lt (x : option Q) (y : Q) : bool :=
  match x with Some v => Qltb v y | None => false end.

(** ** strategy.py *)

Module Strategy.

Record StrategyRow : Type := mkStrategyRow {
  s_date : string;
  s_close : Q;
  s_returns : option Q;
  s_sentiment : Q;
  position : Z
}.

(** [np.select(conditions, choices, default=0)] on one row. *)
Definition select_signal (sentiment_threshold volatility_threshold : Q) (row : FeatureRow) : Z :=
  if nan_gt (sentiment_avg_5d row) sentiment_threshold
     && nan_lt (volatility_5d row) volatility_threshold
  then 1%Z
  else if nan_lt (sentiment_avg_5d row) (- sentiment_threshold) then (-1)%Z
  else 0%Z.

(** [Series.shift(1)]: a [NaN] first, the last value dropped. *)
Definition shift1 {A : Type} (l : list A) : list (option A) :=
  match l with
  | [] => []
  | _ :: _ => None :: map Some (removelast l)
  end.

Definition positions (sentiment_threshold volatility_threshold : Q) (df : FeatureSeries) : list Z :=
  fillna 0%Z (shift1 (map (select_signal sentiment_threshold volatility_threshold) df)).

Definition generate_sentiment_strategy (df : FeatureSeries)
    (sentiment_threshold volatility_percentile : Q) : result (list StrategyRow) :=
  match df with
  | [] => Ok []
  | _ :: _ =>
      volatility_threshold <- volatility_threshold_of df volatility_percentile ;;
      let pos := positions sentiment_threshold volatility_threshold df in
      Ok (map2 (fun row p =>
                  mkStrategyRow (date row) (close row) (returns row) (sentiment row) p)
               df pos)
  end.

End Strategy.

(** ** backtest.py *)

Module Backtest.

Import Strategy.

(** [Series.diff()]: a [NaN] first, then the successive differences. *)
Definition diff (l : list Z) : list (option Z) :=
  match l with
  | [] => []
  | _ :: l' => None :: map Some (map2 Z.sub l' l)
  end.

(** The columns of the working frame when line 79 has run. *)
Record Frame : Type := mkFrame {
  f_date : list string;
  f_returns : list Q;
  f_market_returns : list Q;
  f_position : list Z;
  f_position_change : list Z;
  f_transaction_costs : list Q;
  f_strategy_returns : list Q;
  f_cumulative_market : list Q;
  f_cumulative_strategy : list Q;
  f_portfolio_value : list Q
}.

(** Lines 49-79. *)
Definition backtest_frame (sdf : list StrategyRow) (initial_capital transaction_cost : Q)
    : Frame :=
  let returns := fillna 0 (map s_returns sdf) in
  let market_returns := returns in
  let pos := map position sdf in
  let gross := map2 (fun p r => inject_Z p * r) pos returns in
  let position_change := map Z.abs (fillna 0%Z (diff pos)) in
  let transaction_costs :=
    map (fun c => if (c >? 0)%Z then transaction_cost else 0) position_change in
  let strategy_returns := map2 Qminus gross transaction_costs in
  let cumulative_market := cumprod (map (Qplus 1) market_returns) in
  let cumulative_strategy := cumprod (map (Qplus 1) strategy_returns) in
  let portfolio_value := map (Qmult initial_capital) cumulative_strategy in
  mkFrame (map s_date sdf) returns market_returns pos position_change
    transaction_costs strategy_returns cumulative_market cumulative_strategy
    portfolio_value.

Record BacktestRow : Type := mkBacktestRow {
  b_date : string;
  market_returns : Q;
  strategy_returns : Q;
  portfolio_value : Q
}.

(** Lines 81-88: round and keep the four output columns. *)
Definition output_rows (f : Frame) : list BacktestRow :=
  map2 (fun (dm : string * Q) (sp : Q * Q) =>
          mkBacktestRow (fst dm) (round (snd dm) 6) (round (fst sp) 6) (round (snd sp) 2))
       (combine (f_date f) (f_market_returns f))
       (combine (f_strategy_returns f) (f_portfolio_value f)).

(** [run_backtest], on the frame that [merge_price_and_sentiment] returned
    for the ticker.  The empty list is the empty [DataFrame]. *)
Definition run_backtest (df : FeatureSeries)
    (initial_capital transaction_cost sentiment_threshold volatility_percentile : Q)
    : result (list BacktestRow) :=
  sdf <- generate_sentiment_strategy df sentiment_threshold volatility_percentile ;;
  match sdf with
  | [] => Ok []
  | _ :: _ => Ok (output_rows (backtest_frame sdf initial_capital transaction_cost))
  end.

End Backtest.

(** ** live_simulator.py *)

Module LiveSimulator.

Definition _generate_signal (sentiment_avg_5d volatility_5d : option Q)
    (volatility_threshold sentiment_threshold : Q) : Z :=
  match sentiment_avg_5d, volatility_5d with
  | Some s, Some v =>
      if Qgtb s sentiment_threshold && Qltb v volatility_threshold then 1%Z
      else if Qltb s (- sentiment_threshold) then (-1)%Z
      else 0%Z
  | _, _ => 0%Z
  end.

Record OpenTrade : Type := mkOpenTrade {
  entry_date : string;
  entry_price : Q;
  entry_value : Q;
  entry_cost : Q;
  ot_shares : Q;
  ot_position : Z
}.

Record CompletedTrade : Type := mkCompletedTrade {
  trade_id : nat;
  trade_type : string;
  ct_entry_date : string;
  ct_entry_price : Q;
  ct_entry_value : Q;
  exit_date : string;
  exit_price : Q;
  exit_value : Q;
  ct_shares : Q;
  profit_loss : Q;
  profit_loss_pct : Q;
  holding_days : nat;
  transaction_costs : Q
}.

(** The [trade] entry of a step: a close carries [proceeds], an open
    carries [value]; a close followed by an open leaves the open one. *)
Inductive TradeDetails : Type :=
| CloseDetails (price shares proceeds : Q)
| OpenDetails (action : string) (price shares value : Q).

Record DailyPnl : Type := mkDailyPnl {
  dp_date : string;
  pnl : Q;
  pnl_pct : Q;
  cumulative_pnl : Q;
  cumulative_pnl_pct : Q
}.

Record PositionRecord : Type := mkPositionRecord {
  ph_date : string;
  ph_position : Z;
  ph_position_type : string;
  ph_shares : Q;
  ph_market_value : Q
}.

Record SimulationStep : Type := mkSimulationStep {
  step : nat;
  st_date : string;
  md_close : Q;
  md_sentiment_avg_5d : option Q;
  md_volatility_5d : option Q;
  signal : Z;
  signal_type : string;
  pos_current : Z;
  pos_type : string;
  pos_shares : Q;
  pos_entry_price : option Q;
  pos_entry_date : option string;
  pos_unrealized_pnl : Q;
  pos_unrealized_pnl_pct : Q;
  pf_cash : Q;
  pf_market_value : Q;
  pf_total_value : Q;
  pf_daily_pnl : Q;
  pf_daily_pnl_pct : Q;
  pf_total_return_pct : Q;
  risk_peak_value : Q;
  risk_current_drawdown_pct : Q;
  trade : option TradeDetails
}.

(** The local variables of [run_live_simulation] that live across the
    iterations of its loop. *)
Record Vars : Type := mkVars {
  cash : Q;
  position : Z;
  shares : Q;
  prev_portfolio_value : Q;
  peak_value : Q;
  open_trade : option OpenTrade;
  simulation_states : list SimulationStep;
  completed_trades : list CompletedTrade;
  daily_pnl : list DailyPnl;
  position_history : list PositionRecord
}.

Definition initial_vars (initial_capital : Q) : Vars :=
  mkVars initial_capital 0%Z 0 initial_capital initial_capital None [] [] [] [].

Definition position_name (p : Z) : string :=
  if (p =? 1)%Z then "LONG"%string
  else if (p =? -1)%Z then "SHORT"%string
  else "FLAT"%string.

(** [cash + shares * close_price] when a position with shares is held,
    [cash] otherwise (lines 116-119 and 215-218). *)
Definition mark_to_market (position : Z) (shares cash close_price : Q) : Q :=
  if negb (position =? 0)%Z && Qgtb shares 0 then cash + shares * close_price else cash.

(** The variables the trading block (lines 143-212) reads and writes. *)
Record Book : Type := mkBook {
  b_cash : Q;
  b_shares : Q;
  b_open_trade : option OpenTrade;
  b_completed_trades : list CompletedTrade;
  b_trade_details : option TradeDetails
}.

(** Lines 146-183: sell all shares and complete the trade record. *)
Definition close_position (transaction_cost : Q) (states : list SimulationStep)
    (today : string) (close_price : Q) (b : Book) : Book :=
  let proceeds := b_shares b * close_price in
  let cost := proceeds * transaction_cost in
  let completed :=
    match b_open_trade b with
    | Some ot =>
        let trade_pnl := proceeds - cost - entry_value ot in
        let trade_pnl_pct :=
          if Qgtb (entry_value ot) 0 then trade_pnl / entry_value ot * 100 else 0 in
        let holding :=
          length (filter (fun s => String.leb (entry_date ot) (st_date s)) states) in
        b_completed_trades b ++
          [ mkCompletedTrade
              (length (b_completed_trades b) + 1)
              (if (ot_position ot =? 1)%Z then "LONG"%string else "SHORT"%string)
              (entry_date ot) (entry_price ot) (entry_value ot)
              today (round close_price 2) (round (proceeds - cost) 2)
              (round (b_shares b) 4) (round trade_pnl 2) (round trade_pnl_pct 2)
              holding (round (entry_cost ot + cost) 2) ]
    | None => b_completed_trades b
    end in
  mkBook (proceeds - cost) 0 None completed
    (Some (CloseDetails (round close_price 2) (round (b_shares b) 4)
             (round (proceeds - cost) 2))).

(** Lines 187-210: put all the cash into shares at the close. *)
Definition open_position (transaction_cost : Q) (new_signal : Z)
    (today : string) (close_price : Q) (b : Book) : result Book :=
  let trade_value := b_cash b * (1 - transaction_cost) in
  let cost := b_cash b * transaction_cost in
  new_shares <- fdiv trade_value close_price ;;
  let trade_action := if (new_signal =? 1)%Z then "LONG"%string else "SHORT"%string in
  Ok (mkBook 0 new_shares
        (Some (mkOpenTrade today (round close_price 2) (round trade_value 2)
                 (round cost 2) new_shares new_signal))
        (b_completed_trades b)
        (Some (OpenDetails trade_action (round close_price 2) (round new_shares 4)
                 (round trade_value 2)))).

(** Lines 143-212. *)
Definition execute_signal (transaction_cost : Q) (v : Vars) (new_signal : Z)
    (today : string) (close_price : Q) : result (Book * Z) :=
  let b0 := mkBook (cash v) (shares v) (open_trade v) (completed_trades v) None in
  if negb (new_signal =? position v)%Z then
    let b1 :=
      if negb (position v =? 0)%Z && Qgtb (shares v) 0
      then close_position transaction_cost (simulation_states v) today close_price b0
      else b0 in
    b2 <- (if negb (new_signal =? 0)%Z
           then open_position transaction_cost new_signal today close_price b1
           else Ok b1) ;;
    Ok (b2, new_signal)
  else Ok (b0, position v).

(** One iteration of the loop over the rows (lines 109-281). *)
Definition simulate_day
    (initial_capital transaction_cost sentiment_threshold volatility_threshold : Q)
    (v : Vars) (row : FeatureRow) : result Vars :=
  let today := date row in
  let close_price := close row in
  let sentiment_avg := sentiment_avg_5d row in
  let volatility := volatility_5d row in
  let value_before := mark_to_market (position v) (shares v) (cash v) close_price in
  let peak := if Qgtb value_before (peak_value v) then value_before else peak_value v in
  let current_drawdown := if Qgtb peak 0 then (peak - value_before) / peak else 0 in
  let day_pnl := value_before - prev_portfolio_value v in
  let day_pnl_pct :=
    if Qgtb (prev_portfolio_value v) 0
    then day_pnl / prev_portfolio_value v * 100 else 0 in
  let new_signal :=
    _generate_signal sentiment_avg volatility volatility_threshold sentiment_threshold in
  traded <- execute_signal transaction_cost v new_signal today close_price ;;
  let b := fst traded in
  let pos := snd traded in
  let portfolio_value := mark_to_market pos (b_shares b) (b_cash b) close_price in
  let unrealized :=
    match b_open_trade b with
    | Some ot =>
        if Qgtb (b_shares b) 0 then
          let current_value := b_shares b * close_price in
          let u := current_value - entry_value ot in
          (u, if Qgtb (entry_value ot) 0 then u / entry_value ot * 100 else 0)
        else (0, 0)
    | None => (0, 0)
    end in
  total_return <- fdiv (portfolio_value - initial_capital) initial_capital ;;
  let total_return_pct := round (total_return * 100) 2 in
  let market_value :=
    if Qgtb (b_shares b) 0 then round (b_shares b * close_price) 2 else 0 in
  let pnl_record :=
    mkDailyPnl today (round day_pnl 2) (round day_pnl_pct 2)
      (round (portfolio_value - initial_capital) 2) total_return_pct in
  let position_record :=
    mkPositionRecord today pos (position_name pos) (round (b_shares b) 4) market_value in
  let state :=
    mkSimulationStep
      (length (simulation_states v) + 1) today
      (round close_price 2)
      (option_map (fun x => round x 4) sentiment_avg)
      (option_map (fun x => round x 6) volatility)
      new_signal (position_name new_signal)
      pos (position_name pos) (round (b_shares b) 4)
      (option_map entry_price (b_open_trade b))
      (option_map entry_date (b_open_trade b))
      (round (fst unrealized) 2) (round (snd unrealized) 2)
      (round (b_cash b) 2) market_value (round portfolio_value 2)
      (round day_pnl 2) (round day_pnl_pct 2) total_return_pct
      (round peak 2) (round (current_drawdown * 100) 2)
      (b_trade_details b) in
  Ok (mkVars (b_cash b) pos (b_shares b) portfolio_value peak (b_open_trade b)
        (simulation_states v ++ [state])
        (b_completed_trades b)
        (daily_pnl v ++ [pnl_record])
        (position_history v ++ [position_record])).

(** The loop: the rows in order, stopping at the first fault. *)
Fixpoint simulate_days
    (initial_capital transaction_cost sentiment_threshold volatility_threshold : Q)
    (v : Vars) (rows : FeatureSeries) : result Vars :=
  match rows with
  | [] => Ok v
  | row :: rows' =>
      v' <- simulate_day initial_capital transaction_cost sentiment_threshold
              volatility_threshold v row ;;
      simulate_days initial_capital transaction_cost sentiment_threshold
        volatility_threshold v' rows'
  end.

(** [profit_factor]: a float, or [float('inf')] (the string "inf" in the
    summary). *)
Inductive ProfitFactor : Type :=
| PFinf
| PFnum (x : Q).

Definition profit_factor_of (total_profit total_loss : Q) : ProfitFactor :=
  if Qneqb total_loss 0 then PFnum (Qabs (total_profit / total_loss))
  else if Qgtb total_profit 0 then PFinf
  else PFnum 0.

Record Summary : Type := mkSummary {
  trading_days : nat;
  total_trades : nat;
  n_winning_trades : nat;
  n_losing_trades : nat;
  win_rate_pct : Q;
  avg_win : Q;
  avg_loss : Q;
  profit_factor : ProfitFactor;
  total_profit : Q;
  total_loss : Q;
  max_drawdown_pct : Q;
  best_trade : Q;
  worst_trade : Q
}.

Record LiveResult : Type := mkLiveResult {
  initial_capital_out : Q;
  final_capital : Q;
  total_return_pct : Q;
  r_simulation_states : list SimulationStep;
  r_completed_trades : list CompletedTrade;
  r_daily_pnl : list DailyPnl;
  r_position_history : list PositionRecord;
  summary : Summary
}.

Definition winning_trades (trades : list CompletedTrade) : list CompletedTrade :=
  filter (fun t => Qgtb (profit_loss t) 0) trades.

Definition losing_trades (trades : list CompletedTrade) : list CompletedTrade :=
  filter (fun t => Qle_bool (profit_loss t) 0) trades.

(** [np.mean(xs) if xs else 0] *)
Definition mean_or_zero (xs : list Q) : Q :=
  match xs with
  | [] => 0
  | _ :: _ => sum xs / inject_Z (Z.of_nat (length xs))
  end.

(** Lines 283-316. *)
Definition summarize (v : Vars) : Summary :=
  let states := simulation_states v in
  let trades := completed_trades v in
  let max_drawdown :=
    match map risk_current_drawdown_pct states with
    | [] => 0
    | d :: ds => py_max d ds
    end in
  let winning := winning_trades trades in
  let losing := losing_trades trades in
  let avg_w := mean_or_zero (map profit_loss winning) in
  let avg_l := mean_or_zero (map profit_loss losing) in
  let win_rate :=
    match trades with
    | [] => 0
    | _ :: _ =>
        inject_Z (Z.of_nat (length winning)) / inject_Z (Z.of_nat (length trades)) * 100
    end in
  let tp := sum (map profit_loss winning) in
  let tl := sum (map profit_loss losing) in
  let pf := profit_factor_of tp tl in
  mkSummary (length states) (length trades) (length winning) (length losing)
    (round win_rate 2) (round avg_w 2) (round avg_l 2)
    (match pf with PFinf => PFinf | PFnum x => PFnum (round x 2) end)
    (round tp 2) (round tl 2) (round max_drawdown 2)
    (match map profit_loss trades with [] => 0 | x :: xs => py_max x xs end)
    (match map profit_loss trades with [] => 0 | x :: xs => py_min x xs end).

(** [run_live_simulation], on the frame that [merge_price_and_sentiment]
    returned for the ticker.  [None] is the empty dictionary.  The ticker,
    which the result only echoes, is not part of [LiveResult]. *)
Definition run_live_simulation (df : FeatureSeries)
    (initial_capital transaction_cost sentiment_threshold volatility_percentile : Q)
    : result (option LiveResult) :=
  match df with
  | [] => Ok None
  | _ :: _ =>
      volatility_threshold <- volatility_threshold_of df volatility_percentile ;;
      v <- simulate_days initial_capital transaction_cost sentiment_threshold
             volatility_threshold (initial_vars initial_capital) df ;;
      let final_value :=
        match rev (simulation_states v) with
        | last_state :: _ => pf_total_value last_state
        | [] => initial_capital
        end in
      total_return <- fdiv (final_value - initial_capital) initial_capital ;;
      Ok (Some (mkLiveResult initial_capital (round final_value 2)
                  (round (total_return * 100) 2)
                  (simulation_states v) (completed_trades v) (daily_pnl v)
                  (position_history v) (summarize v)))
  end.

End LiveSimulator.

(** ** Floating-point library functions

    [numpy.sqrt] and the power operator [**] are not rational functions:
    the definitions that call them take them as parameters.  [np_power]
    may yield [NaN] (a negative base with a fractional exponent). *)

Definition nan_map (f : Q -> Q) (x : option Q) : option Q := option_map f x.

(** [numpy.std(xs, ddof=1)]: [NaN] below two samples. *)
Definition np_std_ddof1 (np_sqrt : Q -> Q) (xs : list Q) : option Q :=
  match xs with
  | [] | [_] => None
  | _ :: _ :: _ =>
      let n := inject_Z (Z.of_nat (length xs)) in
      let mean := sum xs / n in
      Some (np_sqrt (sum (map (fun x => (x - mean) * (x - mean)) xs) / (n - 1)))
  end.

(** ** optimizer.py *)

Module Optimizer.

Section Floats.

Variable np_sqrt : Q -> Q.
Variable np_power : Q -> Q -> option Q.

(** Lines 13-41. *)
Definition _compute_sharpe_ratio (returns : list Q) (risk_free_rate : Q) (trading_days : Z)
    : result (option Q) :=
  match returns with
  | [] => Ok (Some 0)
  | _ :: _ =>
      let n_periods := length returns in
      let total_return := prod (map (Qplus 1) returns) - 1 in
      exponent <- fdiv (inject_Z trading_days) (inject_Z (Z.of_nat n_periods)) ;;
      let annualized_return :=
        nan_map (fun x => x - 1) (np_power (1 + total_return) exponent) in
      let daily_volatility := np_std_ddof1 np_sqrt returns in
      let annualized_volatility :=
        nan_map (fun d => d * np_sqrt (inject_Z trading_days)) daily_volatility in
      if nan_gt annualized_volatility 0 then
        match annualized_return, annualized_volatility with
        | Some ar, Some av =>
            sharpe <- fdiv (ar - risk_free_rate) av ;;
            Ok (Some sharpe)
        | _, _ => Ok None
        end
      else Ok (Some 0)
  end.

(** Lines 44-67: the loop carries [(peak, max_dd)]. *)
Definition _compute_max_drawdown (cumulative_returns : list Q) : Q :=
  match cumulative_returns with
  | [] => 0
  | first :: _ =>
      snd (fold_left
             (fun (st : Q * Q) value =>
                let peak := if Qgtb value (fst st) then value else fst st in
                let drawdown := if Qgtb peak 0 then (value - peak) / peak else 0 in
                (peak, if Qltb drawdown (snd st) then drawdown else snd st))
             cumulative_returns (first, 0))
  end.

Record GridCell : Type := mkGridCell {
  sentiment_threshold : Q;
  volatility_percentile : Q;
  sharpe_ratio : option Q;
  total_return_pct : Q;
  max_drawdown_pct : Q;
  annual_volatility_pct : option Q;
  num_trades : nat
}.

(** Lines 96-104: the signal column, shifted by one day. *)
Definition shifted_positions (sentiment_threshold volatility_threshold : Q)
    (df : FeatureSeries) : list Z :=
  let position :=
    map (fun row =>
           if nan_gt (sentiment_avg_5d row) sentiment_threshold
              && nan_lt (volatility_5d row) volatility_threshold
           then 1%Z
           else if nan_lt (sentiment_avg_5d row) (- sentiment_threshold) then (-1)%Z
           else 0%Z) df in
  0%Z :: removelast position.

(** [np.abs(np.diff(position, prepend=0))] *)
Definition position_changes_of (position : list Z) : list Z :=
  map Z.abs (map2 Z.sub position (0%Z :: position)).

(** Lines 106-113. *)
Definition net_strategy_returns (position : list Z) (returns : list Q)
    (transaction_cost : Q) : list Q :=
  let gross := map2 (fun p r => inject_Z p * r) position returns in
  let transaction_costs :=
    map (fun c => if (c >? 0)%Z then transaction_cost else 0) (position_changes_of position) in
  map2 Qminus gross transaction_costs.

(** Lines 70-140. *)
Definition _run_strategy_backtest (df : FeatureSeries)
    (sentiment_threshold volatility_percentile transaction_cost : Q) : result GridCell :=
  volatility_threshold <- volatility_threshold_of df volatility_percentile ;;
  let position := shifted_positions sentiment_threshold volatility_threshold df in
  let returns := fillna 0 (map returns df) in
  let strategy_returns := net_strategy_returns position returns transaction_cost in
  sharpe <- _compute_sharpe_ratio strategy_returns 0 252 ;;
  let total_return := prod (map (Qplus 1) strategy_returns) - 1 in
  let cumulative_returns := cumprod (map (Qplus 1) strategy_returns) in
  let max_drawdown := _compute_max_drawdown cumulative_returns in
  let daily_vol := np_std_ddof1 np_sqrt strategy_returns in
  let annual_vol := nan_map (fun d => d * np_sqrt 252) daily_vol in
  let trades := length (filter (fun c => (c >? 0)%Z) (position_changes_of position)) in
  Ok (mkGridCell sentiment_threshold volatility_percentile
        (nan_map (fun x => round x 4) sharpe)
        (round (total_return * 100) 2)
        (round (max_drawdown * 100) 2)
        (nan_map (fun x => round (x * 100) 2) annual_vol)
        trades).

(** [numpy.arange(start, stop, step)]: [ceil((stop - start) / step)] values
    [start + i * step]. *)
Definition np_arange (start stop step : Q) : result (list Q) :=
  n <- fdiv (stop - start) step ;;
  Ok (map (fun i => start + inject_Z (Z.of_nat i) * step) (seq 0 (Z.to_nat (Qceiling n)))).

(** Python's [int] of a float: truncation towards zero. *)
Definition py_int (x : Q) : Z := if Qle_bool 0 x then Qfloor x else Qceiling x.

(** Lines 300-329: the parameter grid, in the order of the two loops. *)
Definition grid_parameters (sentiment_range volatility_range : Q * Q * Q)
    : result (list (Q * Q)) :=
  let '(s_start, s_stop, sentiment_step) := sentiment_range in
  let '(v_start, v_stop, volatility_step) := volatility_range in
  sentiment_raw <- np_arange s_start (s_stop + sentiment_step / 2) sentiment_step ;;
  volatility_raw <- np_arange v_start (v_stop + volatility_step / 2) volatility_step ;;
  let sentiment_values := map (fun x => round x 2) sentiment_raw in
  let volatility_values := map rint volatility_raw in
  Ok (flat_map (fun sent_thresh =>
                  map (fun vol_pct => (sent_thresh, inject_Z vol_pct)) volatility_values)
               sentiment_values).

Definition grid_search (df : FeatureSeries) (sentiment_range volatility_range : Q * Q * Q)
    (transaction_cost : Q) : result (list GridCell) :=
  cells <- grid_parameters sentiment_range volatility_range ;;
  mapM (fun c => _run_strategy_backtest df (fst c) (snd c) transaction_cost) cells.

(** The ranking fields of the result of [optimize_strategy].  The
    [stable_regions] and [parameter_sensitivity] entries, which are computed
    from the unsorted grid after the best row has been taken, are not
    part of this record. *)
Record Optimum : Type := mkOptimum {
  best_parameters : Q * Z;
  best_sharpe : option Q;
  best_total_return_pct : Q;
  best_max_drawdown_pct : Q;
  top_10 : list GridCell;
  full_results : list GridCell;
  total_combinations : nat
}.

(** [results_df.sort_values("sharpe_ratio", ascending=False)].  The call
    leaves [kind] at its default, ["quicksort"], for which pandas does not
    promise to keep tied rows in their original order: the sort is a
    parameter, and what is known of it is stated where it is used. *)
Variable sort_values : list GridCell -> list GridCell.

(** Lines 266-374.  [None] is the empty dictionary. *)
Definition optimize_strategy (df : FeatureSeries)
    (sentiment_range volatility_range : Q * Q * Q) (transaction_cost : Q)
    : result (option Optimum) :=
  match df with
  | [] => Ok None
  | _ :: _ =>
      results <- grid_search df sentiment_range volatility_range transaction_cost ;;
      match results with
      | [] => Raise KeyError
      | _ :: _ =>
          let results_df_sorted := sort_values results in
          match results_df_sorted with
          | [] => Raise IndexError
          | best_row :: _ =>
              Ok (Some (mkOptimum
                          (sentiment_threshold best_row,
                           py_int (volatility_percentile best_row))
                          (sharpe_ratio best_row)
                          (total_return_pct best_row)
                          (max_drawdown_pct best_row)
                          (firstn 10 results_df_sorted)
                          results_df_sorted
                          (length results)))
          end
      end
  end.

End Floats.

End Optimizer.

(** ** metrics.py *)

Module Metrics.

Import Backtest.

Section Floats.

Variable np_sqrt : Q -> Q.
Variable np_power : Q -> Q -> option Q.

Record MetricsDict : Type := mkMetricsDict {
  total_return : Q;
  annualized_return : option Q;
  annualized_volatility : option Q;
  sharpe_ratio : option Q;
  max_drawdown : Q;
  trading_days_out : nat
}.

(** [pd.Series(values).cummax()] *)
Definition cummax (values : list Q) : list Q :=
  match values with
  | [] => []
  | x :: l =>
      x :: snd (fold_left
                  (fun (st : Q * list Q) y =>
                     let m := if Qgtb y (fst st) then y else fst st in
                     (m, snd st ++ [m]))
                  l (x, []))
  end.

(** Lines 70-78: the Sharpe ratio from the annualised figures. *)
Definition sharpe_of (annualized_return annualized_volatility : option Q)
    (risk_free_rate : Q) : result (option Q) :=
  if nan_gt annualized_volatility 0 then
    match annualized_return, annualized_volatility with
    | Some ar, Some av =>
        sharpe <- fdiv (ar - risk_free_rate) av ;;
        Ok (Some sharpe)
    | _, _ => Ok None
    end
  else Ok (Some 0).

(** [calculate_performance_metrics], on the frame that
    [merge_price_and_sentiment] returned for the ticker.  [None] is the
    empty dictionary. *)
Definition calculate_performance_metrics (df : FeatureSeries)
    (risk_free_rate : Q) (trading_days : Z)
    (initial_capital transaction_cost sentiment_threshold volatility_percentile : Q)
    : result (option MetricsDict) :=
  rows <- run_backtest df initial_capital transaction_cost sentiment_threshold
            volatility_percentile ;;
  match rows with
  | [] => Ok None
  | first :: _ =>
      let strategy_returns := map strategy_returns rows in
      let portfolio_values := map portfolio_value rows in
      ratio <- fdiv (last portfolio_values 0) (portfolio_value first) ;;
      let total_return := ratio - 1 in
      let n_periods := length strategy_returns in
      exponent <- fdiv (inject_Z trading_days) (inject_Z (Z.of_nat n_periods)) ;;
      let annualized_return :=
        nan_map (fun x => x - 1) (np_power (1 + total_return) exponent) in
      let daily_volatility := np_std_ddof1 np_sqrt strategy_returns in
      let annualized_volatility :=
        nan_map (fun d => d * np_sqrt (inject_Z trading_days)) daily_volatility in
      sharpe <- sharpe_of annualized_return annualized_volatility risk_free_rate ;;
      let cumulative_max := cummax portfolio_values in
      drawdown <- mapM (fun vm => fdiv (fst vm - snd vm) (snd vm))
                    (combine portfolio_values cumulative_max) ;;
      let max_drawdown :=
        match drawdown with
        | [] => 0
        | d :: ds => py_min d ds
        end in
      Ok (Some (mkMetricsDict
                  (round (total_return * 100) 2)
                  (nan_map (fun x => round (x * 100) 2) annualized_return)
                  (nan_map (fun x => round (x * 100) 2) annualized_volatility)
                  (nan_map (fun x => round x 3) sharpe)
                  (round (max_drawdown * 100) 2)
                  n_periods))
  end.

End Floats.

End Metrics.

(** ** features.py *)

Module Features.

(** A record of [get_price_data] and a row of [get_mock_sentiment_series]. *)
Record PriceRow : Type := mkPriceRow {
  p_date : string;
  p_close : Q;
  p_returns : option Q
}.

Record SentimentRow : Type := mkSentimentRow {
  sn_date : string;
  sn_sentiment : Q
}.

(** [pd.merge(price_df, sentiment_df, on="date", how="inner")]: the price
    rows in their order, each with the sentiment rows of its date. *)
Definition merge_on_date (price_df : list PriceRow) (sentiment_df : list SentimentRow)
    : list (PriceRow * SentimentRow) :=
  flat_map (fun p =>
              map (fun s => (p, s))
                (filter (fun s => String.eqb (sn_date s) (p_date p)) sentiment_df))
           price_df.

(** The window of [Series.rolling(window, min_periods=1)] that ends at row
    [t]: the last [window] cells up to and including [t]. *)
Definition rolling {A : Type} (window : nat) (column : list A) (t : nat) : list A :=
  skipn (S t - window) (firstn (S t) column).

Definition mean (xs : list Q) : Q := sum xs / inject_Z (Z.of_nat (length xs)).

Section Floats.

Variable np_sqrt : Q -> Q.

(** Lines 46-60: the two rolling columns.  The rolling standard deviation
    skips the [NaN] cells of its window and is [NaN] below two values. *)
Definition rolling_features (df : list (PriceRow * SentimentRow)) : FeatureSeries :=
  let sentiment := map (fun r => sn_sentiment (snd r)) df in
  let returns := map (fun r => p_returns (fst r)) df in
  map (fun tr : nat * (PriceRow * SentimentRow) =>
         let t := fst tr in
         let p := fst (snd tr) in
         let s := snd (snd tr) in
         mkFeatureRow (p_date p) (p_close p) (p_returns p) (sn_sentiment s)
           (Some (round (mean (rolling 5 sentiment t)) 4))
           (nan_map (fun x => round x 6)
              (np_std_ddof1 np_sqrt (dropna (rolling 5 returns t)))))
      (combine (seq 0 (length df)) df).

(** [merge_price_and_sentiment], on the price records and the sentiment
    frame that were loaded for the ticker. *)
Definition merge_price_and_sentiment (price_data : list PriceRow)
    (sentiment_df : list SentimentRow) : FeatureSeries :=
  match price_data, sentiment_df with
  | [], _ => []
  | _ :: _, [] => []
  | _ :: _, _ :: _ => rolling_features (merge_on_date price_data sentiment_df)
  end.

End Floats.

End Features.

(** ** ai_analyst.py: the drawdown events of [_analyze_risk_patterns] *)

Module Analyst.

Record DrawdownEvent : Type := mkDrawdownEvent {
  start_idx : nat;
  end_idx : nat;
  duration : nat;
  event_max_drawdown : Q
}.

(** [l[a:b]] for indices that are not negative. *)
Definition slice {A : Type} (l : list A) (a b : nat) : list A :=
  firstn (b - a) (skipn a l).

(** Python's [max] of a sequence: [ValueError] when it is empty. *)
Definition py_max_of (xs : list Q) : result Q :=
  match xs with
  | [] => Raise ValueError
  | x :: xs' => Ok (py_max x xs')
  end.

(** Lines 106-121, from index [i] on.  [in_drawdown] and [event_start]
    travel together as [current]: [Some start] while [in_drawdown] holds,
    [start] being the value of [event_start], which is read in no other
    state. *)
Fixpoint scan_events (drawdowns : list Q) (i : nat) (rest : list Q)
    (current : option nat) (drawdown_events : list DrawdownEvent)
    : result (list DrawdownEvent) :=
  match rest with
  | [] => Ok drawdown_events
  | dd :: rest' =>
      match current with
      | None =>
          if Qgtb dd 5
          then scan_events drawdowns (S i) rest' (Some i) drawdown_events
          else scan_events drawdowns (S i) rest' None drawdown_events
      | Some event_start =>
          if Qltb dd 2 then
            m <- py_max_of (slice drawdowns event_start (i + 1)) ;;
            scan_events drawdowns (S i) rest' None
              (drawdown_events
                 ++ [mkDrawdownEvent event_start i (i - event_start) m])
          else scan_events drawdowns (S i) rest' (Some event_start) drawdown_events
      end
  end.

Definition drawdown_events_of (drawdowns : list Q) : result (list DrawdownEvent) :=
  scan_events drawdowns 0 drawdowns None [].

End Analyst.

(** ** ml_model.py: the feature set and the time-based split *)

Module MlModel.

Record MlRow : Type := mkMlRow {
  ml_date : string;
  ml_close : Q;
  ml_returns : Q;
  ml_sentiment : Q;
  rolling_sentiment_5d : Q;
  ml_volatility_5d : Q;
  returns_avg_5d : Q;
  next_day_return : Q;
  ml_target : Z
}.

(** [Series.shift(-1)]: the first value dropped, a [NaN] last. *)
Definition shift_back {A : Type} (l : list (option A)) : list (option A) :=
  match l with
  | [] => []
  | _ :: l' => l' ++ [None]
  end.

(** [rolling(window=5, min_periods=1).mean().round(6)] at row [t]: the mean
    of the cells of the window that are not [NaN], [NaN] when there is
    none. *)
Definition rolling_mean_6dp (column : list (option Q)) (t : nat) : option Q :=
  match dropna (Features.rolling 5 column t) with
  | [] => None
  | x :: xs => Some (round (Features.mean (x :: xs)) 6)
  end.

(** [prepare_ml_features], on the frame that [merge_price_and_sentiment]
    returned for the ticker: the rows that [dropna] keeps have every cell
    defined. *)
Definition prepare_ml_features (df : FeatureSeries) : list MlRow :=
  let rets := map returns df in
  let next_day := shift_back rets in
  flat_map
    (fun tr : nat * (FeatureRow * option Q) =>
       let t := fst tr in
       let row := fst (snd tr) in
       let target := if nan_gt (snd (snd tr)) 0 then 1%Z else 0%Z in
       match returns row, sentiment_avg_5d row, volatility_5d row,
             rolling_mean_6dp rets t, snd (snd tr) with
       | Some r, Some s, Some v, Some a, Some n =>
           [mkMlRow (date row) (close row) r (sentiment row) s v a n target]
       | _, _, _, _, _ => []
       end)
    (combine (seq 0 (length df)) (combine df next_day)).

(** [df.iloc[:k]] and [df.iloc[k:]]: a negative [k] counts from the end. *)
Definition iloc_bound {A : Type} (df : list A) (k : Z) : nat :=
  if (k <? 0)%Z then Z.to_nat (Z.of_nat (length df) + k) else Z.to_nat k.

Section Columns.

Variables Row X Y : Type.
Variable feature_cols : Row -> X.
Variable target : Row -> Y.

(** Lines 78-107: [(X_train, X_test, y_train, y_test)]. *)
Definition train_test_split_time_based (df : list Row) (train_ratio : Q)
    : list X * list X * list Y * list Y :=
  let split_idx :=
    Optimizer.py_int (inject_Z (Z.of_nat (length df)) * train_ratio) in
  let train_df := firstn (iloc_bound df split_idx) df in
  let test_df := skipn (iloc_bound df split_idx) df in
  (map feature_cols train_df, map feature_cols test_df,
   map target train_df, map target test_df).

End Columns.

End MlModel.

(** * Vocabulary of the statements *)

(** The position of day [t] differs from the one of the day before. *)
Definition position_changed (pos : list Z) (t : nat) : bool :=
  match t with
  | O => false
  | S t' => negb (nth t pos 0 =? nth t' pos 0)%Z
  end.

(** The product of [1 + r] over the days up to and including [t]. *)
Definition growth_through (t : nat) (rs : list Q) : Q :=
  fold_right (fun r acc => (1 + r) * acc) 1 (firstn (S t) rs).

(** The loop variables of the simulator when [k] rows have been replayed. *)
Definition vars_after (initial_capital transaction_cost sentiment_threshold
    volatility_threshold : Q) (df : FeatureSeries) (k : nat)
    : result LiveSimulator.Vars :=
  LiveSimulator.simulate_days initial_capital transaction_cost sentiment_threshold
    volatility_threshold (LiveSimulator.initial_vars initial_capital) (firstn k df).

(** Descending order on Sharpe ratios, [NaN] last. *)
Definition sharpe_ge (a b : option Q) : bool :=
  match a, b with
  | Some x, Some y => Qle_bool y x
  | Some _, None => true
  | None, Some _ => false
  | None, None => true
  end.

Definition sharpe_tied (a b : option Q) : bool := sharpe_ge a b && sharpe_ge b a.

Definition ranked (l : list Optimizer.GridCell) : Prop :=
  StronglySorted
    (fun a b => sharpe_ge (Optimizer.sharpe_ratio a) (Optimizer.sharpe_ratio b) = true) l.

(** What every sort of the rows by Sharpe ratio does to a grid. *)
Definition sorts_grid (sort_values : list Optimizer.GridCell -> list Optimizer.GridCell)
    (grid : list Optimizer.GridCell) : Prop :=
  Permutation (sort_values grid) grid /\ ranked (sort_values grid).




(** ** A stable sort of the grid *)

Fixpoint insert_ranked (c : Optimizer.GridCell) (l : list Optimizer.GridCell)
    : list Optimizer.GridCell :=
  match l with
  | [] => [c]
  | d :: l' =>
      if sharpe_ge (Optimizer.sharpe_ratio d) (Optimizer.sharpe_ratio c)
      then d :: insert_ranked c l'
      else c :: l
  end.

(** A stable descending sort: a row goes behind the rows it ties with. *)
Definition stable_sort_values (l : list Optimizer.GridCell) : list Optimizer.GridCell :=
  fold_left (fun acc c => insert_ranked c acc) l [].

(** ** Instances of the float functions for the worked examples *)

(** The square root cut after six decimals; exact at 0. *)
Definition sqrt_6dp (x : Q) : Q :=
  inject_Z (Z.sqrt (Qfloor (x * pow10 12))) / pow10 6.

(** [b ** e] on the natural exponents; the worked examples stay there. *)
Definition power_nat (b e : Q) : option Q :=
  if Qle_bool 0 e && Qeq_bool e (inject_Z (Qfloor e))
  then Some (Qpower b (Qfloor e))
  else None.

(** ** Worked series *)

Definition day (d : string) (c : Q) (r : option Q) (s : Q) (avg vol : option Q)
    : FeatureRow :=
  mkFeatureRow d c r s avg vol.

(** Flat on the first day, long at the close of the second, flat again at
    the close of the third, at a higher price. *)
Definition series_gain : FeatureSeries :=
  [ day "2024-01-02" 100 None 0 (Some 0) None;
    day "2024-01-03" 100 (Some 0) (1 # 2) (Some (1 # 2)) (Some (1 # 100));
    day "2024-01-04" 110 (Some (1 # 10)) 0 (Some 0) (Some (3 # 100)) ].

(** The same with a lower price on the third day. *)
Definition series_loss : FeatureSeries :=
  [ day "2024-01-02" 100 None 0 (Some 0) None;
    day "2024-01-03" 100 (Some 0) (1 # 2) (Some (1 # 2)) (Some (1 # 100));
    day "2024-01-04" 90 (Some (- (1 # 10))) 0 (Some 0) (Some (3 # 100)) ].

(** Short at the close of the second day, held on a rising third day. *)
Definition series_short : FeatureSeries :=
  [ day "2024-01-02" 100 None 0 (Some 0) None;
    day "2024-01-03" 100 (Some 0) (- (1 # 2)) (Some (- (1 # 2))) (Some (1 # 100));
    day "2024-01-04" 110 (Some (1 # 10)) (- (1 # 2)) (Some (- (1 # 2))) (Some (3 # 100));
    day "2024-01-05" 110 (Some 0) 0 (Some 0) (Some (3 # 100)) ].

(** One day with a short signal. *)
Definition series_one_short : FeatureSeries :=
  [ day "2024-01-02" 100 (Some 0) (- (1 # 2)) (Some (- (1 # 2))) (Some (1 # 100)) ].

(** Two series that agree on the first three days and differ on the fourth
    in the volatility cell only. *)
Definition series_calm : FeatureSeries :=
  [ day "2024-01-02" 100 None 0 (Some 0) None;
    day "2024-01-03" 100 (Some 0) 0 (Some 0) None;
    day "2024-01-04" 100 (Some 0) (1 # 2) (Some (1 # 2)) (Some (2 # 100));
    day "2024-01-05" 101 (Some (1 # 100)) (1 # 2) (Some (1 # 2)) (Some (1 # 100)) ].

Definition series_rough : FeatureSeries :=
  [ day "2024-01-02" 100 None 0 (Some 0) None;
    day "2024-01-03" 100 (Some 0) 0 (Some 0) None;
    day "2024-01-04" 100 (Some 0) (1 # 2) (Some (1 # 2)) (Some (2 # 100));
    day "2024-01-05" 101 (Some (1 # 100)) (1 # 2) (Some (1 # 2)) (Some (5 # 100)) ].

(** The annualised figures that the Sharpe ratio is computed from
    (optimizer.py lines 32-37). *)
Definition annualized_return_of (np_power : Q -> Q -> option Q) (returns : list Q)
    (trading_days : Z) : option Q :=
  nan_map (fun x => x - 1)
    (np_power (1 + (prod (map (Qplus 1) returns) - 1))
       (inject_Z trading_days / inject_Z (Z.of_nat (length returns)))).

Definition annualized_volatility_of (np_sqrt : Q -> Q) (returns : list Q)
    (trading_days : Z) : option Q :=
  nan_map (fun d => d * np_sqrt (inject_Z trading_days)) (np_std_ddof1 np_sqrt returns).

(** Fully in cash when flat, fully invested otherwise. *)
Definition allocated (position : Z) (cash shares : Q) : Prop :=
  (position = 0%Z /\ 0 < cash /\ shares == 0)
  \/ (position <> 0%Z /\ cash == 0 /\ 0 < shares).

(** A step whose recorded shares and cash are the roundings of an
    allocation that is all cash or all shares. *)
Definition step_allocated (s : LiveSimulator.SimulationStep) : Prop :=
  exists sh ca : Q,
    LiveSimulator.pos_shares s = round sh 4
    /\ LiveSimulator.pf_cash s = round ca 2
    /\ (0 < sh <-> LiveSimulator.pos_current s <> 0%Z)
    /\ (LiveSimulator.pos_current s <> 0%Z <-> ca == 0).

(** A completed trade whose exit value and profit are computed from a
    positive share count [sh] sold at [px]: the proceeds net of the cost,
    and these less the entry value. *)
Definition settled_long_style (transaction_cost : Q) (t : LiveSimulator.CompletedTrade)
    : Prop :=
  exists sh px : Q,
    0 < sh
    /\ LiveSimulator.exit_price t = round px 2
    /\ LiveSimulator.ct_shares t = round sh 4
    /\ LiveSimulator.exit_value t = round (sh * px - sh * px * transaction_cost) 2
    /\ LiveSimulator.profit_loss t =
         round (sh * px - sh * px * transaction_cost - LiveSimulator.ct_entry_value t) 2.

(** The grid that the optimizer searches in the worked example: the
    thresholds 0.1 and 0.2 against the percentiles 40 and 50. *)
Definition example_ranges : (Q * Q * Q) * (Q * Q * Q) :=
  ((1 # 10, 2 # 10, 1 # 10), (40, 50, 10)).

Definition example_grid : list Optimizer.GridCell :=
  match Optimizer.grid_search sqrt_6dp power_nat series_gain
          (fst example_ranges) (snd example_ranges) (1 # 1000) with
  | Ok grid => grid
  | Raise _ => []
  end.

(** A row whose average sentiment stays within the threshold band. *)
Definition quiet (sentiment_threshold : Q) (row : FeatureRow) : Prop :=
  match sentiment_avg_5d row with
  | Some s => - sentiment_threshold <= s /\ s <= sentiment_threshold
  | None => True
  end.

(** The number of days on which a position that was held is left, in a
    series of end-of-day positions that starts flat. *)
Fixpoint exits_from (prev : Z) (ps : list Z) : nat :=
  match ps with
  | [] => 0
  | q :: ps' =>
      ((if negb (prev =? 0)%Z && negb (q =? prev)%Z then 1 else 0)
       + exits_from q ps')%nat
  end.

Definition exits (ps : list Z) : nat := exits_from 0%Z ps.

(** What one leg of a trade leaves of a value. *)
Definition after_cost (transaction_cost : Q) (leg : bool) (value : Q) : Q :=
  if leg then value * (1 - transaction_cost) else value.

(** A trade that was entered on day [i] and left on a later day [j] of
    the dated log, after at least one and at most [j] logged days. *)
Definition trade_spans (dates : list string) (t : LiveSimulator.CompletedTrade) : Prop :=
  exists i j : nat,
    (i < j)%nat
    /\ nth_error dates i = Some (LiveSimulator.ct_entry_date t)
    /\ nth_error dates j = Some (LiveSimulator.exit_date t)
    /\ (1 <= LiveSimulator.holding_days t <= j)%nat.

(** A trade whose holding days are the logged days from its entry date
    on, among the days before its exit. *)
Definition trade_counted (dates : list string) (t : LiveSimulator.CompletedTrade) : Prop :=
  exists i j : nat,
    (i < j)%nat
    /\ nth_error dates i = Some (LiveSimulator.ct_entry_date t)
    /\ nth_error dates j = Some (LiveSimulator.exit_date t)
    /\ LiveSimulator.holding_days t
       = length (filter (String.leb (LiveSimulator.ct_entry_date t)) (firstn j dates)).

(** Dates that strictly increase. *)
Definition dates_increase (dates : list string) : Prop :=
  StronglySorted (fun a b => String.ltb a b = true) dates.

(** What holds of the ledger and of the open trade after any number of
    days. *)
Definition ledger_ok (v : LiveSimulator.Vars) : Prop :=
  map LiveSimulator.trade_id (LiveSimulator.completed_trades v)
  = seq 1 (length (LiveSimulator.completed_trades v))
  /\ (forall ot, LiveSimulator.open_trade v = Some ot ->
        exists i, nth_error (map LiveSimulator.st_date (LiveSimulator.simulation_states v)) i
                  = Some (LiveSimulator.entry_date ot))
  /\ Forall (trade_counted (map LiveSimulator.st_date (LiveSimulator.simulation_states v)))
       (LiveSimulator.completed_trades v).


(** The highest of the first [i + 1] values of a series, and how far, as a
    fraction of it, the value [i] lies under it (0 when it is not
    positive). *)
Definition running_peak (values : list Q) (i : nat) : Q :=
  py_max (nth 0 values 0) (firstn (S i) values).

Definition drawdown_at (values : list Q) (i : nat) : Q :=
  let peak := running_peak values i in
  if Qgtb peak 0 then (nth i values 0 - peak) / peak else 0.

(** A drawdown event of a series: it starts on a day whose drawdown exceeds
    5, ends on the first later day whose drawdown is under 2, lasts the days
    between the two, and carries the largest drawdown of these days. *)
Definition event_of (drawdowns : list Q) (e : Analyst.DrawdownEvent) : Prop :=
  (Analyst.start_idx e < Analyst.end_idx e < length drawdowns)%nat
  /\ Analyst.duration e = (Analyst.end_idx e - Analyst.start_idx e)%nat
  /\ 5 < nth (Analyst.start_idx e) drawdowns 0
  /\ nth (Analyst.end_idx e) drawdowns 0 < 2
  /\ (forall j, (Analyst.start_idx e < j < Analyst.end_idx e)%nat ->
        2 <= nth j drawdowns 0)
  /\ 5 < Analyst.event_max_drawdown e
  /\ (forall j, (Analyst.start_idx e <= j <= Analyst.end_idx e)%nat ->
        nth j drawdowns 0 <= Analyst.event_max_drawdown e).

(** An event that is over before another starts. *)
Definition event_before (a b : Analyst.DrawdownEvent) : Prop :=
  (Analyst.end_idx a < Analyst.start_idx b)%nat.

(** * Properties *)

(** ** Comparisons *)

Lemma Qltb_lt (x y : Q) : Qltb x y = true <-> x < y.
Proof.
  unfold Qltb. rewrite negb_true_iff. split; intro H.
  - destruct (Qlt_le_dec x y) as [L | L]; [exact L |].
    apply Qle_bool_iff in L. congruence.
  - destruct (Qle_bool y x) eqn:E; [| reflexivity].
    apply Qle_bool_iff in E. lra.
Qed.

Lemma Qltb_ge (x y : Q) : Qltb x y = false <-> y <= x.
Proof.
  unfold Qltb. rewrite negb_false_iff. apply Qle_bool_iff.
Qed.

Lemma Qgtb_gt (x y : Q) : Qgtb x y = true <-> y < x.
Proof. unfold Qgtb. apply Qltb_lt. Qed.

Lemma Qgtb_le (x y : Q) : Qgtb x y = false <-> x <= y.
Proof. unfold Qgtb. apply Qltb_ge. Qed.

Lemma Qeq_bool_false (x y : Q) : Qeq_bool x y = false <-> ~ x == y.
Proof.
  split; intro H.
  - apply Qeq_bool_neq. exact H.
  - destruct (Qeq_bool x y) eqn:E; [| reflexivity].
    apply Qeq_bool_iff in E. contradiction.
Qed.

Lemma fdiv_ok (x y : Q) : ~ y == 0 -> fdiv x y = Ok (x / y).
Proof.
  intro H. unfold fdiv. apply Qeq_bool_false in H. rewrite H. reflexivity.
Qed.

Lemma fdiv_inv (x y q : Q) : fdiv x y = Ok q -> ~ y == 0 /\ q = x / y.
Proof.
  unfold fdiv. destruct (Qeq_bool y 0) eqn:E; [discriminate |].
  intro H. injection H as <-. split; [| reflexivity].
  apply Qeq_bool_false. exact E.
Qed.

Lemma inject_nat_succ_nonzero (n : nat) : ~ inject_Z (Z.of_nat (S n)) == 0.
Proof.
  unfold Qeq. simpl. lia.
Qed.

(** ** Empty input *)

(** C9.  On an empty feature series the backtest, the strategy frame, the
    live simulation, the optimizer and the performance metrics return
    their empty result, whatever the other arguments, and do not raise. *)
Theorem empty_series_gives_empty_result :
  forall (np_sqrt : Q -> Q) (np_power : Q -> Q -> option Q)
         (sort_values : list Optimizer.GridCell -> list Optimizer.GridCell)
         (initial_capital transaction_cost sentiment_threshold volatility_percentile
          risk_free_rate : Q)
         (trading_days : Z) (sentiment_range volatility_range : Q * Q * Q),
    Strategy.generate_sentiment_strategy [] sentiment_threshold volatility_percentile
      = Ok []
    /\ Backtest.run_backtest [] initial_capital transaction_cost sentiment_threshold
         volatility_percentile = Ok []
    /\ LiveSimulator.run_live_simulation [] initial_capital transaction_cost
         sentiment_threshold volatility_percentile = Ok None
    /\ Optimizer.optimize_strategy np_sqrt np_power sort_values [] sentiment_range
         volatility_range transaction_cost = Ok None
    /\ Metrics.calculate_performance_metrics np_sqrt np_power [] risk_free_rate
         trading_days initial_capital transaction_cost sentiment_threshold
         volatility_percentile = Ok None.
Proof.
  intros. repeat split; reflexivity.
Qed.

(** ** The Sharpe guard *)

Lemma guarded_sharpe_total (ar av : option Q) (rf : Q) :
  (if nan_gt av 0 then
     match ar, av with
     | Some a, Some v => sharpe <- fdiv (a - rf) v ;; Ok (Some sharpe)
     | _, _ => Ok None
     end
   else Ok (Some 0))
  = match av with
    | Some v => if Qgtb v 0 then Ok (nan_map (fun a => (a - rf) / v) ar) else Ok (Some 0)
    | None => Ok (Some 0)
    end.
Proof.
  destruct av as [v |]; simpl; [| reflexivity].
  destruct (Qgtb v 0) eqn:G; [| reflexivity].
  destruct ar as [a |]; simpl; [| reflexivity].
  apply Qgtb_gt in G.
  rewrite fdiv_ok by lra. reflexivity.
Qed.

(** C8.  The Sharpe computation always returns.  With no returns it is 0.
    Otherwise, when the annualised volatility is [NaN] or not above 0 it is
    0, and when the volatility [v] is above 0 it is the annualised return
    minus the risk-free rate, divided by [v]: the only division by the
    volatility happens under [0 < v].  The same holds for the Sharpe block
    of the performance metrics. *)
Theorem sharpe_ratio_is_guarded :
  forall (np_sqrt : Q -> Q) (np_power : Q -> Q -> option Q)
         (returns : list Q) (risk_free_rate : Q) (trading_days : Z),
    let ar := annualized_return_of np_power returns trading_days in
    let av := annualized_volatility_of np_sqrt returns trading_days in
    let sharpe :=
      Optimizer._compute_sharpe_ratio np_sqrt np_power returns risk_free_rate
        trading_days in
    (exists s, sharpe = Ok s)
    /\ (returns = [] -> sharpe = Ok (Some 0))
    /\ (av = None -> sharpe = Ok (Some 0))
    /\ (forall v, av = Some v -> ~ 0 < v -> sharpe = Ok (Some 0))
    /\ (forall v, av = Some v -> 0 < v -> returns <> [] ->
          sharpe = Ok (nan_map (fun a => (a - risk_free_rate) / v) ar))
    /\ (forall ar' av' : option Q,
          let sharpe' := Metrics.sharpe_of ar' av' risk_free_rate in
          (exists s, sharpe' = Ok s)
          /\ (av' = None -> sharpe' = Ok (Some 0))
          /\ (forall v, av' = Some v -> ~ 0 < v -> sharpe' = Ok (Some 0))
          /\ (forall v, av' = Some v -> 0 < v ->
                sharpe' = Ok (nan_map (fun a => (a - risk_free_rate) / v) ar'))).
Proof.
  intros np_sqrt np_power returns rf td ar av sharpe.
  assert (E : sharpe =
              match returns with
              | [] => Ok (Some 0)
              | _ :: _ =>
                  match av with
                  | Some v =>
                      if Qgtb v 0 then Ok (nan_map (fun a => (a - rf) / v) ar)
                      else Ok (Some 0)
                  | None => Ok (Some 0)
                  end
              end).
  { subst sharpe. unfold Optimizer._compute_sharpe_ratio.
    destruct returns as [| r l]; [reflexivity |].
    rewrite fdiv_ok by apply inject_nat_succ_nonzero.
    cbn [bind].
    apply (guarded_sharpe_total
             (annualized_return_of np_power (r :: l) td)
             (annualized_volatility_of np_sqrt (r :: l) td) rf). }
  assert (M : forall ar' av',
             Metrics.sharpe_of ar' av' rf =
             match av' with
             | Some v =>
                 if Qgtb v 0 then Ok (nan_map (fun a => (a - rf) / v) ar')
                 else Ok (Some 0)
             | None => Ok (Some 0)
             end).
  { intros. apply guarded_sharpe_total. }
  repeat split.
  - rewrite E. destruct returns; [eexists; reflexivity |].
    destruct av as [v |]; [destruct (Qgtb v 0) |]; eexists; reflexivity.
  - intros ->. exact E.
  - intros H. rewrite E, H. destruct returns; reflexivity.
  - intros v H N. rewrite E, H. destruct returns; [reflexivity |].
    destruct (Qgtb v 0) eqn:G; [| reflexivity].
    apply Qgtb_gt in G. contradiction.
  - intros v H P NE. rewrite E, H. destruct returns; [congruence |].
    apply Qgtb_gt in P. rewrite P. reflexivity.
  - rewrite M. destruct av' as [v |]; [destruct (Qgtb v 0) |]; eexists; reflexivity.
  - intros ->. rewrite M. reflexivity.
  - intros v -> N. rewrite M.
    destruct (Qgtb v 0) eqn:G; [| reflexivity].
    apply Qgtb_gt in G. contradiction.
  - intros v -> P. rewrite M. apply Qgtb_gt in P. rewrite P. reflexivity.
Qed.

(** ** Columns *)

Lemma map2_length {A B C : Type} (f : A -> B -> C) (l1 : list A) (l2 : list B) :
  length (map2 f l1 l2) = Nat.min (length l1) (length l2).
Proof.
  revert l2. induction l1 as [| a l1 IH]; intros [| b l2]; simpl; auto.
Qed.

Lemma map2_nth {A B C : Type} (f : A -> B -> C) (l1 : list A) (l2 : list B)
    (t : nat) (da : A) (db : B) (dc : C) :
  (t < length l1)%nat -> (t < length l2)%nat ->
  nth t (map2 f l1 l2) dc = f (nth t l1 da) (nth t l2 db).
Proof.
  revert l2 t. induction l1 as [| a l1 IH]; intros [| b l2] [| t]; simpl; intros H1 H2;
    try lia; auto.
  apply IH; lia.
Qed.

Lemma fillna_length {A : Type} (v : A) (l : list (option A)) :
  length (fillna v l) = length l.
Proof. unfold fillna. apply length_map. Qed.

Lemma fillna_map_Some {A : Type} (v : A) (l : list A) : fillna v (map Some l) = l.
Proof.
  unfold fillna. rewrite map_map. simpl. apply map_id.
Qed.

Lemma removelast_length {A : Type} (l : list A) :
  length (removelast l) = (length l - 1)%nat.
Proof.
  induction l as [| a [| b l] IH]; simpl in *; auto. rewrite IH. lia.
Qed.

Lemma removelast_nth {A : Type} (l : list A) (t : nat) (d : A) :
  (S t < length l)%nat -> nth t (removelast l) d = nth t l d.
Proof.
  revert t. induction l as [| a [| b l] IH]; intros t H; simpl in *; try lia.
  destruct t as [| t]; [reflexivity |]. apply IH. lia.
Qed.

Lemma positions_unfold (thr vthr : Q) (row : FeatureRow) (df : FeatureSeries) :
  Strategy.positions thr vthr (row :: df) =
  0%Z :: removelast (map (Strategy.select_signal thr vthr) (row :: df)).
Proof.
  unfold Strategy.positions, Strategy.shift1.
  cbn [map]. unfold fillna at 1. cbn [map]. f_equal.
  apply (fillna_map_Some 0%Z).
Qed.

Lemma positions_length (thr vthr : Q) (df : FeatureSeries) :
  length (Strategy.positions thr vthr df) = length df.
Proof.
  destruct df as [| row df]; [reflexivity |].
  rewrite positions_unfold.
  change (length (0%Z :: ?l)) with (S (length l)).
  rewrite removelast_length, length_map. simpl. lia.
Qed.

(** The position of a day is the signal of the day before, and none on the
    first day. *)
Lemma positions_nth (thr vthr : Q) (df : FeatureSeries) (t : nat) (d : FeatureRow) :
  (t < length df)%nat ->
  nth t (Strategy.positions thr vthr df) 0%Z =
  match t with
  | O => 0%Z
  | S t' => Strategy.select_signal thr vthr (nth t' df d)
  end.
Proof.
  intro H. destruct df as [| row df]; [simpl in H; lia |].
  rewrite positions_unfold. destruct t as [| t']; [reflexivity |].
  change (nth (S t') (0%Z :: ?l) 0%Z) with (nth t' l 0%Z).
  rewrite removelast_nth by (rewrite length_map; exact H).
  rewrite <- (map_nth (Strategy.select_signal thr vthr)).
  apply nth_indep. rewrite length_map. lia.
Qed.

Lemma shifted_positions_eq (thr vthr : Q) (df : FeatureSeries) :
  df <> [] -> Optimizer.shifted_positions thr vthr df = Strategy.positions thr vthr df.
Proof.
  intro H. destruct df as [| row df]; [congruence |].
  rewrite positions_unfold. reflexivity.
Qed.

Lemma diff_filled_nth (pos : list Z) (t : nat) :
  (t < length pos)%nat ->
  nth t (fillna 0%Z (Backtest.diff pos)) 0%Z =
  match t with
  | O => 0%Z
  | S t' => (nth t pos 0 - nth t' pos 0)%Z
  end.
Proof.
  intro H. destruct pos as [| x l]; [simpl in H; lia |].
  unfold Backtest.diff. unfold fillna. cbn [map].
  destruct t as [| t']; [reflexivity |].
  cbn [nth]. fold (fillna 0%Z (map Some (map2 Z.sub l (x :: l)))).
  rewrite fillna_map_Some.
  simpl in H.
  rewrite (map2_nth Z.sub l (x :: l) t' 0%Z 0%Z 0%Z) by (simpl; lia).
  reflexivity.
Qed.

Lemma map_abs_nth (l : list Z) (t : nat) :
  nth t (map Z.abs l) 0%Z = Z.abs (nth t l 0%Z).
Proof. exact (map_nth Z.abs l 0%Z t). Qed.

Lemma changes_from_zero_nth (pos : list Z) (t : nat) :
  (t < length pos)%nat ->
  nth t (Optimizer.position_changes_of pos) 0%Z =
  Z.abs (nth t pos 0 - nth t (0 :: pos) 0)%Z.
Proof.
  intro H. unfold Optimizer.position_changes_of.
  rewrite map_abs_nth.
  rewrite (map2_nth Z.sub pos (0%Z :: pos) t 0%Z 0%Z 0%Z) by (simpl; lia).
  reflexivity.
Qed.

Lemma abs_diff_pos (a b : Z) : (Z.abs (a - b) >? 0)%Z = negb (a =? b)%Z.
Proof.
  destruct (Z.eqb_spec a b) as [E | E]; simpl.
  - subst. rewrite Z.sub_diag. reflexivity.
  - apply Z.gtb_lt. lia.
Qed.

(** The cost column charges exactly the days on which the position moved. *)
Lemma cost_charged_iff_changed (pos : list Z) (t : nat) :
  (t < length pos)%nat ->
  (nth t (map Z.abs (fillna 0%Z (Backtest.diff pos))) 0 >? 0)%Z = position_changed pos t.
Proof.
  intro H. rewrite map_abs_nth.
  rewrite diff_filled_nth by exact H.
  destruct t as [| t']; [reflexivity |].
  apply abs_diff_pos.
Qed.

Lemma cumprod_from_nth (a : Q) (l : list Q) (t : nat) :
  (t < length l)%nat ->
  nth t (cumprod_from a l) 0 == a * fold_right Qmult 1 (firstn (S t) l).
Proof.
  revert a t. induction l as [| x l IH]; intros a t H; [simpl in H; lia |].
  destruct t as [| t'].
  - simpl. ring.
  - cbn [cumprod_from nth]. rewrite IH by (simpl in H; lia).
    change (firstn (S (S t')) (x :: l)) with (x :: firstn (S t') l).
    cbn [fold_right]. ring.
Qed.

Lemma cumprod_nth (l : list Q) (t : nat) :
  (t < length l)%nat ->
  nth t (cumprod l) 0 == fold_right Qmult 1 (firstn (S t) l).
Proof.
  intro H. destruct l as [| x l]; [simpl in H; lia |].
  destruct t as [| t'].
  - simpl. ring.
  - cbn [cumprod nth]. rewrite cumprod_from_nth by (simpl in H; lia).
    change (firstn (S (S t')) (x :: l)) with (x :: firstn (S t') l).
    reflexivity.
Qed.

Lemma cumprod_length (l : list Q) : length (cumprod l) = length l.
Proof.
  destruct l as [| x l]; [reflexivity |]. simpl. f_equal.
  generalize x. induction l as [| y l IH]; intro a; simpl; auto.
Qed.

Lemma growth_as_product (t : nat) (rs : list Q) :
  fold_right Qmult 1 (firstn (S t) (map (Qplus 1) rs)) == growth_through t rs.
Proof.
  unfold growth_through. generalize (S t) as n. intro n. revert rs.
  induction n as [| n IH]; intros [| r rs]; simpl; try reflexivity.
  rewrite IH. reflexivity.
Qed.

(** ** The percentile *)

Lemma insert_sorted_not_nil (x : Q) (l : list Q) : insert_sorted x l <> [].
Proof.
  destruct l as [| y l]; simpl; [discriminate |].
  destruct (Qle_bool x y); discriminate.
Qed.

Lemma sort_asc_not_nil (a : list Q) : a <> [] -> sort_asc a <> [].
Proof.
  destruct a as [| x a]; [congruence |]. intros _. simpl.
  apply insert_sorted_not_nil.
Qed.

(** The percentile of a non-empty sample at a rank within [0, 100] exists. *)
Lemma np_percentile_defined (a : list Q) (q : Q) :
  a <> [] -> 0 <= q -> q <= 100 -> exists v, np_percentile a q = Ok v.
Proof.
  intros Ha H0 H100. unfold np_percentile.
  assert (E1 : Qltb q 0 = false) by (apply Qltb_ge; exact H0).
  assert (E2 : Qltb 100 q = false) by (apply Qltb_ge; exact H100).
  rewrite E1, E2. simpl orb. cbv iota.
  destruct (sort_asc a) as [| x0 s] eqn:E.
  - exfalso. exact (sort_asc_not_nil a Ha E).
  - eexists. reflexivity.
Qed.

(** ** The strategy frame *)

Lemma strategy_rows_columns (df : FeatureSeries) (pos : list Z) :
  length pos = length df ->
  let sdf :=
    map2 (fun row p =>
            Strategy.mkStrategyRow (date row) (close row) (returns row) (sentiment row) p)
         df pos in
  map Strategy.position sdf = pos
  /\ map Strategy.s_returns sdf = map returns df
  /\ map Strategy.s_date sdf = map date df
  /\ length sdf = length df.
Proof.
  revert pos. induction df as [| row df IH]; intros [| p pos] H; simpl in *;
    try discriminate; try lia.
  - repeat split.
  - destruct (IH pos) as (A & B & C & D); [lia |].
    repeat split; f_equal; assumption.
Qed.

Lemma generate_sentiment_strategy_ok (df : FeatureSeries) (thr pct vthr : Q) :
  df <> [] ->
  volatility_threshold_of df pct = Ok vthr ->
  exists sdf,
    Strategy.generate_sentiment_strategy df thr pct = Ok sdf
    /\ map Strategy.position sdf = Strategy.positions thr vthr df
    /\ map Strategy.s_returns sdf = map returns df
    /\ map Strategy.s_date sdf = map date df
    /\ length sdf = length df.
Proof.
  intros Hne Hv. unfold Strategy.generate_sentiment_strategy.
  destruct df as [| row df]; [congruence |].
  rewrite Hv. cbn [bind].
  eexists. split; [reflexivity |].
  apply strategy_rows_columns. apply positions_length.
Qed.

(** ** The backtest formulas *)

Lemma net_returns_nth (pos : list Z) (ret : list Q) (changes : list Z) (tc : Q) (t : nat) :
  length pos = length ret -> length changes = length ret -> (t < length ret)%nat ->
  nth t (map2 Qminus (map2 (fun p r => inject_Z p * r) pos ret)
           (map (fun c => if (c >? 0)%Z then tc else 0) changes)) 0
  = inject_Z (nth t pos 0%Z) * nth t ret 0
    - (if (nth t changes 0 >? 0)%Z then tc else 0).
Proof.
  intros Hp Hc Ht.
  rewrite (map2_nth Qminus _ _ t 0 0 0).
  - rewrite (map2_nth (fun p r => inject_Z p * r) pos ret t 0%Z 0 0) by lia.
    f_equal.
    exact (map_nth (fun c => if (c >? 0)%Z then tc else 0) changes 0%Z t).
  - rewrite map2_length. lia.
  - rewrite length_map. lia.
Qed.

Lemma net_returns_length (pos : list Z) (ret : list Q) (changes : list Z) (tc : Q) :
  length pos = length ret -> length changes = length ret ->
  length (map2 Qminus (map2 (fun p r => inject_Z p * r) pos ret)
            (map (fun c => if (c >? 0)%Z then tc else 0) changes)) = length ret.
Proof.
  intros Hp Hc. rewrite !map2_length, length_map. lia.
Qed.

Lemma diff_length (pos : list Z) : length (Backtest.diff pos) = length pos.
Proof.
  destruct pos as [| x l]; [reflexivity |]. unfold Backtest.diff.
  cbn [length]. rewrite length_map, map2_length. simpl. lia.
Qed.

Lemma changes_from_zero_length (pos : list Z) :
  length (Optimizer.position_changes_of pos) = length pos.
Proof.
  unfold Optimizer.position_changes_of. rewrite length_map, map2_length. simpl. lia.
Qed.

Lemma optimizer_cost_charged_iff_changed (thr vthr : Q) (df : FeatureSeries) (t : nat) :
  (t < length df)%nat ->
  let pos := Strategy.positions thr vthr df in
  (nth t (Optimizer.position_changes_of pos) 0 >? 0)%Z = position_changed pos t.
Proof.
  intros H pos.
  rewrite changes_from_zero_nth by (unfold pos; rewrite positions_length; exact H).
  destruct t as [| t'].
  - unfold pos. rewrite (positions_nth thr vthr df 0 (mkFeatureRow "" 0 None 0 None None) H).
    reflexivity.
  - change (nth (S t') (0%Z :: pos) 0%Z) with (nth t' pos 0%Z).
    apply abs_diff_pos.
Qed.

Lemma output_rows_nth (f : Backtest.Frame) (t : nat) :
  length (Backtest.f_market_returns f) = length (Backtest.f_date f) ->
  length (Backtest.f_strategy_returns f) = length (Backtest.f_date f) ->
  length (Backtest.f_portfolio_value f) = length (Backtest.f_date f) ->
  (t < length (Backtest.f_date f))%nat ->
  length (Backtest.output_rows f) = length (Backtest.f_date f)
  /\ exists row,
       nth_error (Backtest.output_rows f) t = Some row
       /\ Backtest.strategy_returns row = round (nth t (Backtest.f_strategy_returns f) 0) 6
       /\ Backtest.portfolio_value row = round (nth t (Backtest.f_portfolio_value f) 0) 2.
Proof.
  intros Hm Hs Hp Ht.
  assert (L : length (Backtest.output_rows f) = length (Backtest.f_date f)).
  { unfold Backtest.output_rows. rewrite map2_length, !length_combine. lia. }
  split; [exact L |].
  set (d := Backtest.mkBacktestRow "" 0 0 0).
  exists (nth t (Backtest.output_rows f) d).
  split; [apply nth_error_nth'; lia |].
  unfold Backtest.output_rows.
  rewrite (map2_nth _ _ _ t (""%string, 0) (0, 0) d) by (rewrite length_combine; lia).
  rewrite (combine_nth (Backtest.f_strategy_returns f) (Backtest.f_portfolio_value f))
    by lia.
  split; reflexivity.
Qed.

(** C2.  On a non-empty series on which the volatility percentile is
    defined, the backtest returns one row per day and, for every day [t],
    the strategy return is the position times the market return, less the
    transaction cost exactly when the position differs from the day
    before; the portfolio value is the initial capital times the product
    of [1 + strategy_return] up to [t]; the output row holds these two
    rounded to 6 and 2 places.  The strategy returns of the optimizer's
    backtest obey the same formula, and its cumulative returns are the
    same running product. *)
Theorem backtest_returns_and_value :
  forall (df : FeatureSeries)
         (initial_capital transaction_cost sentiment_threshold volatility_percentile : Q),
    df <> [] ->
    0 <= volatility_percentile <= 100 ->
    dropna (map volatility_5d df) <> [] ->
    exists vthr sdf,
      volatility_threshold_of df volatility_percentile = Ok vthr
      /\ Strategy.generate_sentiment_strategy df sentiment_threshold
           volatility_percentile = Ok sdf
      /\ let f := Backtest.backtest_frame sdf initial_capital transaction_cost in
         let pos := Strategy.positions sentiment_threshold vthr df in
         let ret := fillna 0 (map returns df) in
         let opt := Optimizer.net_strategy_returns
                      (Optimizer.shifted_positions sentiment_threshold vthr df)
                      ret transaction_cost in
         Backtest.run_backtest df initial_capital transaction_cost sentiment_threshold
           volatility_percentile = Ok (Backtest.output_rows f)
         /\ length (Backtest.output_rows f) = length df
         /\ Backtest.f_position f = pos
         /\ Backtest.f_returns f = ret
         /\ Optimizer.shifted_positions sentiment_threshold vthr df = pos
         /\ forall t, (t < length df)%nat ->
              nth t (Backtest.f_strategy_returns f) 0 ==
                inject_Z (nth t pos 0%Z) * nth t ret 0
                - (if position_changed pos t then transaction_cost else 0)
              /\ nth t (Backtest.f_portfolio_value f) 0 ==
                   initial_capital * growth_through t (Backtest.f_strategy_returns f)
              /\ (exists row,
                    nth_error (Backtest.output_rows f) t = Some row
                    /\ Backtest.strategy_returns row =
                         round (nth t (Backtest.f_strategy_returns f) 0) 6
                    /\ Backtest.portfolio_value row =
                         round (nth t (Backtest.f_portfolio_value f) 0) 2)
              /\ nth t opt 0 ==
                   inject_Z (nth t pos 0%Z) * nth t ret 0
                   - (if position_changed pos t then transaction_cost else 0)
              /\ nth t (cumprod (map (Qplus 1) opt)) 0 == growth_through t opt.
Proof.
  intros df ic tc thr pct Hne [Hlo Hhi] Hvol.
  destruct (np_percentile_defined _ pct Hvol Hlo Hhi) as [vthr Hv].
  fold (volatility_threshold_of df pct) in Hv.
  destruct (generate_sentiment_strategy_ok df thr pct vthr Hne Hv)
    as (sdf & Hs & Hpos & Hret & Hdate & Hlen).
  exists vthr, sdf. split; [exact Hv |]. split; [exact Hs |].
  intros f pos ret opt.
  assert (Lpos : length pos = length df) by apply positions_length.
  assert (Lret : length ret = length df)
    by (unfold ret; rewrite fillna_length, length_map; reflexivity).
  assert (Fpos : Backtest.f_position f = pos) by exact Hpos.
  assert (Fret : Backtest.f_returns f = ret)
    by (unfold f, Backtest.backtest_frame; cbn; rewrite Hret; reflexivity).
  assert (Sopt : Optimizer.shifted_positions thr vthr df = pos)
    by (apply shifted_positions_eq; exact Hne).
  assert (Fsr : Backtest.f_strategy_returns f =
                map2 Qminus (map2 (fun p r => inject_Z p * r) pos ret)
                  (map (fun c => if (c >? 0)%Z then tc else 0)
                     (map Z.abs (fillna 0%Z (Backtest.diff pos))))).
  { unfold f, Backtest.backtest_frame. cbn. rewrite Hpos, Hret. reflexivity. }
  assert (Lch : length (map Z.abs (fillna 0%Z (Backtest.diff pos))) = length ret).
  { rewrite length_map, fillna_length, diff_length. lia. }
  assert (Lsr : length (Backtest.f_strategy_returns f) = length df).
  { rewrite Fsr, net_returns_length; lia. }
  assert (Fpv : Backtest.f_portfolio_value f =
                map (Qmult ic) (cumprod (map (Qplus 1) (Backtest.f_strategy_returns f)))).
  { reflexivity. }
  assert (Lpv : length (Backtest.f_portfolio_value f) = length df).
  { rewrite Fpv, length_map, cumprod_length, length_map. exact Lsr. }
  assert (Ldate : length (Backtest.f_date f) = length df).
  { unfold f, Backtest.backtest_frame. cbn. rewrite Hdate, length_map. reflexivity. }
  assert (Lmr : length (Backtest.f_market_returns f) = length df).
  { unfold f, Backtest.backtest_frame. cbn. rewrite Hret. exact Lret. }
  assert (Lopt : length opt = length df).
  { unfold opt, Optimizer.net_strategy_returns. rewrite Sopt.
    rewrite net_returns_length; try lia.
    rewrite changes_from_zero_length. lia. }
  split.
  { unfold Backtest.run_backtest. rewrite Hs. cbn [bind].
    destruct sdf as [| r0 sdf0]; [| reflexivity].
    destruct df; [congruence | discriminate Hlen]. }
  assert (Hrows : forall t, (t < length df)%nat ->
            length (Backtest.output_rows f) = length (Backtest.f_date f)
            /\ exists row,
                 nth_error (Backtest.output_rows f) t = Some row
                 /\ Backtest.strategy_returns row =
                      round (nth t (Backtest.f_strategy_returns f) 0) 6
                 /\ Backtest.portfolio_value row =
                      round (nth t (Backtest.f_portfolio_value f) 0) 2).
  { intros t Ht. apply output_rows_nth; lia. }
  split.
  { destruct df as [| row0 df0]; [congruence |].
    destruct (Hrows 0%nat) as [L _]; [simpl; lia |]. rewrite L. exact Ldate. }
  split; [exact Fpos |]. split; [exact Fret |]. split; [exact Sopt |].
  intros t Ht.
  split.
  { rewrite Fsr, net_returns_nth by lia.
    rewrite cost_charged_iff_changed by lia. reflexivity. }
  split.
  { rewrite Fpv.
    assert (E : nth t (map (Qmult ic)
                         (cumprod (map (Qplus 1) (Backtest.f_strategy_returns f)))) 0
                = ic * nth t (cumprod (map (Qplus 1) (Backtest.f_strategy_returns f))) 0).
    { rewrite (nth_indep _ 0 (ic * 0)) by
        (rewrite length_map, cumprod_length, length_map; lia).
      apply (map_nth (Qmult ic)). }
    rewrite E, cumprod_nth by (rewrite length_map; lia).
    rewrite growth_as_product. reflexivity. }
  split; [apply Hrows; exact Ht |].
  split.
  { unfold opt, Optimizer.net_strategy_returns. rewrite Sopt.
    rewrite net_returns_nth; try lia.
    - unfold pos. rewrite optimizer_cost_charged_iff_changed by exact Ht. reflexivity.
    - rewrite changes_from_zero_length. lia. }
  rewrite cumprod_nth by (rewrite length_map; lia).
  apply growth_as_product.
Qed.

Lemma backtest_returns_and_value_witness :
  exists vthr sdf,
    volatility_threshold_of series_gain 50 = Ok vthr
    /\ Strategy.generate_sentiment_strategy series_gain (1 # 5) 50 = Ok sdf
    /\ Backtest.run_backtest series_gain 10000 (1 # 1000) (1 # 5) 50
       = Ok (Backtest.output_rows (Backtest.backtest_frame sdf 10000 (1 # 1000)))
    /\ nth 2 (Backtest.f_portfolio_value (Backtest.backtest_frame sdf 10000 (1 # 1000))) 0
       == 10000 * growth_through 2
                    (Backtest.f_strategy_returns
                       (Backtest.backtest_frame sdf 10000 (1 # 1000))).
Proof.
  destruct (backtest_returns_and_value series_gain 10000 (1 # 1000) (1 # 5) 50)
    as (vthr & sdf & Hv & Hs & Hrun & _ & _ & _ & _ & Hday).
  - discriminate.
  - split; [apply Qle_bool_imp_le | apply Qle_bool_imp_le]; reflexivity.
  - discriminate.
  - exists vthr, sdf. split; [exact Hv |]. split; [exact Hs |]. split; [exact Hrun |].
    destruct (Hday 2%nat) as (_ & Hpv & _).
    + simpl. lia.
    + exact Hpv.
Defined.

(** ** The simulator loop *)

Section Run.

Variables ic tc thr vthr : Q.

Local Abbreviation step_day := (LiveSimulator.simulate_day ic tc thr vthr).
Local Abbreviation run_days := (LiveSimulator.simulate_days ic tc thr vthr).

Lemma simulate_days_app (v : LiveSimulator.Vars) (l1 l2 : FeatureSeries) :
  run_days v (l1 ++ l2) = (v' <- run_days v l1 ;; run_days v' l2).
Proof.
  revert v. induction l1 as [| row l1 IH]; intro v; [reflexivity |].
  cbn [app LiveSimulator.simulate_days].
  destruct (step_day v row) as [v1 | e]; cbn [bind]; [apply IH | reflexivity].
Qed.

Lemma simulate_days_snoc (v : LiveSimulator.Vars) (l : FeatureSeries) (row : FeatureRow) :
  run_days v (l ++ [row]) = (v' <- run_days v l ;; step_day v' row).
Proof.
  rewrite simulate_days_app.
  destruct (run_days v l) as [v1 | e]; cbn [bind]; [| reflexivity].
  cbn [LiveSimulator.simulate_days].
  destruct (step_day v1 row); reflexivity.
Qed.

(** A run that ends has gone through every prefix. *)
Lemma simulate_days_prefix (v vf : LiveSimulator.Vars) (df : FeatureSeries) (k : nat) :
  run_days v df = Ok vf ->
  exists vk, run_days v (firstn k df) = Ok vk /\ run_days vk (skipn k df) = Ok vf.
Proof.
  intro H. rewrite <- (firstn_skipn k df) in H at 1.
  rewrite simulate_days_app in H.
  destruct (run_days v (firstn k df)) as [vk | e]; cbn [bind] in H; [| discriminate].
  exists vk. split; [reflexivity | exact H].
Qed.

Lemma firstn_succ_snoc {A : Type} (l : list A) (k : nat) (x : A) :
  nth_error l k = Some x -> firstn (S k) l = firstn k l ++ [x].
Proof.
  revert k. induction l as [| a l IH]; intros [| k] H; simpl in *; try discriminate.
  - injection H as ->. reflexivity.
  - f_equal. apply IH. exact H.
Qed.

(** What holds initially and is kept by every day holds after the run. *)
Lemma simulate_days_invariant (P : LiveSimulator.Vars -> Prop) (Ok_row : FeatureRow -> Prop) :
  (forall v row v', P v -> Ok_row row -> step_day v row = Ok v' -> P v') ->
  forall (df : FeatureSeries) (v vf : LiveSimulator.Vars),
    Forall Ok_row df -> P v -> run_days v df = Ok vf -> P vf.
Proof.
  intros Hstep df. induction df as [| row df IH]; intros v vf Hall Hv Hrun.
  - simpl in Hrun. injection Hrun as <-. exact Hv.
  - cbn [LiveSimulator.simulate_days] in Hrun.
    destruct (step_day v row) as [v1 | e] eqn:E; cbn [bind] in Hrun; [| discriminate].
    inversion Hall as [| ? ? Hrow Hrest]; subst.
    apply (IH v1 vf Hrest); [| exact Hrun].
    exact (Hstep v row v1 Hv Hrow E).
Qed.

(** The position after the trading block is the day's signal. *)
Lemma execute_signal_position (v : LiveSimulator.Vars) (sig : Z) (today : string)
    (px : Q) (b : LiveSimulator.Book) (pos : Z) :
  LiveSimulator.execute_signal tc v sig today px = Ok (b, pos) -> pos = sig.
Proof.
  unfold LiveSimulator.execute_signal.
  destruct (Z.eqb_spec sig (LiveSimulator.position v)) as [E | E]; cbn [negb].
  - intro H. injection H as _ <-. symmetry. exact E.
  - match goal with |- context [bind ?m _] => destruct m end; cbn [bind]; [| discriminate].
    intro H. injection H as _ <-. reflexivity.
Qed.

(** The fields of the variables and of the three log entries that one
    day leaves. *)
Lemma simulate_day_inv (v v' : LiveSimulator.Vars) (row : FeatureRow) :
  step_day v row = Ok v' ->
  let sig := LiveSimulator._generate_signal (sentiment_avg_5d row) (volatility_5d row)
               vthr thr in
  let before := LiveSimulator.mark_to_market (LiveSimulator.position v)
                  (LiveSimulator.shares v) (LiveSimulator.cash v) (close row) in
  exists b,
    LiveSimulator.execute_signal tc v sig (date row) (close row) = Ok (b, sig)
    /\ ~ ic == 0
    /\ LiveSimulator.cash v' = LiveSimulator.b_cash b
    /\ LiveSimulator.position v' = sig
    /\ LiveSimulator.shares v' = LiveSimulator.b_shares b
    /\ LiveSimulator.open_trade v' = LiveSimulator.b_open_trade b
    /\ LiveSimulator.completed_trades v' = LiveSimulator.b_completed_trades b
    /\ LiveSimulator.prev_portfolio_value v' =
         LiveSimulator.mark_to_market sig (LiveSimulator.b_shares b)
           (LiveSimulator.b_cash b) (close row)
    /\ LiveSimulator.peak_value v' =
         (if Qgtb before (LiveSimulator.peak_value v) then before
          else LiveSimulator.peak_value v)
    /\ (exists s,
          LiveSimulator.simulation_states v' = LiveSimulator.simulation_states v ++ [s]
          /\ LiveSimulator.st_date s = date row
          /\ LiveSimulator.signal s = sig
          /\ LiveSimulator.pos_current s = sig
          /\ LiveSimulator.pos_type s = LiveSimulator.position_name sig
          /\ LiveSimulator.pos_shares s = round (LiveSimulator.b_shares b) 4
          /\ LiveSimulator.pf_cash s = round (LiveSimulator.b_cash b) 2
          /\ LiveSimulator.pf_total_value s =
               round (LiveSimulator.prev_portfolio_value v') 2
          /\ LiveSimulator.pf_daily_pnl s =
               round (before - LiveSimulator.prev_portfolio_value v) 2
          /\ LiveSimulator.risk_peak_value s = round (LiveSimulator.peak_value v') 2)
    /\ (exists d,
          LiveSimulator.daily_pnl v' = LiveSimulator.daily_pnl v ++ [d]
          /\ LiveSimulator.dp_date d = date row
          /\ LiveSimulator.pnl d =
               round (before - LiveSimulator.prev_portfolio_value v) 2
          /\ LiveSimulator.cumulative_pnl d =
               round (LiveSimulator.prev_portfolio_value v' - ic) 2)
    /\ (exists h,
          LiveSimulator.position_history v' = LiveSimulator.position_history v ++ [h]
          /\ LiveSimulator.ph_date h = date row
          /\ LiveSimulator.ph_position h = sig
          /\ LiveSimulator.ph_shares h = round (LiveSimulator.b_shares b) 4).
Proof.
  intros H sig before. unfold LiveSimulator.simulate_day in H.
  fold sig in H.
  destruct (LiveSimulator.execute_signal tc v sig (date row) (close row))
    as [[b pos] | e] eqn:E; cbn [bind] in H; [| discriminate].
  pose proof (execute_signal_position v sig _ _ b pos E) as ->.
  cbn [fst snd] in H.
  match type of H with
  | bind (fdiv ?x ?y) _ = _ => destruct (fdiv x y) as [tr | e] eqn:D
  end; cbn [bind] in H; [| discriminate].
  apply fdiv_inv in D. destruct D as [Hic _].
  injection H as <-. cbn.
  exists b. split; [reflexivity |]. split; [exact Hic |].
  repeat (split; [reflexivity |]).
  split; [| split].
  - eexists. split; [reflexivity |]. cbn. repeat split; reflexivity.
  - eexists. split; [reflexivity |]. cbn. repeat split; reflexivity.
  - eexists. split; [reflexivity |]. cbn. repeat split; reflexivity.
Qed.

End Run.

(** ** Allocation *)

Lemma allocated_iff (p : Z) (ca sh : Q) :
  allocated p ca sh -> (0 < sh <-> p <> 0%Z) /\ (p <> 0%Z <-> ca == 0).
Proof.
  intros [(Hp & Hc & Hs) | (Hp & Hc & Hs)]; repeat split; intros; try lra; try lia;
    try assumption; try congruence.
Qed.

Lemma net_positive (x px c : Q) : 0 < x -> 0 < px -> 0 <= c -> c < 1 -> 0 < x * px - x * px * c.
Proof.
  intros Hx Hpx Hc0 Hc1.
  assert (H1 : 0 < x * px) by (apply Qmult_lt_0_compat; assumption).
  assert (H2 : 0 < (x * px) * (1 - c)) by (apply Qmult_lt_0_compat; lra).
  lra.
Qed.

Lemma bought_positive (ca px c : Q) : 0 < ca -> 0 < px -> c < 1 -> 0 < ca * (1 - c) / px.
Proof.
  intros Hca Hpx Hc1.
  apply Qlt_shift_div_l; [exact Hpx |].
  assert (H : 0 < ca * (1 - c)) by (apply Qmult_lt_0_compat; lra).
  lra.
Qed.

Lemma execute_signal_allocated (c : Q) (v : LiveSimulator.Vars) (sig : Z) (today : string)
    (px : Q) (b : LiveSimulator.Book) :
  0 <= c -> c < 1 -> 0 < px ->
  allocated (LiveSimulator.position v) (LiveSimulator.cash v) (LiveSimulator.shares v) ->
  LiveSimulator.execute_signal c v sig today px = Ok (b, sig) ->
  allocated sig (LiveSimulator.b_cash b) (LiveSimulator.b_shares b).
Proof.
  intros Hc0 Hc1 Hpx Hal. unfold LiveSimulator.execute_signal.
  destruct (Z.eqb_spec sig (LiveSimulator.position v)) as [E | E]; cbn [negb].
  - intro H. injection H as <-. cbn. rewrite E. exact Hal.
  - destruct Hal as [(Hp & Hca & Hsh) | (Hp & Hca & Hsh)].
    + rewrite Hp. cbn [Z.eqb negb andb].
      assert (Hs : (sig =? 0)%Z = false) by (apply Z.eqb_neq; congruence).
      rewrite Hs. cbn [negb]. unfold LiveSimulator.open_position. cbn.
      rewrite fdiv_ok by lra. cbn [bind].
      intro H. injection H as <-. cbn.
      right. split; [congruence |]. split; [reflexivity |].
      apply bought_positive; assumption.
    + assert (Hz : (LiveSimulator.position v =? 0)%Z = false) by (apply Z.eqb_neq; exact Hp).
      assert (Hg : Qgtb (LiveSimulator.shares v) 0 = true) by (apply Qgtb_gt; exact Hsh).
      rewrite Hz, Hg. cbn [negb andb].
      pose proof (net_positive _ _ _ Hsh Hpx Hc0 Hc1) as Hnet.
      destruct (Z.eqb_spec sig 0) as [S0 | S0]; cbn [negb].
      * cbn [bind]. intro H. injection H as <-. cbn.
        left. split; [exact S0 |]. split; [exact Hnet | reflexivity].
      * unfold LiveSimulator.open_position. cbn.
        rewrite fdiv_ok by lra. cbn [bind].
        intro H. injection H as <-. cbn.
        right. split; [exact S0 |]. split; [reflexivity |].
        apply bought_positive; assumption.
Qed.

Lemma simulate_day_allocated (ic c thr vthr : Q) (v v' : LiveSimulator.Vars)
    (row : FeatureRow) :
  0 <= c -> c < 1 ->
  allocated (LiveSimulator.position v) (LiveSimulator.cash v) (LiveSimulator.shares v)
  /\ Forall step_allocated (LiveSimulator.simulation_states v) ->
  0 < close row ->
  LiveSimulator.simulate_day ic c thr vthr v row = Ok v' ->
  allocated (LiveSimulator.position v') (LiveSimulator.cash v') (LiveSimulator.shares v')
  /\ Forall step_allocated (LiveSimulator.simulation_states v').
Proof.
  intros Hc0 Hc1 [Hal Hlog] Hpx Hday.
  destruct (simulate_day_inv ic c thr vthr v v' row Hday)
    as (b & Hex & _ & Hcash & Hpos & Hsh & _ & _ & _ & _ & Hs & _).
  pose proof (execute_signal_allocated c v _ _ _ b Hc0 Hc1 Hpx Hal Hex) as Hal'.
  split.
  - rewrite Hcash, Hpos, Hsh. exact Hal'.
  - destruct Hs as (s & -> & _ & _ & Hcur & _ & Hshares & Hca & _).
    apply Forall_app. split; [exact Hlog |].
    constructor; [| constructor].
    exists (LiveSimulator.b_shares b), (LiveSimulator.b_cash b).
    split; [exact Hshares |]. split; [exact Hca |].
    rewrite Hcur. apply allocated_iff. exact Hal'.
Qed.

Lemma run_live_simulation_inv (df : FeatureSeries) (ic tc thr pct : Q)
    (r : LiveSimulator.LiveResult) :
  LiveSimulator.run_live_simulation df ic tc thr pct = Ok (Some r) ->
  exists vthr v,
    volatility_threshold_of df pct = Ok vthr
    /\ LiveSimulator.simulate_days ic tc thr vthr (LiveSimulator.initial_vars ic) df = Ok v
    /\ LiveSimulator.r_simulation_states r = LiveSimulator.simulation_states v
    /\ LiveSimulator.r_completed_trades r = LiveSimulator.completed_trades v
    /\ LiveSimulator.r_daily_pnl r = LiveSimulator.daily_pnl v
    /\ LiveSimulator.r_position_history r = LiveSimulator.position_history v
    /\ LiveSimulator.summary r = LiveSimulator.summarize v.
Proof.
  unfold LiveSimulator.run_live_simulation.
  destruct df as [| row df]; [discriminate |].
  destruct (volatility_threshold_of (row :: df) pct) as [vthr | e]; cbn [bind];
    [| discriminate].
  destruct (LiveSimulator.simulate_days ic tc thr vthr (LiveSimulator.initial_vars ic)
              (row :: df)) as [v | e] eqn:Hsim; cbn [bind]; [| discriminate].
  match goal with |- bind ?m _ = _ -> _ => destruct m end; cbn [bind]; [| discriminate].
  intro H. injection H as <-.
  exists vthr, v. repeat split; try reflexivity. exact Hsim.
Qed.

Lemma Forall_firstn {A : Type} (P : A -> Prop) (l : list A) (k : nat) :
  Forall P l -> Forall P (firstn k l).
Proof.
  intro H. revert k. induction H as [| a l Ha Hl IH]; intros [| k]; simpl; auto.
Qed.

(** C3, as amended.  In a run with a positive initial capital, a
    transaction cost in [0, 1) and positive closing prices, every
    simulation step records the roundings of a share count and a cash
    amount for which: shares are held exactly when the position is not
    flat, exactly when the cash is 0.  The same holds of the simulator's
    variables after every day. *)
Theorem fully_invested_or_fully_in_cash :
  forall (df : FeatureSeries)
         (initial_capital transaction_cost sentiment_threshold volatility_percentile : Q)
         (r : LiveSimulator.LiveResult),
    0 < initial_capital ->
    0 <= transaction_cost ->
    transaction_cost < 1 ->
    Forall (fun row => 0 < close row) df ->
    LiveSimulator.run_live_simulation df initial_capital transaction_cost
      sentiment_threshold volatility_percentile = Ok (Some r) ->
    Forall step_allocated (LiveSimulator.r_simulation_states r)
    /\ exists vthr,
         volatility_threshold_of df volatility_percentile = Ok vthr
         /\ forall k v,
              vars_after initial_capital transaction_cost sentiment_threshold vthr df k
                = Ok v ->
              (0 < LiveSimulator.shares v <-> LiveSimulator.position v <> 0%Z)
              /\ (LiveSimulator.position v <> 0%Z <-> LiveSimulator.cash v == 0).
Proof.
  intros df ic tc thr pct r Hic Hc0 Hc1 Hpx Hrun.
  destruct (run_live_simulation_inv df ic tc thr pct r Hrun)
    as (vthr & v & Hv & Hsim & Hstates & _).
  set (P := fun v : LiveSimulator.Vars =>
              allocated (LiveSimulator.position v) (LiveSimulator.cash v)
                (LiveSimulator.shares v)
              /\ Forall step_allocated (LiveSimulator.simulation_states v)).
  assert (Hinit : P (LiveSimulator.initial_vars ic)).
  { split; [| constructor]. left. cbn.
    split; [reflexivity |]. split; [exact Hic | reflexivity]. }
  assert (Hstep : forall v row v',
             P v -> 0 < close row ->
             LiveSimulator.simulate_day ic tc thr vthr v row = Ok v' -> P v').
  { intros v0 row v1 HP Hrow Hday.
    exact (simulate_day_allocated ic tc thr vthr v0 v1 row Hc0 Hc1 HP Hrow Hday). }
  split.
  - rewrite Hstates.
    apply (simulate_days_invariant ic tc thr vthr P _ Hstep df _ v Hpx Hinit Hsim).
  - exists vthr. split; [exact Hv |].
    intros k vk Hk. unfold vars_after in Hk.
    apply allocated_iff.
    apply (simulate_days_invariant ic tc thr vthr P _ Hstep (firstn k df) _ vk
             (Forall_firstn _ df k Hpx) Hinit Hk).
Qed.

Lemma fully_invested_or_fully_in_cash_witness :
  exists r,
    LiveSimulator.run_live_simulation series_gain 10000 (1 # 1000) (1 # 5) 50 = Ok (Some r)
    /\ Forall step_allocated (LiveSimulator.r_simulation_states r).
Proof.
  eexists. split; [vm_compute; reflexivity |].
  apply (fully_invested_or_fully_in_cash series_gain 10000 (1 # 1000) (1 # 5) 50).
  - reflexivity.
  - discriminate.
  - reflexivity.
  - repeat constructor.
  - vm_compute. reflexivity.
Defined.

(** C3 as stated fails: with a transaction cost of 1 the day that opens a
    short position leaves a step whose position is not flat and whose
    share count is 0. *)
Lemma position_without_shares :
  exists r s vthr v,
    LiveSimulator.run_live_simulation series_one_short 10000 1 (1 # 5) 50 = Ok (Some r)
    /\ LiveSimulator.r_simulation_states r = [s]
    /\ LiveSimulator.pos_current s = (-1)%Z
    /\ LiveSimulator.pos_shares s == 0
    /\ ~ (0 < LiveSimulator.pos_shares s <-> LiveSimulator.pos_current s <> 0%Z)
    /\ volatility_threshold_of series_one_short 50 = Ok vthr
    /\ vars_after 10000 1 (1 # 5) vthr series_one_short 1 = Ok v
    /\ LiveSimulator.position v = (-1)%Z
    /\ LiveSimulator.shares v == 0
    /\ ~ (0 < LiveSimulator.shares v <-> LiveSimulator.position v <> 0%Z).
Proof.
  eexists. eexists. eexists. eexists. split; [vm_compute; reflexivity |].
  split; [reflexivity |]. split; [reflexivity |]. split; [reflexivity |].
  split.
  { intros [_ H]. cbn in H.
    assert (L : 0 < 0 # 1000000) by (apply H; discriminate).
    discriminate L. }
  split; [vm_compute; reflexivity |].
  split; [vm_compute; reflexivity |].
  split; [reflexivity |]. split; [reflexivity |].
  intros [_ H]. cbn in H.
  assert (L : 0 < 0 # 100) by (apply H; discriminate).
  discriminate L.
Defined.

(** ** Rounding *)

Lemma rint_bounds (x : Q) : (Qfloor x <= rint x <= Qfloor x + 1)%Z.
Proof.
  unfold rint. destruct (Qcompare _ _); [destruct (Z.even _) | |]; lia.
Qed.

Lemma rint_mono (x y : Q) : x <= y -> (rint x <= rint y)%Z.
Proof.
  intro H. pose proof (Qfloor_resp_le x y H) as Hf.
  destruct (Z.eq_dec (Qfloor x) (Qfloor y)) as [E | NE].
  - unfold rint. rewrite <- E.
    destruct (Qcompare_spec (x - inject_Z (Qfloor x)) (1 # 2)) as [Cx | Cx | Cx];
      destruct (Qcompare_spec (y - inject_Z (Qfloor x)) (1 # 2)) as [Cy | Cy | Cy];
      try (exfalso; lra);
      try destruct (Z.even (Qfloor x)); lia.
  - pose proof (rint_bounds x). pose proof (rint_bounds y). lia.
Qed.

Lemma pow10_pos (n : nat) : 0 < pow10 n.
Proof.
  unfold pow10. replace 0 with (inject_Z 0) by reflexivity.
  rewrite <- Zlt_Qlt. apply Z.pow_pos_nonneg; lia.
Qed.

(** Rounding keeps the order. *)
Lemma round_mono (x y : Q) (n : nat) : x <= y -> round x n <= round y n.
Proof.
  intro H. unfold round. pose proof (pow10_pos n) as Hp.
  apply Qmult_le_compat_r; [| apply Qlt_le_weak, Qinv_lt_0_compat; exact Hp].
  rewrite <- Zle_Qle. apply rint_mono.
  apply Qmult_le_compat_r; [exact H | lra].
Qed.

Lemma rint_comp (x y : Q) : x == y -> rint x = rint y.
Proof.
  intro H. unfold rint. rewrite (Qfloor_comp x y H).
  assert (E : Qcompare (x - inject_Z (Qfloor y)) (1 # 2)
              = Qcompare (y - inject_Z (Qfloor y)) (1 # 2)).
  { apply Qcompare_comp; [rewrite H |]; reflexivity. }
  rewrite E. reflexivity.
Qed.

(** Rounding respects the equality of rationals. *)
Lemma round_comp (x y : Q) (n : nat) : x == y -> round x n = round y n.
Proof.
  intro H. unfold round. f_equal. f_equal. apply rint_comp. rewrite H. reflexivity.
Qed.

(** ** The running peak *)

Lemma consecutive_snoc {A : Type} (R : A -> A -> Prop) (l : list A) (x : A) :
  (forall i a b, nth_error l i = Some a -> nth_error l (S i) = Some b -> R a b) ->
  (forall a, In a l -> R a x) ->
  forall i a b,
    nth_error (l ++ [x]) i = Some a -> nth_error (l ++ [x]) (S i) = Some b -> R a b.
Proof.
  intros Hl Hx i a b Ha Hb.
  destruct (Nat.lt_ge_cases (S i) (length l)) as [L | L].
  - rewrite nth_error_app1 in Ha by lia. rewrite nth_error_app1 in Hb by lia.
    exact (Hl i a b Ha Hb).
  - rewrite nth_error_app2 in Hb by lia.
    destruct (S i - length l)%nat as [| j] eqn:J.
    + simpl in Hb. injection Hb as <-.
      rewrite nth_error_app1 in Ha by lia.
      apply Hx. exact (nth_error_In l i Ha).
    + simpl in Hb. destruct j; discriminate.
Qed.

Lemma peak_update_bounds (before peak : Q) :
  peak <= (if Qgtb before peak then before else peak)
  /\ before <= (if Qgtb before peak then before else peak).
Proof.
  destruct (Qgtb before peak) eqn:G.
  - apply Qgtb_gt in G. lra.
  - apply Qgtb_le in G. lra.
Qed.

Lemma simulate_day_peak (ic tc thr vthr : Q) (v v' : LiveSimulator.Vars) (row : FeatureRow) :
  LiveSimulator.simulate_day ic tc thr vthr v row = Ok v' ->
  LiveSimulator.peak_value v <= LiveSimulator.peak_value v'
  /\ LiveSimulator.mark_to_market (LiveSimulator.position v) (LiveSimulator.shares v)
       (LiveSimulator.cash v) (close row) <= LiveSimulator.peak_value v'
  /\ exists s,
       LiveSimulator.simulation_states v' = LiveSimulator.simulation_states v ++ [s]
       /\ LiveSimulator.risk_peak_value s = round (LiveSimulator.peak_value v') 2.
Proof.
  intro H.
  destruct (simulate_day_inv ic tc thr vthr v v' row H)
    as (b & _ & _ & _ & _ & _ & _ & _ & _ & Hpeak & Hs & _).
  rewrite Hpeak.
  split; [apply peak_update_bounds |]. split; [apply peak_update_bounds |].
  destruct Hs as (s & Hst & _ & _ & _ & _ & _ & _ & _ & _ & Hrp).
  exists s. split; [exact Hst |]. rewrite Hrp, Hpeak. reflexivity.
Qed.

Lemma simulate_day_peak_log (ic tc thr vthr : Q) (v v' : LiveSimulator.Vars)
    (row : FeatureRow) :
  (forall i a b,
     nth_error (LiveSimulator.simulation_states v) i = Some a ->
     nth_error (LiveSimulator.simulation_states v) (S i) = Some b ->
     LiveSimulator.risk_peak_value a <= LiveSimulator.risk_peak_value b)
  /\ (forall a, In a (LiveSimulator.simulation_states v) ->
        LiveSimulator.risk_peak_value a <= round (LiveSimulator.peak_value v) 2) ->
  LiveSimulator.simulate_day ic tc thr vthr v row = Ok v' ->
  (forall i a b,
     nth_error (LiveSimulator.simulation_states v') i = Some a ->
     nth_error (LiveSimulator.simulation_states v') (S i) = Some b ->
     LiveSimulator.risk_peak_value a <= LiveSimulator.risk_peak_value b)
  /\ (forall a, In a (LiveSimulator.simulation_states v') ->
        LiveSimulator.risk_peak_value a <= round (LiveSimulator.peak_value v') 2).
Proof.
  intros [Hsorted Hbound] Hday.
  destruct (simulate_day_peak ic tc thr vthr v v' row Hday) as (Hup & _ & s & Hst & Hrp).
  assert (Hold : forall a, In a (LiveSimulator.simulation_states v) ->
                   LiveSimulator.risk_peak_value a <= LiveSimulator.risk_peak_value s).
  { intros a Ha. rewrite Hrp.
    apply Qle_trans with (round (LiveSimulator.peak_value v) 2); [apply Hbound; exact Ha |].
    apply round_mono. exact Hup. }
  rewrite Hst. split.
  - apply consecutive_snoc; assumption.
  - intros a Ha. apply in_app_or in Ha. destruct Ha as [Ha | [<- | []]].
    + rewrite <- Hrp. apply Hold. exact Ha.
    + rewrite Hrp. apply Qle_refl.
Qed.

(** The states log grows by one entry a day. *)
Lemma simulate_days_log (ic tc thr vthr : Q) (df : FeatureSeries)
    (v v' : LiveSimulator.Vars) :
  LiveSimulator.simulate_days ic tc thr vthr v df = Ok v' ->
  exists ext pnls hist,
    LiveSimulator.simulation_states v' = LiveSimulator.simulation_states v ++ ext
    /\ length ext = length df
    /\ LiveSimulator.daily_pnl v' = LiveSimulator.daily_pnl v ++ pnls
    /\ length pnls = length df
    /\ LiveSimulator.position_history v' = LiveSimulator.position_history v ++ hist
    /\ length hist = length df.
Proof.
  revert v. induction df as [| row df IH]; intros v H.
  - simpl in H. injection H as <-. exists [], [], [].
    rewrite !app_nil_r. repeat split.
  - cbn [LiveSimulator.simulate_days] in H.
    destruct (LiveSimulator.simulate_day ic tc thr vthr v row) as [v1 | e] eqn:E;
      cbn [bind] in H; [| discriminate].
    destruct (IH v1 H) as (ext & pnls & hist & H1 & L1 & H2 & L2 & H3 & L3).
    destruct (simulate_day_inv ic tc thr vthr v v1 row E)
      as (b & _ & _ & _ & _ & _ & _ & _ & _ & _ & (s & Hs & _) & (d & Hd & _) & (h & Hh & _)).
    exists (s :: ext), (d :: pnls), (h :: hist).
    rewrite H1, H2, H3, Hs, Hd, Hh, <- !app_assoc. simpl.
    repeat split; f_equal; assumption.
Qed.

Lemma nth_error_snoc_app {A : Type} (l ext : list A) (x : A) (k : nat) :
  length l = k -> nth_error ((l ++ [x]) ++ ext) k = Some x.
Proof.
  intros <-. rewrite nth_error_app1 by (rewrite length_app; simpl; lia).
  rewrite nth_error_app2 by lia. rewrite Nat.sub_diag. reflexivity.
Qed.

(** Day [k] of a run that ends: the variables before and after it, and
    where its entries sit in the final logs. *)
Lemma run_day (ic tc thr vthr : Q) (df : FeatureSeries) (vf : LiveSimulator.Vars)
    (k : nat) (row : FeatureRow) :
  LiveSimulator.simulate_days ic tc thr vthr (LiveSimulator.initial_vars ic) df = Ok vf ->
  nth_error df k = Some row ->
  exists v v',
    vars_after ic tc thr vthr df k = Ok v
    /\ vars_after ic tc thr vthr df (S k) = Ok v'
    /\ LiveSimulator.simulate_day ic tc thr vthr v row = Ok v'
    /\ length (LiveSimulator.simulation_states v) = k
    /\ length (LiveSimulator.daily_pnl v) = k
    /\ length (LiveSimulator.position_history v) = k
    /\ (exists ext, LiveSimulator.simulation_states vf
                    = LiveSimulator.simulation_states v' ++ ext)
    /\ (exists ext, LiveSimulator.daily_pnl vf = LiveSimulator.daily_pnl v' ++ ext)
    /\ (exists ext, LiveSimulator.position_history vf
                    = LiveSimulator.position_history v' ++ ext).
Proof.
  intros Hrun Hrow.
  assert (Hk : (k < length df)%nat) by (apply nth_error_Some; congruence).
  destruct (simulate_days_prefix ic tc thr vthr _ vf df (S k) Hrun) as (v' & Hpre & Hpost).
  pose proof Hpre as Hpre'.
  rewrite (firstn_succ_snoc df k row Hrow), simulate_days_snoc in Hpre.
  destruct (LiveSimulator.simulate_days ic tc thr vthr (LiveSimulator.initial_vars ic)
              (firstn k df)) as [v | e] eqn:Hv; cbn [bind] in Hpre; [| discriminate].
  exists v, v'. unfold vars_after.
  split; [exact Hv |]. split; [exact Hpre' |]. split; [exact Hpre |].
  destruct (simulate_days_log ic tc thr vthr _ _ _ Hv)
    as (e1 & e2 & e3 & H1 & L1 & H2 & L2 & H3 & L3).
  destruct (simulate_days_log ic tc thr vthr _ _ _ Hpost)
    as (x1 & x2 & x3 & X1 & _ & X2 & _ & X3 & _).
  cbn in H1, H2, H3. rewrite length_firstn in L1, L2, L3.
  rewrite H1, H2, H3.
  repeat split; try lia; eexists; eassumption.
Qed.

(** C6.  Along a run, the recorded peak of a step is at most the recorded
    peak of the next step.  Day by day, the running peak does not
    decrease, it is at least the portfolio value it has just been compared
    with, and the step records its rounding. *)
Theorem peak_value_is_monotone :
  forall (df : FeatureSeries)
         (initial_capital transaction_cost sentiment_threshold volatility_percentile : Q)
         (r : LiveSimulator.LiveResult),
    LiveSimulator.run_live_simulation df initial_capital transaction_cost
      sentiment_threshold volatility_percentile = Ok (Some r) ->
    (forall i s1 s2,
       nth_error (LiveSimulator.r_simulation_states r) i = Some s1 ->
       nth_error (LiveSimulator.r_simulation_states r) (S i) = Some s2 ->
       LiveSimulator.risk_peak_value s1 <= LiveSimulator.risk_peak_value s2)
    /\ exists vthr,
         volatility_threshold_of df volatility_percentile = Ok vthr
         /\ forall k row,
              nth_error df k = Some row ->
              exists v v' s,
                vars_after initial_capital transaction_cost sentiment_threshold vthr df k
                  = Ok v
                /\ vars_after initial_capital transaction_cost sentiment_threshold vthr df
                     (S k) = Ok v'
                /\ LiveSimulator.peak_value v <= LiveSimulator.peak_value v'
                /\ LiveSimulator.mark_to_market (LiveSimulator.position v)
                     (LiveSimulator.shares v) (LiveSimulator.cash v) (close row)
                   <= LiveSimulator.peak_value v'
                /\ nth_error (LiveSimulator.r_simulation_states r) k = Some s
                /\ LiveSimulator.risk_peak_value s
                   = round (LiveSimulator.peak_value v') 2.
Proof.
  intros df ic tc thr pct r Hrun.
  destruct (run_live_simulation_inv df ic tc thr pct r Hrun)
    as (vthr & vf & Hv & Hsim & Hstates & _).
  split.
  - rewrite Hstates.
    set (P := fun v : LiveSimulator.Vars =>
                (forall i a b,
                   nth_error (LiveSimulator.simulation_states v) i = Some a ->
                   nth_error (LiveSimulator.simulation_states v) (S i) = Some b ->
                   LiveSimulator.risk_peak_value a <= LiveSimulator.risk_peak_value b)
                /\ (forall a, In a (LiveSimulator.simulation_states v) ->
                      LiveSimulator.risk_peak_value a
                      <= round (LiveSimulator.peak_value v) 2)).
    assert (HP : P vf).
    { apply (simulate_days_invariant ic tc thr vthr P (fun _ => True)) with
        (df := df) (v := LiveSimulator.initial_vars ic).
      - intros v row v' Hp _ Hday.
        exact (simulate_day_peak_log ic tc thr vthr v v' row Hp Hday).
      - apply Forall_forall. intros; exact I.
      - split.
        + intros i a b Ha. destruct i; discriminate Ha.
        + intros a [].
      - exact Hsim. }
    exact (proj1 HP).
  - exists vthr. split; [exact Hv |].
    intros k row Hrow.
    destruct (run_day ic tc thr vthr df vf k row Hsim Hrow)
      as (v & v' & Hk & Hk' & Hday & Lk & _ & _ & (ext & Hext) & _).
    destruct (simulate_day_peak ic tc thr vthr v v' row Hday) as (Hup & Hval & s & Hst & Hrp).
    exists v, v', s.
    repeat (split; [assumption |]).
    split; [| exact Hrp].
    rewrite Hstates, Hext, Hst. apply nth_error_snoc_app. exact Lk.
Qed.

Lemma peak_value_is_monotone_witness :
  exists r,
    LiveSimulator.run_live_simulation series_gain 10000 (1 # 1000) (1 # 5) 50 = Ok (Some r)
    /\ forall i s1 s2,
         nth_error (LiveSimulator.r_simulation_states r) i = Some s1 ->
         nth_error (LiveSimulator.r_simulation_states r) (S i) = Some s2 ->
         LiveSimulator.risk_peak_value s1 <= LiveSimulator.risk_peak_value s2.
Proof.
  eexists. split; [vm_compute; reflexivity |].
  apply (peak_value_is_monotone series_gain 10000 (1 # 1000) (1 # 5) 50).
  vm_compute. reflexivity.
Defined.

(** ** Short positions *)

Lemma execute_signal_trades (c : Q) (v : LiveSimulator.Vars) (sig : Z) (today : string)
    (px : Q) (b : LiveSimulator.Book) :
  Forall (settled_long_style c) (LiveSimulator.completed_trades v) ->
  LiveSimulator.execute_signal c v sig today px = Ok (b, sig) ->
  Forall (settled_long_style c) (LiveSimulator.b_completed_trades b).
Proof.
  intros Hall. unfold LiveSimulator.execute_signal.
  destruct (negb (sig =? LiveSimulator.position v)%Z).
  2:{ intro H. injection H as <-. exact Hall. }
  set (b0 := LiveSimulator.mkBook _ _ _ _ _).
  assert (H1 : Forall (settled_long_style c)
                 (LiveSimulator.b_completed_trades
                    (if negb (LiveSimulator.position v =? 0)%Z
                        && Qgtb (LiveSimulator.shares v) 0
                     then LiveSimulator.close_position c
                            (LiveSimulator.simulation_states v) today px b0
                     else b0))).
  { destruct (negb (LiveSimulator.position v =? 0)%Z); cbn [andb]; [| exact Hall].
    destruct (Qgtb (LiveSimulator.shares v) 0) eqn:G; [| exact Hall].
    apply Qgtb_gt in G.
    unfold LiveSimulator.close_position. cbn.
    destruct (LiveSimulator.open_trade v) as [ot |]; [| exact Hall].
    apply Forall_app. split; [exact Hall |].
    constructor; [| constructor].
    exists (LiveSimulator.shares v), px. cbn.
    repeat split; try reflexivity. exact G. }
  match goal with
  | |- context [bind (if ?c then _ else _) _] => destruct c
  end.
  - unfold LiveSimulator.open_position.
    match goal with |- context [fdiv ?x ?y] => destruct (fdiv x y) end; cbn [bind];
      [| discriminate].
    intro H. injection H as <-. exact H1.
  - cbn [bind]. intro H. injection H as <-. exact H1.
Qed.

Lemma simulate_day_trades (ic c thr vthr : Q) (v v' : LiveSimulator.Vars)
    (row : FeatureRow) :
  Forall (settled_long_style c) (LiveSimulator.completed_trades v) ->
  LiveSimulator.simulate_day ic c thr vthr v row = Ok v' ->
  Forall (settled_long_style c) (LiveSimulator.completed_trades v').
Proof.
  intros Hall Hday.
  destruct (simulate_day_inv ic c thr vthr v v' row Hday)
    as (b & Hex & _ & _ & _ & _ & _ & Hct & _).
  rewrite Hct. exact (execute_signal_trades c v _ _ _ b Hall Hex).
Qed.

Lemma mark_to_market_holding (p : Z) (sh ca px : Q) :
  p <> 0%Z -> 0 < sh -> LiveSimulator.mark_to_market p sh ca px = ca + sh * px.
Proof.
  intros Hp Hs. unfold LiveSimulator.mark_to_market.
  apply Z.eqb_neq in Hp. apply Qgtb_gt in Hs. rewrite Hp, Hs. reflexivity.
Qed.

Lemma simulate_day_close_value (ic c thr vthr : Q) (v v' : LiveSimulator.Vars)
    (row : FeatureRow) :
  LiveSimulator.simulate_day ic c thr vthr v row = Ok v' ->
  LiveSimulator.prev_portfolio_value v' =
  LiveSimulator.mark_to_market (LiveSimulator.position v') (LiveSimulator.shares v')
    (LiveSimulator.cash v') (close row).
Proof.
  intro Hday.
  destruct (simulate_day_inv ic c thr vthr v v' row Hday)
    as (b & _ & _ & Hca & Hpos & Hsh & _ & _ & Hprev & _).
  rewrite Hprev, Hca, Hpos, Hsh. reflexivity.
Qed.

(** C10.  The simulator does not look at the sign of a position.  Every
    completed trade, SHORT as well as LONG, has for exit value the
    proceeds of its positive share count net of the cost, and for profit
    these less the entry value.  Whenever a position, long or short, is
    held with shares, the portfolio is worth the cash plus the shares
    times the close, before the day's trades and at the end of the day.
    Hence the daily pnl of the day after is the share count times the rise
    of the close: a short position gains when the price rises and loses
    when it falls.  With a positive initial capital, a transaction cost in
    [0, 1) and positive closes, the share count of a position is positive. *)
Theorem short_position_is_valued_like_long :
  forall (df : FeatureSeries)
         (initial_capital transaction_cost sentiment_threshold volatility_percentile : Q)
         (r : LiveSimulator.LiveResult),
    LiveSimulator.run_live_simulation df initial_capital transaction_cost
      sentiment_threshold volatility_percentile = Ok (Some r) ->
    Forall (settled_long_style transaction_cost) (LiveSimulator.r_completed_trades r)
    /\ exists vthr,
         volatility_threshold_of df volatility_percentile = Ok vthr
         /\ (forall k row,
               nth_error df k = Some row ->
               exists v v',
                 vars_after initial_capital transaction_cost sentiment_threshold vthr df k
                   = Ok v
                 /\ vars_after initial_capital transaction_cost sentiment_threshold vthr
                      df (S k) = Ok v'
                 /\ (LiveSimulator.position v <> 0%Z -> 0 < LiveSimulator.shares v ->
                     LiveSimulator.mark_to_market (LiveSimulator.position v)
                       (LiveSimulator.shares v) (LiveSimulator.cash v) (close row)
                     = LiveSimulator.cash v + LiveSimulator.shares v * close row)
                 /\ (LiveSimulator.position v' <> 0%Z -> 0 < LiveSimulator.shares v' ->
                     LiveSimulator.prev_portfolio_value v'
                     = LiveSimulator.cash v' + LiveSimulator.shares v' * close row))
         /\ (forall k row row',
               nth_error df k = Some row ->
               nth_error df (S k) = Some row' ->
               exists v d,
                 vars_after initial_capital transaction_cost sentiment_threshold vthr df
                   (S k) = Ok v
                 /\ nth_error (LiveSimulator.r_daily_pnl r) (S k) = Some d
                 /\ (LiveSimulator.position v <> 0%Z -> 0 < LiveSimulator.shares v ->
                     LiveSimulator.pnl d
                     = round (LiveSimulator.shares v * (close row' - close row)) 2
                     /\ (close row < close row' ->
                         0 < LiveSimulator.shares v * (close row' - close row))
                     /\ (close row' < close row ->
                         LiveSimulator.shares v * (close row' - close row) < 0)))
         /\ (0 < initial_capital ->
             0 <= transaction_cost ->
             transaction_cost < 1 ->
             Forall (fun row => 0 < close row) df ->
             forall k v,
               vars_after initial_capital transaction_cost sentiment_threshold vthr df k
                 = Ok v ->
               LiveSimulator.position v <> 0%Z ->
               0 < LiveSimulator.shares v).
Proof.
  intros df ic tc thr pct r Hrun.
  destruct (run_live_simulation_inv df ic tc thr pct r Hrun)
    as (vthr & vf & Hv & Hsim & _ & Htrades & Hpnl & _).
  split.
  { rewrite Htrades.
    apply (simulate_days_invariant ic tc thr vthr
             (fun v => Forall (settled_long_style tc) (LiveSimulator.completed_trades v))
             (fun _ => True)) with (df := df) (v := LiveSimulator.initial_vars ic).
    - intros v row v' Hp _ Hday.
      exact (simulate_day_trades ic tc thr vthr v v' row Hp Hday).
    - apply Forall_forall. intros; exact I.
    - constructor.
    - exact Hsim. }
  exists vthr. split; [exact Hv |]. split; [| split].
  3:{ intros Hic Hc0 Hc1 Hpx k v Hk Hp.
      set (P := fun v : LiveSimulator.Vars =>
                  allocated (LiveSimulator.position v) (LiveSimulator.cash v)
                    (LiveSimulator.shares v)
                  /\ Forall step_allocated (LiveSimulator.simulation_states v)).
      assert (HP : P v).
      { apply (simulate_days_invariant ic tc thr vthr P (fun row => 0 < close row))
          with (df := firstn k df) (v := LiveSimulator.initial_vars ic).
        - intros v0 row v1 H0 Hrow Hday.
          exact (simulate_day_allocated ic tc thr vthr v0 v1 row Hc0 Hc1 H0 Hrow Hday).
        - apply Forall_firstn. exact Hpx.
        - split; [| constructor]. left. cbn.
          split; [reflexivity |]. split; [exact Hic | reflexivity].
        - exact Hk. }
      apply (proj1 (allocated_iff _ _ _ (proj1 HP))). exact Hp. }
  - intros k row Hrow.
    destruct (run_day ic tc thr vthr df vf k row Hsim Hrow)
      as (v & v' & Hk & Hk' & Hday & _).
    exists v, v'. split; [exact Hk |]. split; [exact Hk' |]. split.
    + intros Hp Hs. apply mark_to_market_holding; assumption.
    + intros Hp Hs. rewrite (simulate_day_close_value ic tc thr vthr v v' row Hday).
      apply mark_to_market_holding; assumption.
  - intros k row row' Hrow Hrow'.
    destruct (run_day ic tc thr vthr df vf k row Hsim Hrow)
      as (v0 & v & _ & Hk & Hday & _).
    destruct (run_day ic tc thr vthr df vf (S k) row' Hsim Hrow')
      as (v1 & v2 & Hk1 & _ & Hday' & _ & Lp & _ & _ & (ext & Hext) & _).
    rewrite Hk in Hk1. injection Hk1 as <-.
    destruct (simulate_day_inv ic tc thr vthr v v2 row' Hday')
      as (b & _ & _ & _ & _ & _ & _ & _ & _ & _ & _ & (d & Hd & _ & Hdp & _) & _).
    exists v, d. split; [exact Hk |]. split.
    { rewrite Hpnl, Hext, Hd. apply nth_error_snoc_app. exact Lp. }
    intros Hp Hs.
    split.
    + rewrite Hdp. apply round_comp.
      rewrite (simulate_day_close_value ic tc thr vthr v0 v row Hday).
      rewrite !mark_to_market_holding by assumption. ring.
    + split; intro Hc.
      * apply Qmult_lt_0_compat; lra.
      * assert (H : 0 < LiveSimulator.shares v * (close row - close row'))
          by (apply Qmult_lt_0_compat; lra).
        lra.
Qed.

Lemma short_position_is_valued_like_long_witness :
  exists r,
    LiveSimulator.run_live_simulation series_short 10000 (1 # 1000) (1 # 5) 50
      = Ok (Some r)
    /\ Forall (settled_long_style (1 # 1000)) (LiveSimulator.r_completed_trades r)
    /\ map LiveSimulator.trade_type (LiveSimulator.r_completed_trades r) = ["SHORT"%string]
    /\ map (fun t => Qred (LiveSimulator.profit_loss t)) (LiveSimulator.r_completed_trades r)
       = [ 98801 # 100 ].
Proof.
  eexists. split; [vm_compute; reflexivity |].
  split; [| split; reflexivity].
  apply (short_position_is_valued_like_long series_short 10000 (1 # 1000) (1 # 5) 50).
  vm_compute. reflexivity.
Defined.

(** ** Daily pnl *)

(** C7 fails on the code.  On [series_gain] the simulator buys at the
    close of the second day, paying 10 in costs: the end-of-day value goes
    from 10000 to 9990, and so does the cumulative pnl, yet the recorded
    pnl of that day is 0; the cost shows up in the pnl of the third day,
    which is 999 where the end-of-day values differ by 988.01. *)
Lemma daily_pnl_ignores_same_day_costs :
  exists r s0 s1 s2 d0 d1 d2,
    LiveSimulator.run_live_simulation series_gain 10000 (1 # 1000) (1 # 5) 50
      = Ok (Some r)
    /\ LiveSimulator.r_simulation_states r = [s0; s1; s2]
    /\ LiveSimulator.r_daily_pnl r = [d0; d1; d2]
    /\ LiveSimulator.pf_total_value s0 == 10000
    /\ LiveSimulator.pf_total_value s1 == 9990
    /\ LiveSimulator.pf_total_value s2 == 1097801 # 100
    /\ LiveSimulator.cumulative_pnl d0 == 0
    /\ LiveSimulator.cumulative_pnl d1 == - 10
    /\ LiveSimulator.pnl d1 == 0
    /\ LiveSimulator.pf_daily_pnl s1 == 0
    /\ LiveSimulator.pnl d2 == 999
    /\ ~ LiveSimulator.pnl d1
         == LiveSimulator.pf_total_value s1 - LiveSimulator.pf_total_value s0
    /\ ~ LiveSimulator.pnl d2
         == LiveSimulator.pf_total_value s2 - LiveSimulator.pf_total_value s1.
Proof.
  do 7 eexists. split; [vm_compute; reflexivity |].
  split; [reflexivity |]. split; [reflexivity |].
  repeat split; try reflexivity; intro H; discriminate H.
Qed.

(** ** Profit factor *)

Lemma fold_sum_nonneg (l : list Q) (a : Q) :
  Forall (fun x => 0 < x) l -> 0 <= a -> 0 <= fold_left Qplus l a.
Proof.
  intro H. revert a. induction H as [| x l Hx Hl IH]; intros a Ha; simpl; [exact Ha |].
  apply IH. lra.
Qed.

Lemma total_profit_nonneg (trades : list LiveSimulator.CompletedTrade) :
  0 <= sum (map LiveSimulator.profit_loss (LiveSimulator.winning_trades trades)).
Proof.
  unfold sum. apply fold_sum_nonneg; [| lra].
  apply Forall_forall. intros x Hx.
  apply in_map_iff in Hx. destruct Hx as (t & <- & Ht).
  unfold LiveSimulator.winning_trades in Ht. apply filter_In in Ht.
  apply Qgtb_gt. exact (proj2 Ht).
Qed.

Lemma Qabs_zero_iff (y : Q) : Qabs y == 0 <-> y == 0.
Proof.
  split; intro H.
  - revert H. apply Qabs_case; intros; lra.
  - rewrite H. reflexivity.
Qed.

Lemma quotient_zero_iff (x y : Q) : ~ y == 0 -> (x / y == 0 <-> x == 0).
Proof.
  intro Hy. split; intro H.
  - rewrite <- (Qmult_div_r x y Hy). rewrite H. ring.
  - rewrite H. field. exact Hy.
Qed.

Lemma profit_factor_of_cases (tp tl : Q) :
  0 <= tp ->
  (LiveSimulator.profit_factor_of tp tl = LiveSimulator.PFinf <-> tl == 0 /\ 0 < tp)
  /\ (~ tl == 0 ->
      LiveSimulator.profit_factor_of tp tl = LiveSimulator.PFnum (Qabs (tp / tl)))
  /\ (tl == 0 -> ~ 0 < tp ->
      LiveSimulator.profit_factor_of tp tl = LiveSimulator.PFnum 0)
  /\ (forall x, LiveSimulator.profit_factor_of tp tl = LiveSimulator.PFnum x ->
                (x == 0 <-> tp == 0)).
Proof.
  intro Htp. unfold LiveSimulator.profit_factor_of, Qneqb.
  destruct (Qeq_bool tl 0) eqn:E; cbn [negb].
  - apply Qeq_bool_iff in E.
    destruct (Qgtb tp 0) eqn:G.
    + apply Qgtb_gt in G.
      split; [split; [intros _; split; assumption | reflexivity] |].
      split; [intro N; contradiction |].
      split; [intros _ N; contradiction |].
      intros x H; discriminate H.
    + apply Qgtb_le in G.
      split; [split; [discriminate | intros [_ H]; exfalso; lra] |].
      split; [intro N; contradiction |].
      split; [reflexivity |].
      intros x H. injection H as <-. split; intros _; [lra | reflexivity].
  - apply Qeq_bool_false in E.
    split; [split; [discriminate | intros [H _]; contradiction] |].
    split; [reflexivity |].
    split; [intros H; contradiction |].
    intros x H. injection H as <-. split; intro A.
    + apply (proj1 (quotient_zero_iff tp tl E)).
      apply (proj1 (Qabs_zero_iff (tp / tl))). exact A.
    + apply (proj2 (Qabs_zero_iff (tp / tl))).
      apply (proj2 (quotient_zero_iff tp tl E)). exact A.
Qed.

(** C4, as amended.  With [tp] the sum of the profits of the winning trades
    and [tl] the sum of those of the losing trades, the summary's profit
    factor is the "inf" sentinel exactly when [tl == 0] and [tp > 0];
    otherwise it is the rounding to 2 places of [|tp / tl|] when [tl] is
    not 0, and of 0 when it is; and the value that is rounded is 0 exactly
    when [tp == 0], that is when no trade has won, whatever [tl] is. *)
Theorem profit_factor_sentinel_and_zero :
  forall (df : FeatureSeries)
         (initial_capital transaction_cost sentiment_threshold volatility_percentile : Q)
         (r : LiveSimulator.LiveResult),
    LiveSimulator.run_live_simulation df initial_capital transaction_cost
      sentiment_threshold volatility_percentile = Ok (Some r) ->
    let trades := LiveSimulator.r_completed_trades r in
    let tp := sum (map LiveSimulator.profit_loss (LiveSimulator.winning_trades trades)) in
    let tl := sum (map LiveSimulator.profit_loss (LiveSimulator.losing_trades trades)) in
    let pf := LiveSimulator.profit_factor (LiveSimulator.summary r) in
    LiveSimulator.total_profit (LiveSimulator.summary r) = round tp 2
    /\ LiveSimulator.total_loss (LiveSimulator.summary r) = round tl 2
    /\ (pf = LiveSimulator.PFinf <-> tl == 0 /\ 0 < tp)
    /\ (~ tl == 0 -> pf = LiveSimulator.PFnum (round (Qabs (tp / tl)) 2))
    /\ (tl == 0 -> ~ 0 < tp -> pf = LiveSimulator.PFnum (round 0 2))
    /\ (exists raw,
          LiveSimulator.profit_factor_of tp tl = raw
          /\ pf = match raw with
                  | LiveSimulator.PFinf => LiveSimulator.PFinf
                  | LiveSimulator.PFnum x => LiveSimulator.PFnum (round x 2)
                  end
          /\ forall x, raw = LiveSimulator.PFnum x -> (x == 0 <-> tp == 0)).
Proof.
  intros df ic tc thr pct r Hrun trades tp tl pf.
  destruct (run_live_simulation_inv df ic tc thr pct r Hrun)
    as (vthr & vf & _ & _ & _ & Htrades & _ & _ & Hsum).
  assert (Hpf : pf = match LiveSimulator.profit_factor_of tp tl with
                     | LiveSimulator.PFinf => LiveSimulator.PFinf
                     | LiveSimulator.PFnum x => LiveSimulator.PFnum (round x 2)
                     end).
  { unfold pf, tp, tl, trades. rewrite Hsum, Htrades. reflexivity. }
  destruct (profit_factor_of_cases tp tl (total_profit_nonneg trades))
    as (Hinf & Hnum & Hzero & Hraw).
  split; [unfold tp, trades; rewrite Hsum, Htrades; reflexivity |].
  split; [unfold tl, trades; rewrite Hsum, Htrades; reflexivity |].
  split.
  { rewrite Hpf. rewrite <- Hinf.
    destruct (LiveSimulator.profit_factor_of tp tl); split; intro H;
      try reflexivity; discriminate H. }
  split; [intro H; rewrite Hpf, (Hnum H); reflexivity |].
  split; [intros H1 H2; rewrite Hpf, (Hzero H1 H2); reflexivity |].
  exists (LiveSimulator.profit_factor_of tp tl).
  split; [reflexivity |]. split; [exact Hpf | exact Hraw].
Qed.

Lemma profit_factor_sentinel_and_zero_witness :
  exists r,
    LiveSimulator.run_live_simulation series_gain 10000 (1 # 1000) (1 # 5) 50 = Ok (Some r)
    /\ LiveSimulator.profit_factor (LiveSimulator.summary r) = LiveSimulator.PFinf
    /\ LiveSimulator.total_profit (LiveSimulator.summary r)
       = round (sum (map LiveSimulator.profit_loss
                       (LiveSimulator.winning_trades
                          (LiveSimulator.r_completed_trades r)))) 2.
Proof.
  eexists. split; [vm_compute; reflexivity |].
  split; [reflexivity |].
  apply (profit_factor_sentinel_and_zero series_gain 10000 (1 # 1000) (1 # 5) 50).
  vm_compute. reflexivity.
Defined.

(** C4 as stated fails: on [series_loss] the only trade loses, the total
    loss is -1007.99 and the profit factor is 0. *)
Lemma profit_factor_zero_with_losses :
  exists r x,
    LiveSimulator.run_live_simulation series_loss 10000 (1 # 1000) (1 # 5) 50 = Ok (Some r)
    /\ LiveSimulator.profit_factor (LiveSimulator.summary r) = LiveSimulator.PFnum x
    /\ x == 0
    /\ LiveSimulator.total_profit (LiveSimulator.summary r) == 0
    /\ LiveSimulator.total_loss (LiveSimulator.summary r) == - (100799 # 100)
    /\ ~ (x == 0 <->
          LiveSimulator.total_profit (LiveSimulator.summary r) == 0
          /\ LiveSimulator.total_loss (LiveSimulator.summary r) == 0).
Proof.
  eexists. eexists. split; [vm_compute; reflexivity |].
  split; [reflexivity |]. split; [reflexivity |]. split; [reflexivity |].
  split; [reflexivity |].
  intros [H _]. destruct H as [_ H]; [reflexivity | discriminate H].
Defined.

(** ** Look-ahead *)

Lemma firstn_nth {A : Type} (l : list A) (t i : nat) (d : A) :
  (i < t)%nat -> nth i (firstn t l) d = nth i l d.
Proof.
  revert t i. induction l as [| a l IH]; intros [| t] [| i] H; simpl; try lia; auto.
  apply IH. lia.
Qed.

Lemma agree_before (df1 df2 : FeatureSeries) (t i : nat) (d : FeatureRow) :
  firstn t df1 = firstn t df2 -> (i < t)%nat -> nth i df1 d = nth i df2 d.
Proof.
  intros H Hi.
  rewrite <- (firstn_nth df1 t i d Hi), <- (firstn_nth df2 t i d Hi), H. reflexivity.
Qed.

Lemma positions_agree (thr vthr : Q) (df1 df2 : FeatureSeries) (t t' : nat) :
  firstn t df1 = firstn t df2 ->
  (t < length df1)%nat -> (t < length df2)%nat -> (t' <= t)%nat ->
  nth t' (Strategy.positions thr vthr df1) 0%Z
  = nth t' (Strategy.positions thr vthr df2) 0%Z.
Proof.
  intros H L1 L2 Ht.
  set (d := mkFeatureRow "" 0 None 0 None None).
  rewrite (positions_nth thr vthr df1 t' d) by lia.
  rewrite (positions_nth thr vthr df2 t' d) by lia.
  destruct t' as [| i]; [reflexivity |].
  rewrite (agree_before df1 df2 t i d H) by lia. reflexivity.
Qed.

(** The logs of the first [t] days of a run are the logs after [t] days. *)
Lemma run_logs_prefix (ic tc thr vthr : Q) (df : FeatureSeries)
    (vf : LiveSimulator.Vars) (t : nat) :
  (t <= length df)%nat ->
  LiveSimulator.simulate_days ic tc thr vthr (LiveSimulator.initial_vars ic) df = Ok vf ->
  exists v,
    vars_after ic tc thr vthr df t = Ok v
    /\ firstn t (LiveSimulator.simulation_states vf) = LiveSimulator.simulation_states v
    /\ firstn t (LiveSimulator.daily_pnl vf) = LiveSimulator.daily_pnl v
    /\ firstn t (LiveSimulator.position_history vf) = LiveSimulator.position_history v.
Proof.
  intros Ht Hrun.
  destruct (simulate_days_prefix ic tc thr vthr _ vf df t Hrun) as (v & Hpre & Hpost).
  exists v. split; [exact Hpre |].
  destruct (simulate_days_log ic tc thr vthr _ _ _ Hpre)
    as (e1 & e2 & e3 & H1 & L1 & H2 & L2 & H3 & L3).
  destruct (simulate_days_log ic tc thr vthr _ _ _ Hpost)
    as (x1 & x2 & x3 & X1 & _ & X2 & _ & X3 & _).
  cbn in H1, H2, H3. rewrite length_firstn in L1, L2, L3.
  rewrite X1, X2, X3, H1, H2, H3.
  repeat split; rewrite firstn_app;
    match goal with
    | |- firstn ?n ?l ++ firstn ?m _ = _ =>
        replace m with 0%nat by lia; replace n with (length l) by lia;
        rewrite firstn_all; simpl; apply app_nil_r
    end.
Qed.

(** C1, as amended.  Take two feature series that agree on the days before
    [t] and yield the same volatility threshold.  Then the backtest and
    the optimizer give day [t], and every day before it, the same position
    in both; and the simulator starts day [t] with the same variables
    (position, shares, cash) in both runs, has written the same log
    entries for the days before [t], and records the same pnl for day [t]
    when the two series also have the same close on that day. *)
Theorem no_look_ahead_at_equal_threshold :
  forall (df1 df2 : FeatureSeries) (t : nat)
         (initial_capital transaction_cost sentiment_threshold volatility_percentile
          vthr : Q),
    firstn t df1 = firstn t df2 ->
    (t < length df1)%nat ->
    (t < length df2)%nat ->
    volatility_threshold_of df1 volatility_percentile = Ok vthr ->
    volatility_threshold_of df2 volatility_percentile = Ok vthr ->
    (exists s1 s2,
       Strategy.generate_sentiment_strategy df1 sentiment_threshold volatility_percentile
         = Ok s1
       /\ Strategy.generate_sentiment_strategy df2 sentiment_threshold
            volatility_percentile = Ok s2
       /\ forall t', (t' <= t)%nat ->
            nth t' (map Strategy.position s1) 0%Z = nth t' (map Strategy.position s2) 0%Z)
    /\ (forall t', (t' <= t)%nat ->
          nth t' (Optimizer.shifted_positions sentiment_threshold vthr df1) 0%Z
          = nth t' (Optimizer.shifted_positions sentiment_threshold vthr df2) 0%Z)
    /\ (forall r1 r2,
          LiveSimulator.run_live_simulation df1 initial_capital transaction_cost
            sentiment_threshold volatility_percentile = Ok (Some r1) ->
          LiveSimulator.run_live_simulation df2 initial_capital transaction_cost
            sentiment_threshold volatility_percentile = Ok (Some r2) ->
          exists v,
            vars_after initial_capital transaction_cost sentiment_threshold vthr df1 t
              = Ok v
            /\ vars_after initial_capital transaction_cost sentiment_threshold vthr df2 t
                 = Ok v
            /\ firstn t (LiveSimulator.r_position_history r1)
               = firstn t (LiveSimulator.r_position_history r2)
            /\ firstn t (LiveSimulator.r_simulation_states r1)
               = firstn t (LiveSimulator.r_simulation_states r2)
            /\ firstn t (LiveSimulator.r_daily_pnl r1)
               = firstn t (LiveSimulator.r_daily_pnl r2)
            /\ forall row1 row2 d1 d2,
                 nth_error df1 t = Some row1 ->
                 nth_error df2 t = Some row2 ->
                 close row1 = close row2 ->
                 nth_error (LiveSimulator.r_daily_pnl r1) t = Some d1 ->
                 nth_error (LiveSimulator.r_daily_pnl r2) t = Some d2 ->
                 LiveSimulator.pnl d1 = LiveSimulator.pnl d2).
Proof.
  intros df1 df2 t ic tc thr pct vthr Hagree L1 L2 Hv1 Hv2.
  assert (N1 : df1 <> []) by (intros ->; simpl in L1; lia).
  assert (N2 : df2 <> []) by (intros ->; simpl in L2; lia).
  split; [| split].
  - destruct (generate_sentiment_strategy_ok df1 thr pct vthr N1 Hv1)
      as (s1 & Hs1 & P1 & _).
    destruct (generate_sentiment_strategy_ok df2 thr pct vthr N2 Hv2)
      as (s2 & Hs2 & P2 & _).
    exists s1, s2. split; [exact Hs1 |]. split; [exact Hs2 |].
    intros t' Ht'. rewrite P1, P2. apply (positions_agree thr vthr df1 df2 t); assumption.
  - intros t' Ht'. rewrite !shifted_positions_eq by assumption.
    apply (positions_agree thr vthr df1 df2 t); assumption.
  - intros r1 r2 Hr1 Hr2.
    destruct (run_live_simulation_inv df1 ic tc thr pct r1 Hr1)
      as (w1 & vf1 & Hw1 & Hsim1 & S1 & _ & D1 & H1 & _).
    destruct (run_live_simulation_inv df2 ic tc thr pct r2 Hr2)
      as (w2 & vf2 & Hw2 & Hsim2 & S2 & _ & D2 & H2 & _).
    rewrite Hv1 in Hw1. injection Hw1 as <-.
    rewrite Hv2 in Hw2. injection Hw2 as <-.
    destruct (run_logs_prefix ic tc thr vthr df1 vf1 t (Nat.lt_le_incl _ _ L1) Hsim1)
      as (v & Hk1 & A1 & B1 & C1).
    destruct (run_logs_prefix ic tc thr vthr df2 vf2 t (Nat.lt_le_incl _ _ L2) Hsim2)
      as (v' & Hk2 & A2 & B2 & C2).
    assert (E : v' = v).
    { unfold vars_after in Hk1, Hk2. rewrite <- Hagree, Hk1 in Hk2.
      injection Hk2 as <-. reflexivity. }
    subst v'.
    exists v. split; [exact Hk1 |]. split; [exact Hk2 |].
    split; [rewrite H1, H2, C1, C2; reflexivity |].
    split; [rewrite S1, S2, A1, A2; reflexivity |].
    split; [rewrite D1, D2, B1, B2; reflexivity |].
    intros row1 row2 d1 d2 R1 R2 Hclose N1' N2'.
    destruct (run_day ic tc thr vthr df1 vf1 t row1 Hsim1 R1)
      as (u1 & u1' & U1 & _ & Hday1 & _ & Lp1 & _ & _ & (e1 & E1) & _).
    destruct (run_day ic tc thr vthr df2 vf2 t row2 Hsim2 R2)
      as (u2 & u2' & U2 & _ & Hday2 & _ & Lp2 & _ & _ & (e2 & E2) & _).
    rewrite Hk1 in U1. injection U1 as <-.
    rewrite Hk2 in U2. injection U2 as <-.
    destruct (simulate_day_inv ic tc thr vthr v u1' row1 Hday1)
      as (b1 & _ & _ & _ & _ & _ & _ & _ & _ & _ & _ & (x1 & X1 & _ & P1 & _) & _).
    destruct (simulate_day_inv ic tc thr vthr v u2' row2 Hday2)
      as (b2 & _ & _ & _ & _ & _ & _ & _ & _ & _ & _ & (x2 & X2 & _ & P2 & _) & _).
    rewrite D1, E1, X1, (nth_error_snoc_app _ _ _ t Lp1) in N1'. injection N1' as <-.
    rewrite D2, E2, X2, (nth_error_snoc_app _ _ _ t Lp2) in N2'. injection N2' as <-.
    rewrite P1, P2, Hclose. reflexivity.
Qed.

Lemma no_look_ahead_at_equal_threshold_witness :
  exists vthr,
    volatility_threshold_of series_gain 50 = Ok vthr
    /\ volatility_threshold_of series_loss 50 = Ok vthr
    /\ forall t', (t' <= 2)%nat ->
         nth t' (Optimizer.shifted_positions (1 # 5) vthr series_gain) 0%Z
         = nth t' (Optimizer.shifted_positions (1 # 5) vthr series_loss) 0%Z.
Proof.
  eexists. split; [vm_compute; reflexivity |]. split; [vm_compute; reflexivity |].
  refine (proj1 (proj2 (no_look_ahead_at_equal_threshold series_gain series_loss 2
                          10000 (1 # 1000) (1 # 5) 50 _ _ _ _ _ _))).
  - reflexivity.
  - simpl. lia.
  - simpl. lia.
  - vm_compute. reflexivity.
  - vm_compute. reflexivity.
Defined.

(** C1 as stated fails.  [series_calm] and [series_rough] agree on the
    first three days and differ on the fourth in the volatility alone; the
    median volatility of the whole series differs, hence the signal of the
    third day, hence the position of the fourth day, which is flat in one
    backtest and long in the other, and so is the position with which the
    simulator enters the fourth day. *)
Lemma position_depends_on_later_rows :
  firstn 3 series_calm = firstn 3 series_rough
  /\ exists s1 s2 r1 r2 h1 h2 vthr1 vthr2 v1 v2,
       Strategy.generate_sentiment_strategy series_calm (1 # 5) 50 = Ok s1
       /\ Strategy.generate_sentiment_strategy series_rough (1 # 5) 50 = Ok s2
       /\ nth 3 (map Strategy.position s1) 0%Z = 0%Z
       /\ nth 3 (map Strategy.position s2) 0%Z = 1%Z
       /\ LiveSimulator.run_live_simulation series_calm 10000 (1 # 1000) (1 # 5) 50
          = Ok (Some r1)
       /\ LiveSimulator.run_live_simulation series_rough 10000 (1 # 1000) (1 # 5) 50
          = Ok (Some r2)
       /\ nth_error (LiveSimulator.r_position_history r1) 2 = Some h1
       /\ nth_error (LiveSimulator.r_position_history r2) 2 = Some h2
       /\ LiveSimulator.ph_position h1 = 0%Z
       /\ LiveSimulator.ph_position h2 = 1%Z
       /\ volatility_threshold_of series_calm 50 = Ok vthr1
       /\ volatility_threshold_of series_rough 50 = Ok vthr2
       /\ vthr1 == 15 # 1000
       /\ vthr2 == 35 # 1000
       /\ vars_after 10000 (1 # 1000) (1 # 5) vthr1 series_calm 3 = Ok v1
       /\ vars_after 10000 (1 # 1000) (1 # 5) vthr2 series_rough 3 = Ok v2
       /\ LiveSimulator.position v1 = 0%Z
       /\ LiveSimulator.position v2 = 1%Z.
Proof.
  split; [reflexivity |].
  do 10 eexists.
  split; [vm_compute; reflexivity |]. split; [vm_compute; reflexivity |].
  split; [reflexivity |]. split; [reflexivity |].
  split; [vm_compute; reflexivity |]. split; [vm_compute; reflexivity |].
  split; [reflexivity |]. split; [reflexivity |].
  split; [reflexivity |]. split; [reflexivity |].
  split; [vm_compute; reflexivity |]. split; [vm_compute; reflexivity |].
  split; [reflexivity |]. split; [reflexivity |].
  split; [vm_compute; reflexivity |]. split; [vm_compute; reflexivity |].
  split; reflexivity.
Defined.

(** ** Ranking the grid *)


Lemma sharpe_ge_trans (a b c : option Q) :
  sharpe_ge a b = true -> sharpe_ge b c = true -> sharpe_ge a c = true.
Proof.
  destruct a as [x |], b as [y |], c as [z |]; simpl; intros H1 H2;
    try reflexivity; try discriminate.
  apply Qle_bool_iff in H1. apply Qle_bool_iff in H2. apply Qle_bool_iff. lra.
Qed.









(** ** The stable sort *)

Lemma sharpe_ge_total (a b : option Q) : sharpe_ge a b = false -> sharpe_ge b a = true.
Proof.
  destruct a as [x |], b as [y |]; simpl; intro H; try reflexivity; try discriminate.
  apply Qle_bool_iff. destruct (Qle_bool y x) eqn:E; [discriminate |].
  destruct (Qlt_le_dec x y) as [L | L]; [lra |].
  apply Qle_bool_iff in L. congruence.
Qed.

Lemma insert_ranked_perm (c : Optimizer.GridCell) (l : list Optimizer.GridCell) :
  Permutation (insert_ranked c l) (c :: l).
Proof.
  induction l as [| d l IH]; simpl; [apply Permutation_refl |].
  destruct (sharpe_ge (Optimizer.sharpe_ratio d) (Optimizer.sharpe_ratio c)).
  - apply Permutation_trans with (d :: c :: l); [apply perm_skip; exact IH | apply perm_swap].
  - apply Permutation_refl.
Qed.

Lemma insert_ranked_sorted (c : Optimizer.GridCell) (l : list Optimizer.GridCell) :
  ranked l -> ranked (insert_ranked c l).
Proof.
  unfold ranked. intro H. induction H as [| d l Hl IH Hd]; simpl.
  - constructor; constructor.
  - destruct (sharpe_ge (Optimizer.sharpe_ratio d) (Optimizer.sharpe_ratio c)) eqn:G.
    + constructor; [exact IH |].
      apply Forall_forall. intros x Hx.
      apply (Permutation_in x (insert_ranked_perm c l)) in Hx.
      destruct Hx as [<- | Hx]; [exact G |].
      rewrite Forall_forall in Hd. apply Hd. exact Hx.
    + apply sharpe_ge_total in G.
      constructor; [constructor; assumption |].
      constructor; [exact G |].
      apply Forall_forall. intros x Hx. rewrite Forall_forall in Hd.
      exact (sharpe_ge_trans _ _ _ G (Hd x Hx)).
Qed.

Lemma fold_insert_ranked (l acc : list Optimizer.GridCell) :
  ranked acc ->
  Permutation (fold_left (fun a c => insert_ranked c a) l acc) (acc ++ l)
  /\ ranked (fold_left (fun a c => insert_ranked c a) l acc).
Proof.
  revert acc. induction l as [| c l IH]; intros acc Hacc; simpl.
  - rewrite app_nil_r. split; [apply Permutation_refl | exact Hacc].
  - destruct (IH (insert_ranked c acc) (insert_ranked_sorted c acc Hacc)) as [P S].
    split; [| exact S].
    apply (Permutation_trans P).
    apply Permutation_trans with ((c :: acc) ++ l).
    + apply Permutation_app_tail. apply insert_ranked_perm.
    + simpl. apply Permutation_middle.
Qed.

(** The stable sort ranks every grid. *)
Lemma stable_sort_values_sorts (grid : list Optimizer.GridCell) :
  sorts_grid stable_sort_values grid.
Proof.
  unfold sorts_grid, stable_sort_values.
  destruct (fold_insert_ranked grid []) as [P S]; [constructor |].
  split; assumption.
Qed.

Lemma sharpe_tied_ge (a b k : option Q) :
  sharpe_ge a b = true -> sharpe_tied b k = true -> sharpe_ge a k = true.
Proof.
  unfold sharpe_tied. intros H T. apply andb_true_iff in T.
  exact (sharpe_ge_trans _ _ _ H (proj1 T)).
Qed.



Lemma example_grid_searched :
  Optimizer.grid_search sqrt_6dp power_nat series_gain (fst example_ranges)
    (snd example_ranges) (1 # 1000) = Ok example_grid.
Proof. vm_compute. reflexivity. Qed.


(** ** The two signal rules *)

Lemma signal_values (savg vol : option Q) (vthr thr : Q) :
  let s := LiveSimulator._generate_signal savg vol vthr thr in
  s = 1%Z \/ s = (-1)%Z \/ s = 0%Z.
Proof.
  unfold LiveSimulator._generate_signal.
  destruct savg as [a |], vol as [b |]; auto.
  destruct (Qgtb a thr && Qltb b vthr); auto.
  destruct (Qltb a (- thr)); auto.
Qed.

Lemma signals_agree_when_defined (row : FeatureRow) (thr vthr : Q) :
  volatility_5d row <> None ->
  LiveSimulator._generate_signal (sentiment_avg_5d row) (volatility_5d row) vthr thr
  = Strategy.select_signal thr vthr row.
Proof.
  intro H. unfold LiveSimulator._generate_signal, Strategy.select_signal, nan_gt, nan_lt.
  destruct (sentiment_avg_5d row) as [a |], (volatility_5d row) as [b |];
    try reflexivity; congruence.
Qed.

(** X1.  The signal of the simulator and the signal of the backtest are
    Long, Short or Flat.  They are the same on every row whose volatility
    is defined.  They differ exactly on the rows whose volatility is [NaN]
    and whose average sentiment is below minus the threshold: there the
    simulator stays Flat and the backtest goes Short. *)
Theorem live_and_backtest_signals :
  forall (row : FeatureRow) (sentiment_threshold volatility_threshold : Q),
    let live :=
      LiveSimulator._generate_signal (sentiment_avg_5d row) (volatility_5d row)
        volatility_threshold sentiment_threshold in
    let vectorised :=
      Strategy.select_signal sentiment_threshold volatility_threshold row in
    (live = 1%Z \/ live = (-1)%Z \/ live = 0%Z)
    /\ (vectorised = 1%Z \/ vectorised = (-1)%Z \/ vectorised = 0%Z)
    /\ (volatility_5d row <> None -> live = vectorised)
    /\ (live <> vectorised <->
        volatility_5d row = None
        /\ exists s, sentiment_avg_5d row = Some s /\ s < - sentiment_threshold)
    /\ (live <> vectorised -> live = 0%Z /\ vectorised = (-1)%Z).
Proof.
  intros row thr vthr live vectorised.
  assert (Same : forall (x : Z) (C : Prop),
            (x = 1%Z \/ x = (-1)%Z \/ x = 0%Z) -> ~ C ->
            (x = 1%Z \/ x = (-1)%Z \/ x = 0%Z)
            /\ (x = 1%Z \/ x = (-1)%Z \/ x = 0%Z)
            /\ (volatility_5d row <> None -> x = x)
            /\ (x <> x <-> C)
            /\ (x <> x -> x = 0%Z /\ x = (-1)%Z)).
  { intros x C V N. split; [exact V |]. split; [exact V |].
    split; [reflexivity |]. split.
    - split; [intro H; exfalso; apply H; reflexivity | intro H; contradiction].
    - intro H. exfalso. apply H. reflexivity. }
  subst live vectorised.
  unfold LiveSimulator._generate_signal, Strategy.select_signal, nan_gt, nan_lt.
  destruct (sentiment_avg_5d row) as [a |], (volatility_5d row) as [b |]; cbn [andb].
  - apply Same.
    + destruct (Qgtb a thr && Qltb b vthr); [| destruct (Qltb a (- thr))]; auto.
    + intros [H _]. discriminate H.
  - rewrite andb_false_r.
    destruct (Qltb a (- thr)) eqn:L.
    + apply Qltb_lt in L.
      split; [auto |]. split; [auto |]. split; [intro H; congruence |].
      split; [| intros _; split; reflexivity].
      split; [| intros _; discriminate].
      intros _. split; [reflexivity |]. exists a. split; [reflexivity | exact L].
    + apply Qltb_ge in L. apply Same; [auto |].
      intros (_ & s & Hs & Hlt). injection Hs as <-. lra.
  - apply Same; [auto |]. intros (_ & s & Hs & _). discriminate Hs.
  - apply Same; [auto |]. intros (_ & s & Hs & _). discriminate Hs.
Qed.

Lemma live_and_backtest_signals_witness :
  let row := day "2024-01-02" 100 None 0 (Some (- (1 # 2))) None in
  LiveSimulator._generate_signal (sentiment_avg_5d row) (volatility_5d row) (1 # 100) (1 # 5)
  = 0%Z
  /\ Strategy.select_signal (1 # 5) (1 # 100) row = (-1)%Z.
Proof.
  intro row.
  destruct (live_and_backtest_signals row (1 # 5) (1 # 100)) as (_ & _ & _ & _ & H).
  apply H. vm_compute. discriminate.
Defined.

(** ** The log of a run *)

Lemma simulate_day_entries (ic tc thr vthr : Q) (v v' : LiveSimulator.Vars)
    (row : FeatureRow) :
  LiveSimulator.simulate_day ic tc thr vthr v row = Ok v' ->
  let sig := LiveSimulator._generate_signal (sentiment_avg_5d row) (volatility_5d row)
               vthr thr in
  let before := LiveSimulator.mark_to_market (LiveSimulator.position v)
                  (LiveSimulator.shares v) (LiveSimulator.cash v) (close row) in
  exists s d h,
    LiveSimulator.simulation_states v' = LiveSimulator.simulation_states v ++ [s]
    /\ LiveSimulator.daily_pnl v' = LiveSimulator.daily_pnl v ++ [d]
    /\ LiveSimulator.position_history v' = LiveSimulator.position_history v ++ [h]
    /\ LiveSimulator.st_date s = date row
    /\ LiveSimulator.dp_date d = date row
    /\ LiveSimulator.ph_date h = date row
    /\ LiveSimulator.step s = (length (LiveSimulator.simulation_states v) + 1)%nat
    /\ LiveSimulator.signal s = sig
    /\ LiveSimulator.pos_current s = sig
    /\ LiveSimulator.ph_position h = sig
    /\ LiveSimulator.position v' = sig
    /\ LiveSimulator.risk_current_drawdown_pct s =
         round ((if Qgtb (LiveSimulator.peak_value v') 0
                 then (LiveSimulator.peak_value v' - before) / LiveSimulator.peak_value v'
                 else 0) * 100) 2
    /\ LiveSimulator.pf_total_value s = round (LiveSimulator.prev_portfolio_value v') 2
    /\ LiveSimulator.pf_daily_pnl s = LiveSimulator.pnl d
    /\ LiveSimulator.pnl d = round (before - LiveSimulator.prev_portfolio_value v) 2.
Proof.
  intros H sig before. unfold LiveSimulator.simulate_day in H.
  fold sig in H.
  destruct (LiveSimulator.execute_signal tc v sig (date row) (close row))
    as [[b pos] | e] eqn:E; cbn [bind] in H; [| discriminate].
  pose proof (execute_signal_position tc v sig _ _ b pos E) as ->.
  cbn [fst snd] in H.
  match type of H with
  | bind (fdiv ?x ?y) _ = _ => destruct (fdiv x y) as [tr | e]
  end; cbn [bind] in H; [| discriminate].
  injection H as <-. cbn.
  do 3 eexists. repeat (split; [reflexivity |]). reflexivity.
Qed.

Lemma simulate_days_entries (ic tc thr vthr : Q) (df : FeatureSeries)
    (v v' : LiveSimulator.Vars) :
  LiveSimulator.simulate_days ic tc thr vthr v df = Ok v' ->
  map LiveSimulator.st_date (LiveSimulator.simulation_states v')
  = map LiveSimulator.st_date (LiveSimulator.simulation_states v) ++ map date df
  /\ map LiveSimulator.dp_date (LiveSimulator.daily_pnl v')
     = map LiveSimulator.dp_date (LiveSimulator.daily_pnl v) ++ map date df
  /\ map LiveSimulator.ph_date (LiveSimulator.position_history v')
     = map LiveSimulator.ph_date (LiveSimulator.position_history v) ++ map date df
  /\ map LiveSimulator.step (LiveSimulator.simulation_states v')
     = map LiveSimulator.step (LiveSimulator.simulation_states v)
       ++ seq (length (LiveSimulator.simulation_states v) + 1) (length df)
  /\ map LiveSimulator.ph_position (LiveSimulator.position_history v')
     = map LiveSimulator.ph_position (LiveSimulator.position_history v)
       ++ map (fun row =>
                 LiveSimulator._generate_signal (sentiment_avg_5d row)
                   (volatility_5d row) vthr thr) df
  /\ (Forall (fun s => LiveSimulator.pos_current s = LiveSimulator.signal s)
        (LiveSimulator.simulation_states v) ->
      Forall (fun s => LiveSimulator.pos_current s = LiveSimulator.signal s)
        (LiveSimulator.simulation_states v')).
Proof.
  revert v. induction df as [| row df IH]; intros v H.
  - simpl in H. injection H as <-. simpl. rewrite !app_nil_r. auto 10.
  - cbn [LiveSimulator.simulate_days] in H.
    destruct (LiveSimulator.simulate_day ic tc thr vthr v row) as [v1 | e] eqn:E;
      cbn [bind] in H; [| discriminate].
    destruct (simulate_day_entries ic tc thr vthr v v1 row E)
      as (s & d & h & Hs & Hd & Hh & Ds & Dd & Dh & Hst & Hsig & Hcur & Hp & _).
    destruct (IH v1 H) as (A & B & C & D & P & F).
    rewrite A, B, C, D, P, Hs, Hd, Hh, !map_app, <- !app_assoc.
    cbn [map app length seq]. rewrite Ds, Dd, Dh, Hst, Hp, length_app.
    cbn [length].
    replace (length (LiveSimulator.simulation_states v) + 1 + 1)%nat
      with (S (length (LiveSimulator.simulation_states v) + 1)) by lia.
    repeat (split; [reflexivity |]).
    intro G. apply F. rewrite Hs. apply Forall_app. split; [exact G |].
    constructor; [congruence | constructor].
Qed.

Lemma seq_one_nth (n i : nat) : (i < n)%nat -> nth_error (seq 1 n) i = Some (S i).
Proof.
  intro H. rewrite (nth_error_nth' _ 0%nat) by (rewrite length_seq; exact H).
  rewrite seq_nth by exact H. reflexivity.
Qed.

(** X3.  A run writes one simulation step, one pnl record and one position
    record per row of the series, in the order of the rows and with their
    dates; the steps are numbered from 1, and the summary counts them as
    trading days. *)
Theorem one_log_entry_per_row :
  forall (df : FeatureSeries)
         (initial_capital transaction_cost sentiment_threshold volatility_percentile : Q)
         (r : LiveSimulator.LiveResult),
    LiveSimulator.run_live_simulation df initial_capital transaction_cost
      sentiment_threshold volatility_percentile = Ok (Some r) ->
    map LiveSimulator.st_date (LiveSimulator.r_simulation_states r) = map date df
    /\ map LiveSimulator.dp_date (LiveSimulator.r_daily_pnl r) = map date df
    /\ map LiveSimulator.ph_date (LiveSimulator.r_position_history r) = map date df
    /\ map LiveSimulator.step (LiveSimulator.r_simulation_states r)
       = seq 1 (length df)
    /\ LiveSimulator.trading_days (LiveSimulator.summary r) = length df.
Proof.
  intros df ic tc thr pct r Hrun.
  destruct (run_live_simulation_inv df ic tc thr pct r Hrun)
    as (vthr & vf & _ & Hsim & Hs & _ & Hd & Hh & Hsum).
  destruct (simulate_days_entries ic tc thr vthr df _ vf Hsim) as (A & B & C & D & _).
  cbn in A, B, C, D.
  rewrite Hs, Hd, Hh, Hsum. repeat (split; [assumption |]).
  unfold LiveSimulator.summarize. cbn.
  rewrite <- (length_map LiveSimulator.st_date), A, length_map. reflexivity.
Qed.

Lemma one_log_entry_per_row_witness :
  exists r,
    LiveSimulator.run_live_simulation series_short 10000 (1 # 1000) (1 # 5) 50
      = Ok (Some r)
    /\ map LiveSimulator.step (LiveSimulator.r_simulation_states r) = [1; 2; 3; 4]%nat
    /\ map LiveSimulator.st_date (LiveSimulator.r_simulation_states r)
       = map date series_short.
Proof.
  eexists. split; [vm_compute; reflexivity |].
  split; [reflexivity |].
  apply (one_log_entry_per_row series_short 10000 (1 # 1000) (1 # 5) 50).
  vm_compute. reflexivity.
Defined.

(** X2.  At the end of every day the simulator holds the position that
    the day's signal names, and every step records it so.  On a row whose
    volatility is defined this is the position that the backtest gives to
    the following day: the simulator's end-of-day position of day [t] is
    the backtest's position of day [t + 1]. *)
Theorem live_position_is_next_backtest_position :
  forall (df : FeatureSeries)
         (initial_capital transaction_cost sentiment_threshold volatility_percentile : Q)
         (r : LiveSimulator.LiveResult),
    LiveSimulator.run_live_simulation df initial_capital transaction_cost
      sentiment_threshold volatility_percentile = Ok (Some r) ->
    Forall (fun s => LiveSimulator.pos_current s = LiveSimulator.signal s)
      (LiveSimulator.r_simulation_states r)
    /\ exists vthr,
         volatility_threshold_of df volatility_percentile = Ok vthr
         /\ forall t row,
              nth_error df t = Some row ->
              exists h,
                nth_error (LiveSimulator.r_position_history r) t = Some h
                /\ LiveSimulator.ph_position h
                   = LiveSimulator._generate_signal (sentiment_avg_5d row)
                       (volatility_5d row) vthr sentiment_threshold
                /\ (volatility_5d row <> None ->
                    (S t < length df)%nat ->
                    LiveSimulator.ph_position h
                    = nth (S t) (Strategy.positions sentiment_threshold vthr df) 0%Z).
Proof.
  intros df ic tc thr pct r Hrun.
  destruct (run_live_simulation_inv df ic tc thr pct r Hrun)
    as (vthr & vf & Hv & Hsim & Hs & _ & _ & Hh & _).
  destruct (simulate_days_entries ic tc thr vthr df _ vf Hsim) as (_ & _ & _ & _ & P & F).
  cbn in P.
  split; [rewrite Hs; apply F; constructor |].
  exists vthr. split; [exact Hv |].
  intros t row Hrow.
  assert (Ht : (t < length df)%nat) by (apply nth_error_Some; congruence).
  assert (Hn : nth_error (map LiveSimulator.ph_position (LiveSimulator.position_history vf)) t
               = Some (LiveSimulator._generate_signal (sentiment_avg_5d row)
                         (volatility_5d row) vthr thr)).
  { rewrite P. rewrite nth_error_map, Hrow. reflexivity. }
  rewrite nth_error_map in Hn.
  destruct (nth_error (LiveSimulator.position_history vf) t) as [h |] eqn:Eh;
    [| discriminate Hn].
  injection Hn as Hn.
  exists h. rewrite Hh. split; [exact Eh |]. split; [exact Hn |].
  intros Hvol Hnext. rewrite Hn.
  rewrite (positions_nth thr vthr df (S t) row Hnext).
  rewrite (nth_error_nth df t row Hrow).
  apply signals_agree_when_defined. exact Hvol.
Qed.

Lemma live_position_is_next_backtest_position_witness :
  exists r,
    LiveSimulator.run_live_simulation series_short 10000 (1 # 1000) (1 # 5) 50
      = Ok (Some r)
    /\ Forall (fun s => LiveSimulator.pos_current s = LiveSimulator.signal s)
         (LiveSimulator.r_simulation_states r).
Proof.
  eexists. split; [vm_compute; reflexivity |].
  apply (live_position_is_next_backtest_position series_short 10000 (1 # 1000) (1 # 5) 50).
  vm_compute. reflexivity.
Defined.

(** ** Drawdown *)

Lemma round_zero (n : nat) : round 0 n == 0.
Proof.
  unfold round. replace (rint (0 * pow10 n)) with 0%Z.
  - unfold Qdiv. ring.
  - symmetry. rewrite (rint_comp (0 * pow10 n) 0) by ring. reflexivity.
Qed.

Lemma round_hundred : round 100 2 == 100.
Proof. reflexivity. Qed.

Lemma drawdown_fraction_bounds (peak before : Q) :
  before <= peak ->
  0 <= (if Qgtb peak 0 then (peak - before) / peak else 0)
  /\ (0 <= before -> (if Qgtb peak 0 then (peak - before) / peak else 0) <= 1).
Proof.
  intro H. destruct (Qgtb peak 0) eqn:G; [| split; intros; lra].
  apply Qgtb_gt in G. split.
  - apply Qle_shift_div_l; [exact G | lra].
  - intro Hb. apply Qle_shift_div_r; [exact G | lra].
Qed.

Lemma mark_to_market_nonneg (p : Z) (ca sh px : Q) :
  allocated p ca sh -> 0 < px -> 0 <= LiveSimulator.mark_to_market p sh ca px.
Proof.
  intros [(Hp & Hc & Hs) | (Hp & Hc & Hs)] Hpx; unfold LiveSimulator.mark_to_market.
  - rewrite Hp. cbn. lra.
  - apply Z.eqb_neq in Hp. rewrite Hp. cbn [negb andb].
    destruct (Qgtb sh 0); [| lra].
    assert (0 < sh * px) by (apply Qmult_lt_0_compat; assumption). lra.
Qed.

Lemma simulate_day_drawdown (ic tc thr vthr : Q) (v v' : LiveSimulator.Vars)
    (row : FeatureRow) :
  LiveSimulator.simulate_day ic tc thr vthr v row = Ok v' ->
  exists s,
    LiveSimulator.simulation_states v' = LiveSimulator.simulation_states v ++ [s]
    /\ 0 <= LiveSimulator.risk_current_drawdown_pct s
    /\ (0 <= LiveSimulator.mark_to_market (LiveSimulator.position v)
               (LiveSimulator.shares v) (LiveSimulator.cash v) (close row) ->
        LiveSimulator.risk_current_drawdown_pct s <= 100).
Proof.
  intro H.
  destruct (simulate_day_entries ic tc thr vthr v v' row H)
    as (s & d & h & Hs & _ & _ & _ & _ & _ & _ & _ & _ & _ & _ & Hdd & _).
  destruct (simulate_day_peak ic tc thr vthr v v' row H) as (_ & Hge & _).
  destruct (drawdown_fraction_bounds _ _ Hge) as [L U].
  exists s. split; [exact Hs |]. rewrite Hdd. split.
  - pose proof (round_zero 2) as Z0.
    pose proof (round_mono 0 _ 2 (Qmult_le_0_compat _ 100 L ltac:(lra))) as M. lra.
  - intro Hb. specialize (U Hb). pose proof round_hundred as Z1.
    assert (M100 : (if Qgtb (LiveSimulator.peak_value v') 0
                    then (LiveSimulator.peak_value v'
                          - LiveSimulator.mark_to_market (LiveSimulator.position v)
                              (LiveSimulator.shares v) (LiveSimulator.cash v) (close row))
                         / LiveSimulator.peak_value v'
                    else 0) * 100 <= 100) by lra.
    pose proof (round_mono _ _ 2 M100) as M. lra.
Qed.

Lemma py_max_in (x : Q) (l : list Q) : In (py_max x l) (x :: l).
Proof.
  unfold py_max. revert x. induction l as [| y l IH]; intro x; [left; reflexivity |].
  cbn [fold_left]. destruct (Qgtb y x).
  - right. apply IH.
  - destruct (IH x) as [E | I]; [left; exact E | right; right; exact I].
Qed.

Lemma py_max_ge (x : Q) (l : list Q) (y : Q) : In y (x :: l) -> y <= py_max x l.
Proof.
  unfold py_max.
  assert (G : forall l m, m <= fold_left (fun m y => if Qgtb y m then y else m) l m).
  { induction l0 as [| z l0 IH]; intro m; [apply Qle_refl |].
    cbn [fold_left]. destruct (Qgtb z m) eqn:E.
    - apply Qgtb_gt in E. apply Qle_trans with z; [lra | apply IH].
    - apply IH. }
  revert x. induction l as [| z l IH]; intros x [<- | I].
  - apply Qle_refl.
  - destruct I.
  - apply G.
  - cbn [fold_left]. destruct (Qgtb z x) eqn:E.
    + apply IH. exact I.
    + apply Qgtb_le in E. destruct I as [<- | I].
      * apply Qle_trans with x; [exact E | apply G].
      * apply IH. right. exact I.
Qed.

(** X4.  The drawdown percentage of a step is never negative, and the
    summary's maximal drawdown is at least the drawdown of every step.
    With a positive initial capital, a transaction cost in [0, 1) and
    positive closes, the drawdown of a step and the maximal drawdown are at
    most 100. *)
Theorem drawdown_percentage_bounds :
  forall (df : FeatureSeries)
         (initial_capital transaction_cost sentiment_threshold volatility_percentile : Q)
         (r : LiveSimulator.LiveResult),
    LiveSimulator.run_live_simulation df initial_capital transaction_cost
      sentiment_threshold volatility_percentile = Ok (Some r) ->
    Forall (fun s => 0 <= LiveSimulator.risk_current_drawdown_pct s)
      (LiveSimulator.r_simulation_states r)
    /\ 0 <= LiveSimulator.max_drawdown_pct (LiveSimulator.summary r)
    /\ Forall (fun s => round (LiveSimulator.risk_current_drawdown_pct s) 2
                        <= LiveSimulator.max_drawdown_pct (LiveSimulator.summary r))
         (LiveSimulator.r_simulation_states r)
    /\ (0 < initial_capital ->
        0 <= transaction_cost ->
        transaction_cost < 1 ->
        Forall (fun row => 0 < close row) df ->
        Forall (fun s => LiveSimulator.risk_current_drawdown_pct s <= 100)
          (LiveSimulator.r_simulation_states r)
        /\ LiveSimulator.max_drawdown_pct (LiveSimulator.summary r) <= 100).
Proof.
  intros df ic tc thr pct r Hrun.
  destruct (run_live_simulation_inv df ic tc thr pct r Hrun)
    as (vthr & vf & _ & Hsim & Hs & _ & _ & _ & Hsum).
  assert (Hlow : Forall (fun s => 0 <= LiveSimulator.risk_current_drawdown_pct s)
                   (LiveSimulator.simulation_states vf)).
  { apply (simulate_days_invariant ic tc thr vthr
             (fun v => Forall (fun s => 0 <= LiveSimulator.risk_current_drawdown_pct s)
                         (LiveSimulator.simulation_states v))
             (fun _ => True)) with (df := df) (v := LiveSimulator.initial_vars ic).
    - intros v row v' Hp _ Hday.
      destruct (simulate_day_drawdown ic tc thr vthr v v' row Hday) as (s & -> & L & _).
      apply Forall_app. split; [exact Hp |]. constructor; [exact L | constructor].
    - apply Forall_forall. intros; exact I.
    - constructor.
    - exact Hsim. }
  assert (Hmax : LiveSimulator.max_drawdown_pct (LiveSimulator.summary r)
                 = round (match map LiveSimulator.risk_current_drawdown_pct
                                  (LiveSimulator.simulation_states vf) with
                          | [] => 0
                          | d :: ds => py_max d ds
                          end) 2).
  { rewrite Hsum. reflexivity. }
  assert (Hin : forall P : Q -> Prop,
             P 0 ->
             Forall (fun s => P (LiveSimulator.risk_current_drawdown_pct s))
               (LiveSimulator.simulation_states vf) ->
             P (match map LiveSimulator.risk_current_drawdown_pct
                        (LiveSimulator.simulation_states vf) with
                | [] => 0
                | d :: ds => py_max d ds
                end)).
  { intros P P0 HP.
    destruct (map LiveSimulator.risk_current_drawdown_pct
                (LiveSimulator.simulation_states vf)) as [| d ds] eqn:E; [exact P0 |].
    pose proof (py_max_in d ds) as I. rewrite <- E in I.
    apply in_map_iff in I. destruct I as (s & <- & Is).
    rewrite Forall_forall in HP. exact (HP s Is). }
  rewrite Hs. split; [exact Hlow |]. split; [| split].
  - rewrite Hmax. apply Qle_trans with (round 0 2).
    + pose proof (round_zero 2). lra.
    + apply round_mono.
      apply (Hin (fun x => 0 <= x)); [apply Qle_refl | exact Hlow].
  - rewrite Hmax. apply Forall_forall. intros s Is. apply round_mono.
    destruct (map LiveSimulator.risk_current_drawdown_pct
                (LiveSimulator.simulation_states vf)) as [| d ds] eqn:E.
    + apply (in_map LiveSimulator.risk_current_drawdown_pct) in Is.
      rewrite E in Is. destruct Is.
    + apply py_max_ge. rewrite <- E. apply in_map. exact Is.
  - intros Hic Hc0 Hc1 Hpx.
    set (P := fun v : LiveSimulator.Vars =>
                (allocated (LiveSimulator.position v) (LiveSimulator.cash v)
                   (LiveSimulator.shares v)
                 /\ Forall step_allocated (LiveSimulator.simulation_states v))
                /\ Forall (fun s => LiveSimulator.risk_current_drawdown_pct s <= 100)
                     (LiveSimulator.simulation_states v)).
    assert (HP : P vf).
    { apply (simulate_days_invariant ic tc thr vthr P (fun row => 0 < close row))
        with (df := df) (v := LiveSimulator.initial_vars ic).
      - intros v row v' [Hal Hup] Hrow Hday. split.
        + exact (simulate_day_allocated ic tc thr vthr v v' row Hc0 Hc1 Hal Hrow Hday).
        + destruct (simulate_day_drawdown ic tc thr vthr v v' row Hday)
            as (s & -> & _ & U).
          apply Forall_app. split; [exact Hup |].
          constructor; [| constructor].
          apply U. apply mark_to_market_nonneg; [exact (proj1 Hal) | exact Hrow].
      - exact Hpx.
      - split; [split |]; [| constructor | constructor].
        left. cbn. split; [reflexivity |]. split; [exact Hic | reflexivity].
      - exact Hsim. }
    destruct HP as [_ Hup]. split; [exact Hup |].
    rewrite Hmax. apply Qle_trans with (round 100 2).
    + apply round_mono.
      apply (Hin (fun x => x <= 100)); [lra | exact Hup].
    + pose proof round_hundred. lra.
Qed.

Lemma drawdown_percentage_bounds_witness :
  exists r,
    LiveSimulator.run_live_simulation series_loss 10000 (1 # 1000) (1 # 5) 50
      = Ok (Some r)
    /\ 0 <= LiveSimulator.max_drawdown_pct (LiveSimulator.summary r)
    /\ LiveSimulator.max_drawdown_pct (LiveSimulator.summary r) <= 100.
Proof.
  assert (Hrun : exists r,
             LiveSimulator.run_live_simulation series_loss 10000 (1 # 1000) (1 # 5) 50
             = Ok (Some r)) by (eexists; vm_compute; reflexivity).
  destruct Hrun as [r Hrun].
  destruct (drawdown_percentage_bounds series_loss 10000 (1 # 1000) (1 # 5) 50 r Hrun)
    as (_ & Hlow & _ & Hup).
  destruct Hup as [_ H100].
  - reflexivity.
  - discriminate.
  - reflexivity.
  - repeat constructor.
  - exists r. split; [exact Hrun |]. split; [exact Hlow | exact H100].
Defined.

(** ** The trade ledger *)

Lemma execute_signal_cases (c : Q) (v : LiveSimulator.Vars) (sig : Z) (today : string)
    (px : Q) (b : LiveSimulator.Book) :
  LiveSimulator.execute_signal c v sig today px = Ok (b, sig) ->
  let b0 := LiveSimulator.mkBook (LiveSimulator.cash v) (LiveSimulator.shares v)
              (LiveSimulator.open_trade v) (LiveSimulator.completed_trades v) None in
  let b1 := if negb (LiveSimulator.position v =? 0)%Z && Qgtb (LiveSimulator.shares v) 0
            then LiveSimulator.close_position c (LiveSimulator.simulation_states v)
                   today px b0
            else b0 in
  (sig = LiveSimulator.position v /\ b = b0)
  \/ (sig <> LiveSimulator.position v /\ sig = 0%Z /\ b = b1)
  \/ (sig <> LiveSimulator.position v /\ sig <> 0%Z
      /\ LiveSimulator.open_position c sig today px b1 = Ok b).
Proof.
  intros H b0 b1. unfold LiveSimulator.execute_signal in H.
  destruct (Z.eqb_spec sig (LiveSimulator.position v)) as [E | E]; cbn [negb] in H.
  - left. injection H as <-. split; [exact E | reflexivity].
  - right. fold b0 in H. fold b1 in H.
    destruct (Z.eqb_spec sig 0) as [S0 | S0]; cbn [negb] in H.
    + left. cbn [bind] in H. injection H as <-. auto.
    + right. split; [exact E |]. split; [exact S0 |].
      destruct (LiveSimulator.open_position c sig today px b1) as [b2 | e];
        cbn [bind] in H; [| discriminate].
      injection H as <-. reflexivity.
Qed.

Lemma open_position_inv (c : Q) (sig : Z) (today : string) (px : Q)
    (b1 b : LiveSimulator.Book) :
  LiveSimulator.open_position c sig today px b1 = Ok b ->
  ~ px == 0
  /\ LiveSimulator.b_cash b = 0
  /\ LiveSimulator.b_shares b = LiveSimulator.b_cash b1 * (1 - c) / px
  /\ LiveSimulator.b_completed_trades b = LiveSimulator.b_completed_trades b1
  /\ exists ot, LiveSimulator.b_open_trade b = Some ot
                /\ LiveSimulator.entry_date ot = today
                /\ LiveSimulator.ot_position ot = sig.
Proof.
  unfold LiveSimulator.open_position.
  match goal with |- context [fdiv ?x ?y] => destruct (fdiv x y) as [q | e] eqn:D end;
    cbn [bind]; [| discriminate].
  apply fdiv_inv in D. destruct D as [Hpx ->].
  intro H. injection H as <-. cbn.
  split; [exact Hpx |]. repeat (split; [reflexivity |]).
  eexists. split; [reflexivity |]. split; reflexivity.
Qed.

Lemma leb_refl (s : string) : String.leb s s = true.
Proof. destruct (String.leb_total s s); assumption. Qed.

Lemma nth_error_app_left {A : Type} (l ext : list A) (i : nat) (x : A) :
  nth_error l i = Some x -> nth_error (l ++ ext) i = Some x.
Proof.
  intro H. rewrite nth_error_app1; [exact H |]. apply nth_error_Some. congruence.
Qed.

Lemma trade_counted_app (dates ext : list string) (t : LiveSimulator.CompletedTrade) :
  trade_counted dates t -> trade_counted (dates ++ ext) t.
Proof.
  intros (i & j & Hij & Hi & Hj & Hh). exists i, j.
  split; [exact Hij |]. split; [apply nth_error_app_left; exact Hi |].
  split; [apply nth_error_app_left; exact Hj |].
  assert (Hlt : (j < length dates)%nat) by (apply nth_error_Some; congruence).
  rewrite firstn_app. replace (j - length dates)%nat with 0%nat by lia.
  cbn [firstn]. rewrite app_nil_r. exact Hh.
Qed.

Lemma filter_map_length {A B : Type} (g : B -> bool) (f : A -> B) (l : list A) :
  length (filter g (map f l)) = length (filter (fun x => g (f x)) l).
Proof.
  induction l as [| a l IH]; [reflexivity |].
  cbn [map filter]. destruct (g (f a)); cbn [length]; rewrite IH; reflexivity.
Qed.

Lemma filter_length_le {A : Type} (f : A -> bool) (l : list A) :
  (length (filter f l) <= length l)%nat.
Proof.
  induction l as [| a l IH]; simpl; [lia |]. destruct (f a); simpl; lia.
Qed.

Lemma filter_length_pos {A : Type} (f : A -> bool) (l : list A) (a : A) :
  In a l -> f a = true -> (1 <= length (filter f l))%nat.
Proof.
  intros Hin Hf.
  assert (I : In a (filter f l)) by (apply filter_In; split; assumption).
  destruct (filter f l); [destruct I | simpl; lia].
Qed.

Lemma close_position_ledger (c : Q) (v : LiveSimulator.Vars) (today : string) (px : Q) :
  ledger_ok v ->
  let b0 := LiveSimulator.mkBook (LiveSimulator.cash v) (LiveSimulator.shares v)
              (LiveSimulator.open_trade v) (LiveSimulator.completed_trades v) None in
  let b1 := LiveSimulator.close_position c (LiveSimulator.simulation_states v) today px b0 in
  LiveSimulator.b_open_trade b1 = None
  /\ map LiveSimulator.trade_id (LiveSimulator.b_completed_trades b1)
     = seq 1 (length (LiveSimulator.b_completed_trades b1))
  /\ Forall (trade_counted (map LiveSimulator.st_date (LiveSimulator.simulation_states v)
                          ++ [today]))
       (LiveSimulator.b_completed_trades b1)
  /\ (exists old, LiveSimulator.b_completed_trades b1
                  = LiveSimulator.completed_trades v ++ old
                  /\ Forall (fun t => LiveSimulator.exit_date t = today) old
                  /\ length old = match LiveSimulator.open_trade v with
                                  | Some _ => 1%nat
                                  | None => 0%nat
                                  end).
Proof.
  intros (Hid & Hot & Hsp) b0 b1.
  assert (Hsp' : Forall (trade_counted (map LiveSimulator.st_date
                                        (LiveSimulator.simulation_states v) ++ [today]))
                   (LiveSimulator.completed_trades v)).
  { eapply Forall_impl; [| exact Hsp]. intros t. apply trade_counted_app. }
  unfold b1, LiveSimulator.close_position. cbn.
  split; [reflexivity |].
  destruct (LiveSimulator.open_trade v) as [ot |] eqn:Eot.
  - split; [| split].
    + rewrite map_app, length_app, Hid. cbn [map length LiveSimulator.trade_id].
      rewrite seq_app. cbn [seq]. f_equal. f_equal. lia.
    + apply Forall_app. split; [exact Hsp' |]. constructor; [| constructor].
      destruct (Hot ot eq_refl) as (i & Hi).
      assert (Hlt : (i < length (LiveSimulator.simulation_states v))%nat).
      { rewrite <- (length_map LiveSimulator.st_date). apply nth_error_Some. congruence. }
      exists i, (length (LiveSimulator.simulation_states v)). cbn.
      split; [exact Hlt |]. split; [apply nth_error_app_left; exact Hi |].
      split.
      * rewrite nth_error_app2 by (rewrite length_map; lia).
        rewrite length_map, Nat.sub_diag. reflexivity.
      * rewrite firstn_app, length_map, Nat.sub_diag. cbn [firstn].
        rewrite app_nil_r, firstn_all2 by (rewrite length_map; lia).
        symmetry. apply filter_map_length.
    + eexists. split; [reflexivity |]. split; [| reflexivity].
      constructor; [reflexivity | constructor].
  - split; [exact Hid |]. split; [exact Hsp' |].
    exists []. rewrite app_nil_r. repeat split. constructor.
Qed.

Lemma simulate_day_ledger (ic tc thr vthr : Q) (v v' : LiveSimulator.Vars)
    (row : FeatureRow) :
  ledger_ok v ->
  LiveSimulator.simulate_day ic tc thr vthr v row = Ok v' ->
  ledger_ok v'
  /\ exists new, LiveSimulator.completed_trades v' = LiveSimulator.completed_trades v ++ new
                 /\ Forall (fun t => LiveSimulator.exit_date t = date row) new
                 /\ (length new <= 1)%nat.
Proof.
  intros Hok Hday.
  destruct (simulate_day_inv ic tc thr vthr v v' row Hday)
    as (b & Hex & _ & _ & _ & _ & Hopen & Hct & _ & _ & (s & Hs & Hdate & _) & _).
  assert (Hdates : map LiveSimulator.st_date (LiveSimulator.simulation_states v')
                   = map LiveSimulator.st_date (LiveSimulator.simulation_states v)
                     ++ [date row]).
  { rewrite Hs, map_app. cbn. rewrite Hdate. reflexivity. }
  assert (Htoday : nth_error (map LiveSimulator.st_date (LiveSimulator.simulation_states v')) 
                     (length (LiveSimulator.simulation_states v)) = Some (date row)).
  { rewrite Hdates, nth_error_app2 by (rewrite length_map; lia).
    rewrite length_map, Nat.sub_diag. reflexivity. }
  pose proof (close_position_ledger tc v (date row) (close row) Hok) as Hclose.
  cbn zeta in Hclose.
  set (b0 := LiveSimulator.mkBook (LiveSimulator.cash v) (LiveSimulator.shares v)
               (LiveSimulator.open_trade v) (LiveSimulator.completed_trades v) None) in *.
  set (bc := LiveSimulator.close_position tc (LiveSimulator.simulation_states v)
               (date row) (close row) b0) in *.
  destruct Hok as (Hid & Hot & Hsp).
  assert (Hsp' : Forall (trade_counted (map LiveSimulator.st_date
                                        (LiveSimulator.simulation_states v) ++ [date row]))
                   (LiveSimulator.completed_trades v)).
  { eapply Forall_impl; [| exact Hsp]. intros t. apply trade_counted_app. }
  assert (Hot' : forall ot, LiveSimulator.open_trade v = Some ot ->
                   exists i, nth_error (map LiveSimulator.st_date
                                          (LiveSimulator.simulation_states v) ++ [date row]) i
                             = Some (LiveSimulator.entry_date ot)).
  { intros ot Eot. destruct (Hot ot Eot) as (i & Hi). exists i.
    apply nth_error_app_left. exact Hi. }
  (* the book after the optional close *)
  set (b1 := if negb (LiveSimulator.position v =? 0)%Z && Qgtb (LiveSimulator.shares v) 0
             then bc else b0).
  assert (H1 : map LiveSimulator.trade_id (LiveSimulator.b_completed_trades b1)
               = seq 1 (length (LiveSimulator.b_completed_trades b1))
               /\ (forall ot, LiveSimulator.b_open_trade b1 = Some ot ->
                     exists i, nth_error (map LiveSimulator.st_date
                                            (LiveSimulator.simulation_states v)
                                          ++ [date row]) i
                               = Some (LiveSimulator.entry_date ot))
               /\ Forall (trade_counted (map LiveSimulator.st_date
                                         (LiveSimulator.simulation_states v)
                                       ++ [date row]))
                    (LiveSimulator.b_completed_trades b1)
               /\ exists new, LiveSimulator.b_completed_trades b1
                              = LiveSimulator.completed_trades v ++ new
                              /\ Forall (fun t => LiveSimulator.exit_date t = date row) new
                              /\ (length new <= 1)%nat).
  { unfold b1.
    destruct (negb (LiveSimulator.position v =? 0)%Z && Qgtb (LiveSimulator.shares v) 0).
    - destruct Hclose as (Hn & Hi & Hf & old & Hold & Hex' & Hlen).
      split; [exact Hi |]. split; [rewrite Hn; discriminate |]. split; [exact Hf |].
      exists old. split; [exact Hold |]. split; [exact Hex' |].
      rewrite Hlen. destruct (LiveSimulator.open_trade v); lia.
    - split; [exact Hid |]. split; [exact Hot' |]. split; [exact Hsp' |].
      exists []. rewrite app_nil_r. repeat split; [constructor | simpl; lia]. }
  destruct H1 as (I1 & O1 & S1 & N1).
  destruct (execute_signal_cases tc v _ _ _ b Hex) as [(_ & Hb) | [(_ & _ & Hb) | (_ & _ & Hb)]].
  - subst b. unfold ledger_ok. rewrite Hct, Hopen, Hdates. cbn.
    split; [split; [exact Hid | split; [exact Hot' | exact Hsp']] |].
    exists []. rewrite app_nil_r. repeat split; [constructor | simpl; lia].
  - fold b0 in Hb. fold bc in Hb. fold b1 in Hb. subst b.
    unfold ledger_ok. rewrite Hct, Hopen, Hdates.
    split; [split; [exact I1 | split; [exact O1 | exact S1]] | exact N1].
  - fold b0 in Hb. fold bc in Hb. fold b1 in Hb.
    destruct (open_position_inv tc _ _ _ b1 b Hb) as (_ & _ & _ & Hsame & ot & Eot & Ed & _).
    unfold ledger_ok. rewrite Hct, Hopen, Hdates, Hsame.
    split; [split; [exact I1 | split; [| exact S1]] | exact N1].
    intros ot' Eot'. rewrite Eot in Eot'. injection Eot' as <-.
    exists (length (LiveSimulator.simulation_states v)).
    rewrite Ed, <- Hdates. exact Htoday.
Qed.

Lemma simulate_days_ledger (ic tc thr vthr : Q) (df : FeatureSeries)
    (v v' : LiveSimulator.Vars) :
  ledger_ok v ->
  LiveSimulator.simulate_days ic tc thr vthr v df = Ok v' ->
  ledger_ok v'
  /\ exists new, LiveSimulator.completed_trades v' = LiveSimulator.completed_trades v ++ new.
Proof.
  revert v. induction df as [| row df IH]; intros v Hok H.
  - simpl in H. injection H as <-. split; [exact Hok |]. exists []. symmetry. apply app_nil_r.
  - cbn [LiveSimulator.simulate_days] in H.
    destruct (LiveSimulator.simulate_day ic tc thr vthr v row) as [v1 | e] eqn:E;
      cbn [bind] in H; [| discriminate].
    destruct (simulate_day_ledger ic tc thr vthr v v1 row Hok E) as (Hok1 & n1 & Hn1 & _).
    destruct (IH v1 Hok1 H) as (Hok' & n2 & Hn2).
    split; [exact Hok' |]. exists (n1 ++ n2). rewrite Hn2, Hn1, app_assoc. reflexivity.
Qed.

Lemma trade_counted_spans (dates : list string) (t : LiveSimulator.CompletedTrade) :
  trade_counted dates t -> trade_spans dates t.
Proof.
  intros (i & j & Hij & Hi & Hj & Hh). exists i, j.
  split; [exact Hij |]. split; [exact Hi |]. split; [exact Hj |].
  rewrite Hh. split.
  - apply (filter_length_pos _ _ (LiveSimulator.ct_entry_date t)); [| apply leb_refl].
    apply (nth_error_In _ i). rewrite nth_error_firstn.
    destruct (Nat.ltb_spec i j) as [_ | H]; [exact Hi | lia].
  - pose proof (filter_length_le (String.leb (LiveSimulator.ct_entry_date t))
                  (firstn j dates)) as H.
    rewrite length_firstn in H. lia.
Qed.

Lemma ledger_ok_initial (ic : Q) : ledger_ok (LiveSimulator.initial_vars ic).
Proof.
  split; [reflexivity |]. split; [discriminate | constructor].
Qed.

(** X5.  The completed trades are numbered 1, 2, 3, ... in the order in
    which they were closed, the summary counts them, and the ledger only
    grows: the trades completed in the first [k] days are the first ones of
    the final ledger. *)
Theorem trades_are_numbered_in_order :
  forall (df : FeatureSeries)
         (initial_capital transaction_cost sentiment_threshold volatility_percentile : Q)
         (r : LiveSimulator.LiveResult),
    LiveSimulator.run_live_simulation df initial_capital transaction_cost
      sentiment_threshold volatility_percentile = Ok (Some r) ->
    map LiveSimulator.trade_id (LiveSimulator.r_completed_trades r)
    = seq 1 (length (LiveSimulator.r_completed_trades r))
    /\ LiveSimulator.total_trades (LiveSimulator.summary r)
       = length (LiveSimulator.r_completed_trades r)
    /\ exists vthr,
         volatility_threshold_of df volatility_percentile = Ok vthr
         /\ forall k, exists vk later,
              vars_after initial_capital transaction_cost sentiment_threshold vthr df k
              = Ok vk
              /\ LiveSimulator.r_completed_trades r
                 = LiveSimulator.completed_trades vk ++ later.
Proof.
  intros df ic tc thr pct r Hrun.
  destruct (run_live_simulation_inv df ic tc thr pct r Hrun)
    as (vthr & vf & Hv & Hsim & _ & Hct & _ & _ & Hsum).
  destruct (simulate_days_ledger ic tc thr vthr df _ vf (ledger_ok_initial ic) Hsim)
    as ((Hid & _) & _).
  rewrite Hct, Hsum. split; [exact Hid |]. split; [reflexivity |].
  exists vthr. split; [exact Hv |].
  intro k.
  destruct (simulate_days_prefix ic tc thr vthr _ vf df k Hsim) as (vk & Hpre & Hpost).
  destruct (simulate_days_ledger ic tc thr vthr (firstn k df) _ vk (ledger_ok_initial ic) Hpre)
    as (Hokk & _).
  destruct (simulate_days_ledger ic tc thr vthr (skipn k df) vk vf Hokk Hpost)
    as (_ & later & Hlater).
  exists vk, later. split; [exact Hpre | exact Hlater].
Qed.

Lemma trades_are_numbered_in_order_witness :
  exists r,
    LiveSimulator.run_live_simulation series_gain 10000 (1 # 1000) (1 # 5) 50
      = Ok (Some r)
    /\ map LiveSimulator.trade_id (LiveSimulator.r_completed_trades r)
       = seq 1 (length (LiveSimulator.r_completed_trades r))
    /\ length (LiveSimulator.r_completed_trades r) = 1%nat.
Proof.
  eexists. split; [vm_compute; reflexivity |].
  split; [| reflexivity].
  apply (trades_are_numbered_in_order series_gain 10000 (1 # 1000) (1 # 5) 50).
  vm_compute. reflexivity.
Defined.

(** X10.  Every completed trade was entered on a day of the series and
    left on a later day of the series; its holding days, the logged days
    from the entry date on, are at least 1 and at most the number of days
    before the exit. *)
Theorem trades_span_entry_to_exit :
  forall (df : FeatureSeries)
         (initial_capital transaction_cost sentiment_threshold volatility_percentile : Q)
         (r : LiveSimulator.LiveResult),
    LiveSimulator.run_live_simulation df initial_capital transaction_cost
      sentiment_threshold volatility_percentile = Ok (Some r) ->
    Forall (trade_spans (map date df)) (LiveSimulator.r_completed_trades r).
Proof.
  intros df ic tc thr pct r Hrun.
  destruct (run_live_simulation_inv df ic tc thr pct r Hrun)
    as (vthr & vf & _ & Hsim & _ & Hct & _).
  destruct (simulate_days_ledger ic tc thr vthr df _ vf (ledger_ok_initial ic) Hsim)
    as ((_ & _ & Hsp) & _).
  destruct (simulate_days_entries ic tc thr vthr df _ vf Hsim) as (A & _).
  cbn in A. rewrite A in Hsp. rewrite Hct.
  eapply Forall_impl; [| exact Hsp]. intro t. apply trade_counted_spans.
Qed.

Lemma trades_span_entry_to_exit_witness :
  exists r,
    LiveSimulator.run_live_simulation series_gain 10000 (1 # 1000) (1 # 5) 50
      = Ok (Some r)
    /\ Forall (trade_spans (map date series_gain)) (LiveSimulator.r_completed_trades r)
    /\ map LiveSimulator.holding_days (LiveSimulator.r_completed_trades r) = [1%nat].
Proof.
  eexists. split; [vm_compute; reflexivity |].
  split; [| reflexivity].
  apply (trades_span_entry_to_exit series_gain 10000 (1 # 1000) (1 # 5) 50).
  vm_compute. reflexivity.
Defined.

(** ** Counting the trades *)

Lemma last_cons_default {A : Type} (l : list A) (a p : A) :
  last (a :: l) p = last l a.
Proof.
  revert a p. induction l as [| b l IH]; intros a p; [reflexivity |].
  change (last (a :: b :: l) p) with (last (b :: l) p).
  rewrite (IH b p), (IH b a). reflexivity.
Qed.

Lemma exits_from_snoc (p : Z) (l : list Z) (q : Z) :
  exits_from p (l ++ [q])
  = (exits_from p l
     + (if negb (last l p =? 0)%Z && negb (q =? last l p)%Z then 1 else 0))%nat.
Proof.
  revert p. induction l as [| a l IH]; intro p.
  - cbn. lia.
  - cbn [app exits_from]. rewrite IH.
    rewrite last_cons_default. lia.
Qed.

Lemma execute_signal_count (c : Q) (v : LiveSimulator.Vars) (sig : Z) (today : string)
    (px : Q) (b : LiveSimulator.Book) :
  LiveSimulator.execute_signal c v sig today px = Ok (b, sig) ->
  length (LiveSimulator.b_completed_trades b)
  = (length (LiveSimulator.completed_trades v)
     + (if negb (sig =? LiveSimulator.position v)%Z
           && (negb (LiveSimulator.position v =? 0)%Z && Qgtb (LiveSimulator.shares v) 0)
        then match LiveSimulator.open_trade v with Some _ => 1 | None => 0 end
        else 0))%nat
  /\ (sig = LiveSimulator.position v ->
      LiveSimulator.b_open_trade b = LiveSimulator.open_trade v)
  /\ (sig <> LiveSimulator.position v -> sig <> 0%Z ->
      LiveSimulator.b_open_trade b <> None).
Proof.
  intro H.
  assert (Hc : forall states,
             length (LiveSimulator.b_completed_trades
                       (LiveSimulator.close_position c states today px
                          (LiveSimulator.mkBook (LiveSimulator.cash v)
                             (LiveSimulator.shares v) (LiveSimulator.open_trade v)
                             (LiveSimulator.completed_trades v) None)))
             = (length (LiveSimulator.completed_trades v)
                + match LiveSimulator.open_trade v with Some _ => 1 | None => 0 end)%nat).
  { intro states. unfold LiveSimulator.close_position. cbn.
    destruct (LiveSimulator.open_trade v); [rewrite length_app; reflexivity | lia]. }
  destruct (execute_signal_cases c v sig today px b H)
    as [(E & Hb) | [(E & S0 & Hb) | (E & S0 & Hb)]].
  - subst b. cbn. apply Z.eqb_eq in E. rewrite E. cbn. split; [lia |].
    split; [reflexivity |]. intro N. apply Z.eqb_eq in E. contradiction.
  - apply Z.eqb_neq in E. rewrite E. cbn [negb andb]. rewrite Hb.
    apply Z.eqb_neq in E.
    split; [| split; [contradiction | intros _ N; contradiction]].
    destruct (negb (LiveSimulator.position v =? 0)%Z && Qgtb (LiveSimulator.shares v) 0);
      [apply Hc | cbn; lia].
  - destruct (open_position_inv c _ _ _ _ b Hb) as (_ & _ & _ & Hsame & ot & Eot & _).
    rewrite Hsame, Eot.
    apply Z.eqb_neq in E. rewrite E. cbn [negb andb]. apply Z.eqb_neq in E.
    split; [| split; [contradiction | intros _ _; discriminate]].
    destruct (negb (LiveSimulator.position v =? 0)%Z && Qgtb (LiveSimulator.shares v) 0);
      [apply Hc | cbn; lia].
Qed.

Lemma simulate_day_count (ic tc thr vthr : Q) (v v' : LiveSimulator.Vars)
    (row : FeatureRow) :
  LiveSimulator.simulate_day ic tc thr vthr v row = Ok v' ->
  LiveSimulator.position v = last (map LiveSimulator.ph_position
                                     (LiveSimulator.position_history v)) 0%Z ->
  LiveSimulator.position v' = last (map LiveSimulator.ph_position
                                      (LiveSimulator.position_history v')) 0%Z
  /\ (exits (map LiveSimulator.ph_position (LiveSimulator.position_history v'))
      = exits (map LiveSimulator.ph_position (LiveSimulator.position_history v))
        + (if negb (LiveSimulator.position v =? 0)%Z
              && negb (LiveSimulator.position v' =? LiveSimulator.position v)%Z
           then 1 else 0))%nat
  /\ (length (LiveSimulator.completed_trades v')
      = length (LiveSimulator.completed_trades v)
        + (if negb (LiveSimulator.position v' =? LiveSimulator.position v)%Z
              && (negb (LiveSimulator.position v =? 0)%Z
                  && Qgtb (LiveSimulator.shares v) 0)
           then match LiveSimulator.open_trade v with Some _ => 1 | None => 0 end
           else 0))%nat
  /\ (LiveSimulator.position v <> 0%Z -> LiveSimulator.open_trade v <> None ->
      LiveSimulator.position v' <> 0%Z -> LiveSimulator.open_trade v' <> None).
Proof.
  intros Hday Hlast.
  destruct (simulate_day_inv ic tc thr vthr v v' row Hday)
    as (b & Hex & _ & _ & Hpos & _ & Hopen & Hct & _ & _ & _ & _ & (h & Hh & _ & Hp & _)).
  destruct (execute_signal_count tc v _ _ _ b Hex) as (Hn & Hkeep & Hnew).
  rewrite Hh, map_app. cbn [map]. rewrite Hp, <- Hpos.
  split; [rewrite last_last; reflexivity |].
  split; [unfold exits; rewrite exits_from_snoc, <- Hlast; reflexivity |].
  split; [rewrite Hct, Hn, <- Hpos; reflexivity |].
  intros Hp0 Hot Hp'. rewrite Hopen.
  destruct (Z.eq_dec (LiveSimulator.position v') (LiveSimulator.position v)) as [E | E].
  - rewrite Hkeep by (rewrite <- Hpos; exact E). exact Hot.
  - apply Hnew; rewrite <- Hpos; assumption.
Qed.

(** X6.  The number of completed trades never exceeds the number of days on
    which a held position is left.  With a positive initial capital, a
    transaction cost in [0, 1) and positive closes the two are equal: every
    exit from a position, to flat or to the opposite side, completes one
    trade, and nothing else does. *)
Theorem one_trade_per_exit :
  forall (df : FeatureSeries)
         (initial_capital transaction_cost sentiment_threshold volatility_percentile : Q)
         (r : LiveSimulator.LiveResult),
    LiveSimulator.run_live_simulation df initial_capital transaction_cost
      sentiment_threshold volatility_percentile = Ok (Some r) ->
    (LiveSimulator.total_trades (LiveSimulator.summary r)
     <= exits (map LiveSimulator.ph_position (LiveSimulator.r_position_history r)))%nat
    /\ (0 < initial_capital ->
        0 <= transaction_cost ->
        transaction_cost < 1 ->
        Forall (fun row => 0 < close row) df ->
        LiveSimulator.total_trades (LiveSimulator.summary r)
        = exits (map LiveSimulator.ph_position (LiveSimulator.r_position_history r))).
Proof.
  intros df ic tc thr pct r Hrun.
  destruct (run_live_simulation_inv df ic tc thr pct r Hrun)
    as (vthr & vf & _ & Hsim & _ & _ & _ & Hh & Hsum).
  rewrite Hsum, Hh. cbn [LiveSimulator.summarize LiveSimulator.total_trades].
  split.
  - set (P := fun v : LiveSimulator.Vars =>
                LiveSimulator.position v
                = last (map LiveSimulator.ph_position (LiveSimulator.position_history v)) 0%Z
                /\ (length (LiveSimulator.completed_trades v)
                    <= exits (map LiveSimulator.ph_position
                                (LiveSimulator.position_history v)))%nat).
    assert (HP : P vf).
    { apply (simulate_days_invariant ic tc thr vthr P (fun _ => True))
        with (df := df) (v := LiveSimulator.initial_vars ic).
      - intros v row v' [Hl Hle] _ Hday.
        destruct (simulate_day_count ic tc thr vthr v v' row Hday Hl) as (Hl' & He & Hn & _).
        split; [exact Hl' |]. rewrite He, Hn.
        destruct (negb (LiveSimulator.position v' =? LiveSimulator.position v)%Z);
          destruct (negb (LiveSimulator.position v =? 0)%Z);
          destruct (Qgtb (LiveSimulator.shares v) 0);
          destruct (LiveSimulator.open_trade v); cbn; lia.
      - apply Forall_forall. intros; exact I.
      - split; [reflexivity | cbn; lia].
      - exact Hsim. }
    exact (proj2 HP).
  - intros Hic Hc0 Hc1 Hpx.
    set (P := fun v : LiveSimulator.Vars =>
                (allocated (LiveSimulator.position v) (LiveSimulator.cash v)
                   (LiveSimulator.shares v)
                 /\ Forall step_allocated (LiveSimulator.simulation_states v))
                /\ LiveSimulator.position v
                   = last (map LiveSimulator.ph_position
                             (LiveSimulator.position_history v)) 0%Z
                /\ (LiveSimulator.position v <> 0%Z -> LiveSimulator.open_trade v <> None)
                /\ length (LiveSimulator.completed_trades v)
                   = exits (map LiveSimulator.ph_position
                              (LiveSimulator.position_history v))).
    assert (HP : P vf).
    { apply (simulate_days_invariant ic tc thr vthr P (fun row => 0 < close row))
        with (df := df) (v := LiveSimulator.initial_vars ic).
      - intros v row v' (Hal & Hl & Hot & Hlen) Hrow Hday.
        destruct (simulate_day_count ic tc thr vthr v v' row Hday Hl)
          as (Hl' & He & Hn & Hot').
        split; [exact (simulate_day_allocated ic tc thr vthr v v' row Hc0 Hc1 Hal Hrow Hday) |].
        split; [exact Hl' |].
        split.
        + intro Hp'.
          destruct (Z.eq_dec (LiveSimulator.position v) 0) as [Z0 | Z0].
          * destruct (simulate_day_inv ic tc thr vthr v v' row Hday)
              as (b & Hex & _ & _ & Hpos & _ & Hopen & _).
            destruct (execute_signal_count tc v _ _ _ b Hex) as (_ & _ & Hnew).
            rewrite Hopen. apply Hnew; rewrite <- Hpos; congruence.
          * apply Hot'; auto.
        + rewrite He, Hn, Hlen. f_equal.
          destruct (Z.eqb_spec (LiveSimulator.position v) 0) as [Z0 | Z0]; cbn [negb andb].
          * destruct (negb (LiveSimulator.position v' =? LiveSimulator.position v)%Z);
              reflexivity.
          * destruct (allocated_iff _ _ _ (proj1 Hal)) as [Hsh _].
            apply Hsh in Z0 as Hpos. apply Qgtb_gt in Hpos. rewrite Hpos.
            destruct (LiveSimulator.open_trade v) as [ot |]; [| exfalso; apply (Hot Z0 eq_refl)].
            destruct (negb (LiveSimulator.position v' =? LiveSimulator.position v)%Z);
              reflexivity.
      - exact Hpx.
      - split; [split; [| constructor] |].
        + left. cbn. split; [reflexivity |]. split; [exact Hic | reflexivity].
        + split; [reflexivity |]. split; [intro N; exfalso; apply N; reflexivity | reflexivity].
      - exact Hsim. }
    exact (proj2 (proj2 (proj2 HP))).
Qed.

Lemma one_trade_per_exit_witness :
  exists r,
    LiveSimulator.run_live_simulation series_gain 10000 (1 # 1000) (1 # 5) 50
      = Ok (Some r)
    /\ LiveSimulator.total_trades (LiveSimulator.summary r)
       = exits (map LiveSimulator.ph_position (LiveSimulator.r_position_history r)).
Proof.
  assert (Hrun : exists r,
             LiveSimulator.run_live_simulation series_gain 10000 (1 # 1000) (1 # 5) 50
             = Ok (Some r)) by (eexists; vm_compute; reflexivity).
  destruct Hrun as [r Hrun].
  destruct (one_trade_per_exit series_gain 10000 (1 # 1000) (1 # 5) 50 r Hrun)
    as (_ & Heq).
  exists r. split; [exact Hrun |].
  apply Heq; [reflexivity | discriminate | reflexivity | repeat constructor].
Defined.

(** ** The price of a trade *)

Lemma execute_signal_value (c : Q) (v : LiveSimulator.Vars) (sig : Z) (today : string)
    (px : Q) (b : LiveSimulator.Book) :
  0 <= c -> c < 1 -> 0 < px ->
  allocated (LiveSimulator.position v) (LiveSimulator.cash v) (LiveSimulator.shares v) ->
  LiveSimulator.execute_signal c v sig today px = Ok (b, sig) ->
  let before := LiveSimulator.mark_to_market (LiveSimulator.position v)
                  (LiveSimulator.shares v) (LiveSimulator.cash v) px in
  let leaving := negb (LiveSimulator.position v =? 0)%Z
                 && negb (sig =? LiveSimulator.position v)%Z in
  let entering := negb (sig =? 0)%Z && negb (sig =? LiveSimulator.position v)%Z in
  0 < before
  /\ LiveSimulator.mark_to_market sig (LiveSimulator.b_shares b) (LiveSimulator.b_cash b) px
     == after_cost c entering (after_cost c leaving before).
Proof.
  intros Hc0 Hc1 Hpx Hal Hex before leaving entering.
  pose proof (execute_signal_allocated c v sig today px b Hc0 Hc1 Hpx Hal Hex) as Hal'.
  assert (Hbefore : before == LiveSimulator.cash v
                              + LiveSimulator.shares v * px
                    /\ 0 < before).
  { unfold before.
    destruct Hal as [(Hp & Hca & Hsh) | (Hp & Hca & Hsh)].
    - unfold LiveSimulator.mark_to_market. rewrite Hp. cbn. rewrite Hsh. split; lra.
    - rewrite mark_to_market_holding by assumption.
      assert (0 < LiveSimulator.shares v * px) by (apply Qmult_lt_0_compat; assumption).
      split; lra. }
  destruct Hbefore as [Hb Hbpos]. split; [exact Hbpos |].
  assert (Hafter : LiveSimulator.mark_to_market sig (LiveSimulator.b_shares b)
                     (LiveSimulator.b_cash b) px
                   == LiveSimulator.b_cash b + LiveSimulator.b_shares b * px).
  { destruct Hal' as [(Hp & Hca & Hsh) | (Hp & Hca & Hsh)].
    - unfold LiveSimulator.mark_to_market. rewrite Hp. cbn. rewrite Hsh. lra.
    - rewrite mark_to_market_holding by assumption. reflexivity. }
  rewrite Hafter. unfold leaving, entering, after_cost.
  assert (Hpx0 : ~ px == 0) by lra.
  destruct (execute_signal_cases c v sig today px b Hex)
    as [(E & Hbk) | [(E & S0 & Hbk) | (E & S0 & Hbk)]].
  - subst b. cbn. apply Z.eqb_eq in E. rewrite E, !andb_false_r. lra.
  - rewrite Hbk. apply Z.eqb_neq in E. rewrite E. subst sig.
    cbn [Z.eqb negb andb].
    destruct Hal as [(Hp & Hca & Hsh) | (Hp & Hca & Hsh)].
    + rewrite Hp in E. discriminate E.
    + apply Z.eqb_neq in Hp. apply Qgtb_gt in Hsh as G. rewrite Hp, G. cbn.
      rewrite Hb. rewrite Hca. ring.
  - destruct (open_position_inv c _ _ _ _ b Hbk) as (_ & -> & -> & _).
    apply Z.eqb_neq in E. apply Z.eqb_neq in S0. rewrite E, S0. cbn [negb andb].
    destruct Hal as [(Hp & Hca & Hsh) | (Hp & Hca & Hsh)].
    + rewrite Hp. cbn. rewrite Hb, Hsh. field. exact Hpx0.
    + apply Z.eqb_neq in Hp. apply Qgtb_gt in Hsh as G. rewrite Hp, G. cbn.
      rewrite Hb, Hca. field. exact Hpx0.
Qed.

(** X7.  With a positive initial capital, a transaction cost in [0, 1) and
    positive closes, the portfolio value at the end of a day is the value
    before the day's trades, times [1 - transaction_cost] once if a held
    position is left and once more if a new position is entered.  So a day's
    trading never raises the value, and the value stays positive. *)
Theorem trading_costs_one_fraction_per_leg :
  forall (df : FeatureSeries)
         (initial_capital transaction_cost sentiment_threshold volatility_percentile : Q)
         (r : LiveSimulator.LiveResult),
    LiveSimulator.run_live_simulation df initial_capital transaction_cost
      sentiment_threshold volatility_percentile = Ok (Some r) ->
    0 < initial_capital ->
    0 <= transaction_cost ->
    transaction_cost < 1 ->
    Forall (fun row => 0 < close row) df ->
    exists vthr,
      volatility_threshold_of df volatility_percentile = Ok vthr
      /\ forall k row,
           nth_error df k = Some row ->
           exists v v',
             vars_after initial_capital transaction_cost sentiment_threshold vthr df k
             = Ok v
             /\ vars_after initial_capital transaction_cost sentiment_threshold vthr df (S k)
                = Ok v'
             /\ let before := LiveSimulator.mark_to_market (LiveSimulator.position v)
                                (LiveSimulator.shares v) (LiveSimulator.cash v)
                                (close row) in
                let leaving := negb (LiveSimulator.position v =? 0)%Z
                               && negb (LiveSimulator.position v'
                                        =? LiveSimulator.position v)%Z in
                let entering := negb (LiveSimulator.position v' =? 0)%Z
                                && negb (LiveSimulator.position v'
                                         =? LiveSimulator.position v)%Z in
                LiveSimulator.prev_portfolio_value v'
                == after_cost transaction_cost entering
                     (after_cost transaction_cost leaving before)
                /\ LiveSimulator.prev_portfolio_value v' <= before
                /\ 0 < LiveSimulator.prev_portfolio_value v'.
Proof.
  intros df ic tc thr pct r Hrun Hic Hc0 Hc1 Hpx.
  destruct (run_live_simulation_inv df ic tc thr pct r Hrun)
    as (vthr & vf & Hv & Hsim & _).
  exists vthr. split; [exact Hv |].
  intros k row Hrow.
  destruct (run_day ic tc thr vthr df vf k row Hsim Hrow) as (v & v' & Hvk & Hvk' & Hday & _).
  exists v, v'. split; [exact Hvk |]. split; [exact Hvk' |].
  assert (Hal : allocated (LiveSimulator.position v) (LiveSimulator.cash v)
                  (LiveSimulator.shares v)
                /\ Forall step_allocated (LiveSimulator.simulation_states v)).
  { apply (simulate_days_invariant ic tc thr vthr
             (fun v => allocated (LiveSimulator.position v) (LiveSimulator.cash v)
                         (LiveSimulator.shares v)
                       /\ Forall step_allocated (LiveSimulator.simulation_states v))
             (fun row => 0 < close row))
      with (df := firstn k df) (v := LiveSimulator.initial_vars ic).
    - intros u row' u' Hu Hr Hd.
      exact (simulate_day_allocated ic tc thr vthr u u' row' Hc0 Hc1 Hu Hr Hd).
    - apply Forall_firstn. exact Hpx.
    - split; [| constructor]. left. cbn. split; [reflexivity |].
      split; [exact Hic | reflexivity].
    - exact Hvk. }
  assert (Hclose : 0 < close row).
  { rewrite Forall_forall in Hpx. apply Hpx. eapply nth_error_In. exact Hrow. }
  destruct (simulate_day_inv ic tc thr vthr v v' row Hday)
    as (b & Hex & _ & _ & Hpos & _ & _ & _ & Hprev & _).
  destruct (execute_signal_value tc v _ _ _ b Hc0 Hc1 Hclose (proj1 Hal) Hex) as [Hb Hval].
  rewrite <- Hprev in Hval. rewrite <- Hpos in Hval.
  cbn zeta. split; [exact Hval |].
  set (before := LiveSimulator.mark_to_market (LiveSimulator.position v)
                   (LiveSimulator.shares v) (LiveSimulator.cash v) (close row)) in *.
  assert (Hleg : forall (leg : bool) (x : Q),
             0 < x -> 0 < after_cost tc leg x /\ after_cost tc leg x <= x).
  { intros leg x Hx. unfold after_cost. destruct leg; [| split; lra].
    assert (0 < x * (1 - tc)) by (apply Qmult_lt_0_compat; lra).
    assert (0 <= x * tc) by (apply Qmult_le_0_compat; lra).
    split; lra. }
  match type of Hval with
  | _ == after_cost _ ?e (after_cost _ ?l _) =>
      destruct (Hleg l before Hb) as [P1 L1];
      destruct (Hleg e (after_cost tc l before) P1) as [P2 L2]
  end.
  rewrite Hval. split; lra.
Qed.

Lemma trading_costs_one_fraction_per_leg_witness :
  exists r vthr,
    LiveSimulator.run_live_simulation series_gain 10000 (1 # 1000) (1 # 5) 50
      = Ok (Some r)
    /\ volatility_threshold_of series_gain 50 = Ok vthr
    /\ forall k row,
         nth_error series_gain k = Some row ->
         exists v',
           vars_after 10000 (1 # 1000) (1 # 5) vthr series_gain (S k) = Ok v'
           /\ 0 < LiveSimulator.prev_portfolio_value v'.
Proof.
  assert (Hrun : exists r,
             LiveSimulator.run_live_simulation series_gain 10000 (1 # 1000) (1 # 5) 50
             = Ok (Some r)) by (eexists; vm_compute; reflexivity).
  destruct Hrun as [r Hrun].
  destruct (trading_costs_one_fraction_per_leg series_gain 10000 (1 # 1000) (1 # 5) 50 r Hrun)
    as (vthr & Hv & Hdays).
  - reflexivity.
  - discriminate.
  - reflexivity.
  - repeat constructor.
  - exists r, vthr. split; [exact Hrun |]. split; [exact Hv |].
    intros k row Hrow. destruct (Hdays k row Hrow) as (v & v' & _ & Hv' & _ & _ & Hpos).
    exists v'. split; [exact Hv' | exact Hpos].
Defined.

(** ** A quiet series *)

Lemma quiet_signals (thr vthr : Q) (row : FeatureRow) :
  quiet thr row ->
  LiveSimulator._generate_signal (sentiment_avg_5d row) (volatility_5d row) vthr thr = 0%Z
  /\ Strategy.select_signal thr vthr row = 0%Z.
Proof.
  unfold quiet, LiveSimulator._generate_signal, Strategy.select_signal, nan_gt, nan_lt.
  destruct (sentiment_avg_5d row) as [s |]; [| intros _; split; reflexivity].
  intros [Hlo Hhi].
  assert (G : Qgtb s thr = false) by (apply Qgtb_le; exact Hhi).
  assert (L : Qltb s (- thr) = false) by (apply Qltb_ge; exact Hlo).
  rewrite G, L. cbn. destruct (volatility_5d row); split; reflexivity.
Qed.

Lemma round_of_zero (x : Q) (n : nat) : x == 0 -> round x n == 0.
Proof.
  intro H. rewrite (round_comp x 0 n H). apply round_zero.
Qed.

Lemma simulate_day_idle (ic tc thr vthr : Q) (v v' : LiveSimulator.Vars)
    (row : FeatureRow) :
  LiveSimulator._generate_signal (sentiment_avg_5d row) (volatility_5d row) vthr thr = 0%Z ->
  LiveSimulator.cash v = ic ->
  LiveSimulator.position v = 0%Z ->
  LiveSimulator.prev_portfolio_value v = ic ->
  LiveSimulator.peak_value v = ic ->
  LiveSimulator.completed_trades v = [] ->
  LiveSimulator.simulate_day ic tc thr vthr v row = Ok v' ->
  (LiveSimulator.cash v' = ic
   /\ LiveSimulator.position v' = 0%Z
   /\ LiveSimulator.prev_portfolio_value v' = ic
   /\ LiveSimulator.peak_value v' = ic
   /\ LiveSimulator.completed_trades v' = [])
  /\ exists s d h,
       LiveSimulator.simulation_states v' = LiveSimulator.simulation_states v ++ [s]
       /\ LiveSimulator.daily_pnl v' = LiveSimulator.daily_pnl v ++ [d]
       /\ LiveSimulator.position_history v' = LiveSimulator.position_history v ++ [h]
       /\ LiveSimulator.signal s = 0%Z
       /\ LiveSimulator.pos_current s = 0%Z
       /\ LiveSimulator.trade s = None
       /\ LiveSimulator.pf_total_value s = round ic 2
       /\ LiveSimulator.risk_current_drawdown_pct s == 0
       /\ LiveSimulator.pnl d == 0
       /\ LiveSimulator.cumulative_pnl d == 0
       /\ LiveSimulator.ph_position h = 0%Z.
Proof.
  intros Hsig Hca Hpos Hprev Hpeak Htr. unfold LiveSimulator.simulate_day.
  rewrite Hsig. unfold LiveSimulator.execute_signal. rewrite Hpos.
  cbn [Z.eqb negb bind fst snd LiveSimulator.b_cash LiveSimulator.b_shares
       LiveSimulator.b_open_trade LiveSimulator.b_completed_trades
       LiveSimulator.b_trade_details].
  unfold LiveSimulator.mark_to_market. cbn [Z.eqb negb andb].
  rewrite Hca, Hprev, Hpeak, Htr.
  match goal with |- context [fdiv ?x ?y] => destruct (fdiv x y) as [q | e] end;
    cbn [bind]; [| discriminate].
  assert (G : Qgtb ic ic = false) by (apply Qgtb_le; apply Qle_refl).
  rewrite G.
  intro H. injection H as <-. cbn.
  split; [repeat split |].
  do 3 eexists. repeat (split; [reflexivity |]). cbn.
  split; [| split; [| split; [| reflexivity]]].
  - apply round_of_zero.
    destruct (Qgtb ic 0) eqn:P; [| ring].
    apply Qgtb_gt in P. field. lra.
  - apply round_of_zero. ring.
  - apply round_of_zero. ring.
Qed.

(** X8.  On a series whose average sentiment never leaves the band
    [[-sentiment_threshold, sentiment_threshold]] (or is missing) the
    simulator never trades: every signal and every position is flat, no
    step carries a trade and no trade is completed, every step shows the
    rounded initial capital with no drawdown, and every daily pnl is 0. *)
Theorem quiet_series_is_never_traded :
  forall (df : FeatureSeries)
         (initial_capital transaction_cost sentiment_threshold volatility_percentile : Q)
         (r : LiveSimulator.LiveResult),
    LiveSimulator.run_live_simulation df initial_capital transaction_cost
      sentiment_threshold volatility_percentile = Ok (Some r) ->
    Forall (quiet sentiment_threshold) df ->
    LiveSimulator.r_completed_trades r = []
    /\ LiveSimulator.total_trades (LiveSimulator.summary r) = 0%nat
    /\ Forall (fun s => LiveSimulator.signal s = 0%Z
                        /\ LiveSimulator.pos_current s = 0%Z
                        /\ LiveSimulator.trade s = None
                        /\ LiveSimulator.pf_total_value s = round initial_capital 2
                        /\ LiveSimulator.risk_current_drawdown_pct s == 0)
         (LiveSimulator.r_simulation_states r)
    /\ Forall (fun d => LiveSimulator.pnl d == 0 /\ LiveSimulator.cumulative_pnl d == 0)
         (LiveSimulator.r_daily_pnl r)
    /\ Forall (fun h => LiveSimulator.ph_position h = 0%Z)
         (LiveSimulator.r_position_history r)
    /\ LiveSimulator.final_capital r = round (round initial_capital 2) 2.
Proof.
  intros df ic tc thr pct r Hrun Hq.
  pose proof Hrun as Hrun'.
  destruct (run_live_simulation_inv df ic tc thr pct r Hrun)
    as (vthr & vf & Hv & Hsim & Hs & Hct & Hd & Hh & Hsum).
  set (P := fun v : LiveSimulator.Vars =>
              (LiveSimulator.cash v = ic
               /\ LiveSimulator.position v = 0%Z
               /\ LiveSimulator.prev_portfolio_value v = ic
               /\ LiveSimulator.peak_value v = ic
               /\ LiveSimulator.completed_trades v = [])
              /\ Forall (fun s => LiveSimulator.signal s = 0%Z
                                  /\ LiveSimulator.pos_current s = 0%Z
                                  /\ LiveSimulator.trade s = None
                                  /\ LiveSimulator.pf_total_value s = round ic 2
                                  /\ LiveSimulator.risk_current_drawdown_pct s == 0)
                   (LiveSimulator.simulation_states v)
              /\ Forall (fun d => LiveSimulator.pnl d == 0
                                  /\ LiveSimulator.cumulative_pnl d == 0)
                   (LiveSimulator.daily_pnl v)
              /\ Forall (fun h => LiveSimulator.ph_position h = 0%Z)
                   (LiveSimulator.position_history v)).
  assert (HP : P vf).
  { apply (simulate_days_invariant ic tc thr vthr P (quiet thr))
      with (df := df) (v := LiveSimulator.initial_vars ic).
    - intros v row v' ((Hca & Hpos & Hprev & Hpeak & Htr) & Fs & Fd & Fh) Hrow Hday.
      unfold P.
      destruct (quiet_signals thr vthr row Hrow) as [Hsig _].
      destruct (simulate_day_idle ic tc thr vthr v v' row Hsig Hca Hpos Hprev Hpeak Htr Hday)
        as (Hidle & s & d & h & -> & -> & -> & A1 & A2 & A3 & A4 & A5 & A6 & A7 & A8).
      split; [exact Hidle |].
      split; [| split]; apply Forall_app; (split; [assumption |]);
        (constructor; [| constructor]); auto.
    - exact Hq.
    - split; [cbn; auto |]. split; [| split]; constructor.
    - exact Hsim. }
  destruct HP as ((_ & _ & _ & _ & Htr) & Fs & Fd & Fh).
  rewrite Hct, Hs, Hd, Hh, Hsum.
  split; [exact Htr |].
  split; [cbn; rewrite Htr; reflexivity |].
  split; [exact Fs |]. split; [exact Fd |]. split; [exact Fh |].
  (* the final capital *)
  unfold LiveSimulator.run_live_simulation in Hrun'.
  destruct df as [| row0 df0]; [discriminate |].
  rewrite Hv in Hrun'. cbn [bind] in Hrun'. rewrite Hsim in Hrun'. cbn [bind] in Hrun'.
  match type of Hrun' with
  | bind (fdiv ?x ?y) _ = _ => destruct (fdiv x y) as [q | e]
  end; cbn [bind] in Hrun'; [| discriminate].
  injection Hrun' as <-. cbn [LiveSimulator.final_capital].
  destruct (simulate_days_entries ic tc thr vthr _ _ vf Hsim) as (A & _).
  destruct (rev (LiveSimulator.simulation_states vf)) as [| s l] eqn:E.
  - apply (f_equal (@length _)) in A. rewrite !length_map in A.
    apply (f_equal (@length _)) in E. rewrite length_rev in E.
    cbn in A, E. lia.
  - assert (Is : In s (LiveSimulator.simulation_states vf)).
    { apply in_rev. rewrite E. left. reflexivity. }
    rewrite Forall_forall in Fs. destruct (Fs s Is) as (_ & _ & _ & -> & _).
    reflexivity.
Qed.

Lemma quiet_series_is_never_traded_witness :
  exists r,
    LiveSimulator.run_live_simulation series_calm 10000 (1 # 1000) 1 50 = Ok (Some r)
    /\ LiveSimulator.r_completed_trades r = []
    /\ LiveSimulator.final_capital r == 10000.
Proof.
  eexists. split; [vm_compute; reflexivity |].
  split; [| reflexivity].
  apply (quiet_series_is_never_traded series_calm 10000 (1 # 1000) 1 50).
  - vm_compute. reflexivity.
  - repeat constructor; cbn; lra.
Defined.

(** ** The summary *)

Lemma py_min_le (x : Q) (l : list Q) (y : Q) : In y (x :: l) -> py_min x l <= y.
Proof.
  unfold py_min.
  assert (G : forall l m, fold_left (fun m y => if Qltb y m then y else m) l m <= m).
  { induction l0 as [| z l0 IH]; intro m; [apply Qle_refl |].
    cbn [fold_left]. destruct (Qltb z m) eqn:E.
    - apply Qltb_lt in E. apply Qle_trans with z; [apply IH | lra].
    - apply IH. }
  revert x. induction l as [| z l IH]; intros x [<- | I].
  - apply Qle_refl.
  - destruct I.
  - apply G.
  - cbn [fold_left]. destruct (Qltb z x) eqn:E.
    + apply IH. exact I.
    + apply Qltb_ge in E. destruct I as [<- | I].
      * apply Qle_trans with x; [apply G | exact E].
      * apply IH. right. exact I.
Qed.

Lemma fold_sum_nonpos (l : list Q) (a : Q) :
  Forall (fun x => x <= 0) l -> a <= 0 -> fold_left Qplus l a <= 0.
Proof.
  intro H. revert a. induction H as [| x l Hx Hl IH]; intros a Ha; simpl; [exact Ha |].
  apply IH. lra.
Qed.

Lemma total_loss_nonpos (trades : list LiveSimulator.CompletedTrade) :
  sum (map LiveSimulator.profit_loss (LiveSimulator.losing_trades trades)) <= 0.
Proof.
  unfold sum. apply fold_sum_nonpos; [| lra].
  apply Forall_forall. intros x Hx.
  apply in_map_iff in Hx. destruct Hx as (t & <- & Ht).
  unfold LiveSimulator.losing_trades in Ht. apply filter_In in Ht.
  apply Qle_bool_iff. exact (proj2 Ht).
Qed.

Lemma won_or_lost (x : Q) : Qle_bool x 0 = negb (Qgtb x 0).
Proof.
  unfold Qgtb, Qltb. rewrite negb_involutive. reflexivity.
Qed.

Lemma winning_losing_length (trades : list LiveSimulator.CompletedTrade) :
  (length (LiveSimulator.winning_trades trades)
   + length (LiveSimulator.losing_trades trades) = length trades)%nat.
Proof.
  unfold LiveSimulator.winning_trades, LiveSimulator.losing_trades.
  induction trades as [| t l IH]; [reflexivity |].
  cbn [filter]. rewrite won_or_lost.
  destruct (Qgtb (LiveSimulator.profit_loss t) 0); cbn [negb length]; lia.
Qed.

Lemma inject_nat_nonneg (n : nat) : 0 <= inject_Z (Z.of_nat n).
Proof.
  change 0 with (inject_Z 0). rewrite <- Zle_Qle. lia.
Qed.

Lemma mean_or_zero_sign (xs : list Q) :
  (0 <= sum xs -> 0 <= LiveSimulator.mean_or_zero xs)
  /\ (sum xs <= 0 -> LiveSimulator.mean_or_zero xs <= 0).
Proof.
  unfold LiveSimulator.mean_or_zero.
  destruct xs as [| x xs]; [split; intros; lra |].
  set (n := inject_Z (Z.of_nat (length (x :: xs)))).
  assert (Hn : 0 < n).
  { unfold n. change 0 with (inject_Z 0). rewrite <- Zlt_Qlt. cbn [length]. lia. }
  split; intro H.
  - apply Qle_shift_div_l; [exact Hn | lra].
  - apply Qle_shift_div_r; [exact Hn | lra].
Qed.

Lemma round_nonneg (x : Q) (n : nat) : 0 <= x -> 0 <= round x n.
Proof.
  intro H. pose proof (round_zero n). pose proof (round_mono 0 x n H). lra.
Qed.

Lemma round_nonpos (x : Q) (n : nat) : x <= 0 -> round x n <= 0.
Proof.
  intro H. pose proof (round_zero n). pose proof (round_mono x 0 n H). lra.
Qed.

(** X9.  In the summary of a run, every completed trade is counted either
    as winning or as losing; the win rate lies in [0, 100]; the total and
    the average of the winning trades are not negative, those of the losing
    trades not positive; and the profit of every trade lies between the
    worst and the best trade. *)
Theorem summary_statistics_are_consistent :
  forall (df : FeatureSeries)
         (initial_capital transaction_cost sentiment_threshold volatility_percentile : Q)
         (r : LiveSimulator.LiveResult),
    LiveSimulator.run_live_simulation df initial_capital transaction_cost
      sentiment_threshold volatility_percentile = Ok (Some r) ->
    let s := LiveSimulator.summary r in
    (LiveSimulator.n_winning_trades s + LiveSimulator.n_losing_trades s
     = LiveSimulator.total_trades s)%nat
    /\ 0 <= LiveSimulator.win_rate_pct s <= 100
    /\ 0 <= LiveSimulator.total_profit s
    /\ LiveSimulator.total_loss s <= 0
    /\ 0 <= LiveSimulator.avg_win s
    /\ LiveSimulator.avg_loss s <= 0
    /\ Forall (fun t => LiveSimulator.worst_trade s <= LiveSimulator.profit_loss t
                        /\ LiveSimulator.profit_loss t <= LiveSimulator.best_trade s)
         (LiveSimulator.r_completed_trades r).
Proof.
  intros df ic tc thr pct r Hrun s.
  destruct (run_live_simulation_inv df ic tc thr pct r Hrun)
    as (vthr & vf & _ & _ & _ & Htrades & _ & _ & Hsum).
  unfold s. rewrite Hsum, Htrades. unfold LiveSimulator.summarize.
  set (trades := LiveSimulator.completed_trades vf).
  cbn [LiveSimulator.n_winning_trades LiveSimulator.n_losing_trades
       LiveSimulator.total_trades LiveSimulator.win_rate_pct LiveSimulator.total_profit
       LiveSimulator.total_loss LiveSimulator.avg_win LiveSimulator.avg_loss
       LiveSimulator.worst_trade LiveSimulator.best_trade].
  pose proof (winning_losing_length trades) as Hpart.
  split; [exact Hpart |].
  split.
  { destruct trades as [| t0 l] eqn:E.
    - pose proof (round_zero 2). lra.
    - rewrite <- E in *.
      set (w := inject_Z (Z.of_nat (length (LiveSimulator.winning_trades trades)))).
      set (n := inject_Z (Z.of_nat (length trades))).
      assert (Hn : 0 < n).
      { unfold n. change 0 with (inject_Z 0). rewrite <- Zlt_Qlt. rewrite E. cbn [length]. lia. }
      assert (Hw0 : 0 <= w) by apply inject_nat_nonneg.
      assert (Hwn : w <= n) by (unfold w, n; rewrite <- Zle_Qle; lia).
      assert (Hq0 : 0 <= w / n) by (apply Qle_shift_div_l; [exact Hn | lra]).
      assert (Hq1 : w / n <= 1) by (apply Qle_shift_div_r; [exact Hn | lra]).
      split.
      + apply round_nonneg. lra.
      + pose proof (round_mono (w / n * 100) 100 2 ltac:(lra)).
        pose proof round_hundred. lra. }
  split; [apply round_nonneg, total_profit_nonneg |].
  split; [apply round_nonpos, total_loss_nonpos |].
  split; [apply round_nonneg, mean_or_zero_sign, total_profit_nonneg |].
  split; [apply round_nonpos, mean_or_zero_sign, total_loss_nonpos |].
  apply Forall_forall. intros t It.
  apply (in_map LiveSimulator.profit_loss) in It.
  destruct (map LiveSimulator.profit_loss trades) as [| x xs]; [destruct It |].
  split; [apply py_min_le | apply py_max_ge]; exact It.
Qed.

Lemma summary_statistics_are_consistent_witness :
  exists r,
    LiveSimulator.run_live_simulation series_loss 10000 (1 # 1000) (1 # 5) 50
      = Ok (Some r)
    /\ (LiveSimulator.n_winning_trades (LiveSimulator.summary r)
        + LiveSimulator.n_losing_trades (LiveSimulator.summary r)
        = LiveSimulator.total_trades (LiveSimulator.summary r))%nat
    /\ LiveSimulator.n_losing_trades (LiveSimulator.summary r) = 1%nat.
Proof.
  eexists. split; [vm_compute; reflexivity |].
  split; [| reflexivity].
  apply (summary_statistics_are_consistent series_loss 10000 (1 # 1000) (1 # 5) 50).
  vm_compute. reflexivity.
Defined.

(** ** The rows of the backtest *)

Lemma output_rows_columns (f : Backtest.Frame) :
  length (Backtest.f_market_returns f) = length (Backtest.f_date f) ->
  length (Backtest.f_strategy_returns f) = length (Backtest.f_date f) ->
  length (Backtest.f_portfolio_value f) = length (Backtest.f_date f) ->
  map Backtest.b_date (Backtest.output_rows f) = Backtest.f_date f
  /\ map Backtest.market_returns (Backtest.output_rows f)
     = map (fun x => round x 6) (Backtest.f_market_returns f)
  /\ map Backtest.strategy_returns (Backtest.output_rows f)
     = map (fun x => round x 6) (Backtest.f_strategy_returns f)
  /\ map Backtest.portfolio_value (Backtest.output_rows f)
     = map (fun x => round x 2) (Backtest.f_portfolio_value f).
Proof.
  unfold Backtest.output_rows.
  generalize (Backtest.f_date f) (Backtest.f_market_returns f)
    (Backtest.f_strategy_returns f) (Backtest.f_portfolio_value f).
  induction l as [| d ds IH]; intros [| m ms] [| s ss] [| p ps] H1 H2 H3;
    simpl in *; try discriminate; [repeat split |].
  destruct (IH ms ss ps) as (A & B & C & D); try lia.
  repeat split; f_equal; assumption.
Qed.

Lemma run_backtest_rows (df : FeatureSeries) (ic tc thr pct : Q)
    (rows : list Backtest.BacktestRow) :
  df <> [] ->
  Backtest.run_backtest df ic tc thr pct = Ok rows ->
  exists vthr sr pv,
    volatility_threshold_of df pct = Ok vthr
    /\ length sr = length df
    /\ length pv = length df
    /\ map Backtest.b_date rows = map date df
    /\ map Backtest.market_returns rows
       = map (fun x => round x 6) (fillna 0 (map returns df))
    /\ map Backtest.strategy_returns rows = map (fun x => round x 6) sr
    /\ map Backtest.portfolio_value rows = map (fun x => round x 2) pv
    /\ forall t, (t < length df)%nat ->
         nth t sr 0
         = inject_Z (nth t (Strategy.positions thr vthr df) 0%Z)
           * nth t (fillna 0 (map returns df)) 0
           - (if position_changed (Strategy.positions thr vthr df) t then tc else 0)
         /\ nth t pv 0 == ic * growth_through t sr.
Proof.
  intros Hne Hrun.
  assert (Hv : exists vthr, volatility_threshold_of df pct = Ok vthr).
  { unfold Backtest.run_backtest, Strategy.generate_sentiment_strategy in Hrun.
    destruct df as [| row df]; [congruence |].
    destruct (volatility_threshold_of (row :: df) pct) as [vthr | e];
      [exists vthr; reflexivity | discriminate Hrun]. }
  destruct Hv as [vthr Hv].
  destruct (generate_sentiment_strategy_ok df thr pct vthr Hne Hv)
    as (sdf & Hs & Hpos & Hret & Hdate & Hlen).
  set (f := Backtest.backtest_frame sdf ic tc).
  set (pos := Strategy.positions thr vthr df).
  set (ret := fillna 0 (map returns df)).
  assert (Hrows : rows = Backtest.output_rows f).
  { unfold Backtest.run_backtest in Hrun. rewrite Hs in Hrun. cbn [bind] in Hrun.
    destruct sdf as [| r0 sdf0].
    - destruct df; [congruence | discriminate Hlen].
    - injection Hrun as <-. reflexivity. }
  assert (Lpos : length pos = length df) by apply positions_length.
  assert (Lret : length ret = length df)
    by (unfold ret; rewrite fillna_length, length_map; reflexivity).
  assert (Fsr : Backtest.f_strategy_returns f =
                map2 Qminus (map2 (fun p r => inject_Z p * r) pos ret)
                  (map (fun c => if (c >? 0)%Z then tc else 0)
                     (map Z.abs (fillna 0%Z (Backtest.diff pos))))).
  { unfold f, Backtest.backtest_frame. cbn. rewrite Hpos, Hret. reflexivity. }
  assert (Lch : length (map Z.abs (fillna 0%Z (Backtest.diff pos))) = length ret).
  { rewrite length_map, fillna_length, diff_length. lia. }
  assert (Lsr : length (Backtest.f_strategy_returns f) = length df).
  { rewrite Fsr, net_returns_length; lia. }
  assert (Fpv : Backtest.f_portfolio_value f =
                map (Qmult ic) (cumprod (map (Qplus 1) (Backtest.f_strategy_returns f)))).
  { reflexivity. }
  assert (Lpv : length (Backtest.f_portfolio_value f) = length df).
  { rewrite Fpv, length_map, cumprod_length, length_map. exact Lsr. }
  assert (Fdate : Backtest.f_date f = map date df).
  { unfold f, Backtest.backtest_frame. cbn. exact Hdate. }
  assert (Fmr : Backtest.f_market_returns f = ret).
  { unfold f, Backtest.backtest_frame. cbn. rewrite Hret. reflexivity. }
  assert (Ldate : length (Backtest.f_date f) = length df)
    by (rewrite Fdate, length_map; reflexivity).
  destruct (output_rows_columns f) as (A & B & C & D); try lia.
  { rewrite Fmr. lia. }
  exists vthr, (Backtest.f_strategy_returns f), (Backtest.f_portfolio_value f).
  split; [exact Hv |]. split; [exact Lsr |]. split; [exact Lpv |].
  rewrite Hrows.
  split; [rewrite A; exact Fdate |].
  split; [rewrite B, Fmr; reflexivity |].
  split; [exact C |]. split; [exact D |].
  intros t Ht. fold pos. fold ret. split.
  - rewrite Fsr, net_returns_nth by lia.
    rewrite cost_charged_iff_changed by lia. reflexivity.
  - rewrite Fpv.
    assert (E : nth t (map (Qmult ic)
                         (cumprod (map (Qplus 1) (Backtest.f_strategy_returns f)))) 0
                = ic * nth t (cumprod (map (Qplus 1) (Backtest.f_strategy_returns f))) 0).
    { rewrite (nth_indep _ 0 (ic * 0)) by
        (rewrite length_map, cumprod_length, length_map; lia).
      apply (map_nth (Qmult ic)). }
    rewrite E, cumprod_nth by (rewrite length_map; lia).
    rewrite growth_as_product. reflexivity.
Qed.

Lemma run_backtest_empty (ic tc thr pct : Q) (rows : list Backtest.BacktestRow) :
  Backtest.run_backtest [] ic tc thr pct = Ok rows -> rows = [].
Proof.
  cbn. intro H. injection H as <-. reflexivity.
Qed.

Lemma nth_error_map_nth {A B : Type} (g : A -> B) (l : list A) (l' : list B)
    (t : nat) (a : A) (d : B) :
  map g l = l' -> nth_error l t = Some a -> g a = nth t l' d.
Proof.
  intros <- H. symmetry. apply nth_error_nth. rewrite nth_error_map, H. reflexivity.
Qed.

Lemma growth_through_flat (rs : list Q) (t : nat) :
  (forall u, (u <= t)%nat -> nth u rs 0 == 0) -> growth_through t rs == 1.
Proof.
  unfold growth_through. revert t. induction rs as [| r rs IH]; intros t H.
  - cbn. reflexivity.
  - cbn [firstn fold_right].
    assert (H0 : r == 0) by (apply (H 0%nat); lia).
    destruct t as [| t].
    + cbn. rewrite H0. ring.
    + rewrite (IH t).
      * rewrite H0. ring.
      * intros u Hu. apply (H (S u)). lia.
Qed.

(** X11.  The backtest returns one row per day of the series, with the
    day's date and, as market return, the day's return rounded to 6 places
    (0 where it is missing).  The first day is always flat: its strategy
    return is 0 and its portfolio value is the initial capital rounded to 2
    places. *)
Theorem backtest_rows_follow_the_series :
  forall (df : FeatureSeries)
         (initial_capital transaction_cost sentiment_threshold volatility_percentile : Q)
         (rows : list Backtest.BacktestRow),
    Backtest.run_backtest df initial_capital transaction_cost sentiment_threshold
      volatility_percentile = Ok rows ->
    length rows = length df
    /\ map Backtest.b_date rows = map date df
    /\ map Backtest.market_returns rows
       = map (fun row => round (match returns row with Some x => x | None => 0 end) 6) df
    /\ forall first,
         nth_error rows 0 = Some first ->
         Backtest.strategy_returns first == 0
         /\ Backtest.portfolio_value first = round initial_capital 2.
Proof.
  intros df ic tc thr pct rows Hrun.
  destruct df as [| row0 df0] eqn:Edf.
  - apply run_backtest_empty in Hrun. subst rows.
    repeat split; try reflexivity; discriminate.
  - rewrite <- Edf in *.
    assert (Hne : df <> []) by (rewrite Edf; discriminate).
    destruct (run_backtest_rows df ic tc thr pct rows Hne Hrun)
      as (vthr & sr & pv & _ & Lsr & Lpv & Hd & Hm & Hs & Hp & Hday).
    split; [rewrite <- (length_map Backtest.b_date), Hd, length_map; reflexivity |].
    split; [exact Hd |].
    split; [rewrite Hm; unfold fillna; rewrite map_map, map_map; reflexivity |].
    intros first Hfirst.
    destruct (Hday 0%nat) as [Hsr Hpv]; [rewrite Edf; simpl; lia |].
    assert (P0 : nth 0 (Strategy.positions thr vthr df) 0%Z = 0%Z).
    { rewrite (positions_nth thr vthr df 0 row0); [reflexivity | rewrite Edf; simpl; lia]. }
    rewrite P0 in Hsr. cbn [position_changed] in Hsr.
    assert (Z0 : nth 0 sr 0 == 0) by (rewrite Hsr; cbn; ring).
    split.
    + rewrite (nth_error_map_nth Backtest.strategy_returns rows _ 0 first 0 Hs Hfirst).
      rewrite (nth_indep _ 0 (round 0 6)) by (rewrite length_map, Lsr, Edf; simpl; lia).
      rewrite (map_nth (fun x => round x 6)).
      apply round_of_zero. exact Z0.
    + rewrite (nth_error_map_nth Backtest.portfolio_value rows _ 0 first 0 Hp Hfirst).
      rewrite (nth_indep _ 0 (round 0 2)) by (rewrite length_map, Lpv, Edf; simpl; lia).
      rewrite (map_nth (fun x => round x 2)).
      apply round_comp. rewrite Hpv, growth_through_flat; [ring |].
      intros u Hu. replace u with 0%nat by lia. exact Z0.
Qed.

Lemma backtest_rows_follow_the_series_witness :
  exists rows,
    Backtest.run_backtest series_gain 10000 (1 # 1000) (1 # 5) 50 = Ok rows
    /\ length rows = 3%nat
    /\ map Backtest.b_date rows = map date series_gain.
Proof.
  eexists. split; [vm_compute; reflexivity |].
  split; [reflexivity |].
  apply (backtest_rows_follow_the_series series_gain 10000 (1 # 1000) (1 # 5) 50).
  vm_compute. reflexivity.
Defined.

(** X12.  On a series whose average sentiment never leaves the band
    [[-sentiment_threshold, sentiment_threshold]] (or is missing) the
    backtest stays flat: every strategy return is 0 and every portfolio
    value is the initial capital rounded to 2 places, whatever the market
    does and whatever the transaction cost is. *)
Theorem quiet_series_backtest_keeps_capital :
  forall (df : FeatureSeries)
         (initial_capital transaction_cost sentiment_threshold volatility_percentile : Q)
         (rows : list Backtest.BacktestRow),
    Backtest.run_backtest df initial_capital transaction_cost sentiment_threshold
      volatility_percentile = Ok rows ->
    Forall (quiet sentiment_threshold) df ->
    Forall (fun row => Backtest.strategy_returns row == 0
                       /\ Backtest.portfolio_value row = round initial_capital 2) rows.
Proof.
  intros df ic tc thr pct rows Hrun Hq.
  destruct df as [| row0 df0] eqn:Edf.
  - apply run_backtest_empty in Hrun. subst rows. constructor.
  - rewrite <- Edf in *.
    assert (Hne : df <> []) by (rewrite Edf; discriminate).
    destruct (run_backtest_rows df ic tc thr pct rows Hne Hrun)
      as (vthr & sr & pv & _ & Lsr & Lpv & Hd & _ & Hs & Hp & Hday).
    assert (Lrows : length rows = length df)
      by (rewrite <- (length_map Backtest.b_date), Hd, length_map; reflexivity).
    assert (Hflat : forall t, (t < length df)%nat ->
                      nth t (Strategy.positions thr vthr df) 0%Z = 0%Z).
    { intros t Ht. rewrite (positions_nth thr vthr df t row0 Ht).
      destruct t as [| t']; [reflexivity |].
      apply quiet_signals. rewrite Forall_forall in Hq. apply Hq.
      apply nth_In. lia. }
    assert (Hzero : forall t, (t < length df)%nat -> nth t sr 0 == 0).
    { intros t Ht. destruct (Hday t Ht) as [-> _].
      rewrite (Hflat t Ht).
      assert (C : position_changed (Strategy.positions thr vthr df) t = false).
      { destruct t as [| t']; [reflexivity |]. cbn [position_changed].
        rewrite (Hflat (S t') Ht), (Hflat t') by lia. reflexivity. }
      rewrite C. cbn. ring. }
    apply Forall_forall. intros row Hin.
    apply In_nth_error in Hin. destruct Hin as [t Ht].
    assert (Hlt : (t < length df)%nat) by (rewrite <- Lrows; apply nth_error_Some; congruence).
    split.
    + rewrite (nth_error_map_nth Backtest.strategy_returns rows _ t row 0 Hs Ht).
      rewrite (nth_indep _ 0 (round 0 6)) by (rewrite length_map, Lsr; exact Hlt).
      rewrite (map_nth (fun x => round x 6)).
      apply round_of_zero. apply Hzero. exact Hlt.
    + rewrite (nth_error_map_nth Backtest.portfolio_value rows _ t row 0 Hp Ht).
      rewrite (nth_indep _ 0 (round 0 2)) by (rewrite length_map, Lpv; exact Hlt).
      rewrite (map_nth (fun x => round x 2)).
      apply round_comp. destruct (Hday t Hlt) as [_ ->].
      rewrite growth_through_flat; [ring |].
      intros u Hu. apply Hzero. lia.
Qed.

Lemma quiet_series_backtest_keeps_capital_witness :
  exists rows,
    Backtest.run_backtest series_calm 10000 (1 # 1000) 1 50 = Ok rows
    /\ Forall (fun row => Backtest.strategy_returns row == 0
                          /\ Backtest.portfolio_value row = round 10000 2) rows.
Proof.
  eexists. split; [vm_compute; reflexivity |].
  apply (quiet_series_backtest_keeps_capital series_calm 10000 (1 # 1000) 1 50).
  - vm_compute. reflexivity.
  - repeat constructor; cbn; lra.
Defined.

(** ** The optimizer's drawdown loop *)

Lemma drawdown_loop (l : list Q) (p m : Q) :
  let step := fun (st : Q * Q) value =>
                let peak := if Qgtb value (fst st) then value else fst st in
                let drawdown := if Qgtb peak 0 then (value - peak) / peak else 0 in
                (peak, if Qltb drawdown (snd st) then drawdown else snd st) in
  let dd := fun peak value => if Qgtb peak 0 then (value - peak) / peak else 0 in
  let r := fold_left step l (p, m) in
  snd r <= m
  /\ (forall i, (i < length l)%nat ->
        snd r <= dd (py_max p (firstn (S i) l)) (nth i l 0))
  /\ (snd r = m
      \/ exists i, (i < length l)%nat
                   /\ snd r = dd (py_max p (firstn (S i) l)) (nth i l 0)).
Proof.
  intros step dd. revert p m. induction l as [| v l IH]; intros p m r.
  - cbn. split; [apply Qle_refl |]. split; [intros i Hi; inversion Hi | left; reflexivity].
  - set (p' := if Qgtb v p then v else p).
    set (m' := if Qltb (dd p' v) m then dd p' v else m).
    assert (Hr : r = fold_left step l (p', m')) by reflexivity.
    destruct (IH p' m') as (Hle & Hall & Hex). rewrite <- Hr in Hle, Hall, Hex.
    assert (Hm' : m' <= m /\ m' <= dd p' v).
    { unfold m'. destruct (Qltb (dd p' v) m) eqn:E.
      - apply Qltb_lt in E. split; lra.
      - apply Qltb_ge in E. split; lra. }
    split; [lra |]. split.
    + intros [| i] Hi.
      * cbn [nth firstn]. change (py_max p [v]) with p'. lra.
      * cbn [nth]. change (py_max p (firstn (S (S i)) (v :: l)))
          with (py_max p' (firstn (S i) l)).
        apply Hall. cbn in Hi. lia.
    + destruct Hex as [E | (i & Hi & E)].
      * unfold m' in E. destruct (Qltb (dd p' v) m).
        -- right. exists 0%nat. split; [cbn; lia |]. exact E.
        -- left. exact E.
      * right. exists (S i). split; [cbn; lia |]. exact E.
Qed.

(** X13.  The optimizer's maximal drawdown is never positive, it is at most
    the drawdown of every day (the fraction by which the day's value lies
    under the highest value so far), and it is 0 or the drawdown of some
    day: it is the deepest drawdown of the series, or 0.  On values that
    are not negative it is at least -1. *)
Theorem max_drawdown_is_the_deepest_drawdown :
  forall values : list Q,
    let m := Optimizer._compute_max_drawdown values in
    m <= 0
    /\ (forall i, (i < length values)%nat -> m <= drawdown_at values i)
    /\ (m = 0 \/ exists i, (i < length values)%nat /\ m = drawdown_at values i)
    /\ (Forall (fun v => 0 <= v) values -> -1 <= m).
Proof.
  intros values m.
  assert (Core : m <= 0
                 /\ (forall i, (i < length values)%nat -> m <= drawdown_at values i)
                 /\ (m = 0 \/ exists i, (i < length values)%nat
                                        /\ m = drawdown_at values i)).
  { unfold m, Optimizer._compute_max_drawdown.
    destruct values as [| first rest]; [cbn; split; [lra |];
      split; [intros i Hi; inversion Hi | left; reflexivity] |].
    exact (drawdown_loop (first :: rest) first 0). }
  destruct Core as (Hle & Hall & Hex).
  split; [exact Hle |]. split; [exact Hall |]. split; [exact Hex |].
  intro Hpos. destruct Hex as [-> | (i & Hi & ->)]; [lra |].
  unfold drawdown_at. destruct (Qgtb (running_peak values i) 0) eqn:G; [| lra].
  apply Qgtb_gt in G.
  apply Qle_shift_div_l; [exact G |].
  assert (Hv : 0 <= nth i values 0).
  { rewrite Forall_forall in Hpos. apply Hpos. apply nth_In. exact Hi. }
  lra.
Qed.

Lemma max_drawdown_is_the_deepest_drawdown_witness :
  Optimizer._compute_max_drawdown [1; 2; 1; 3] <= 0
  /\ Optimizer._compute_max_drawdown [1; 2; 1; 3] == - (1 # 2)
  /\ -1 <= Optimizer._compute_max_drawdown [1; 2; 1; 3].
Proof.
  destruct (max_drawdown_is_the_deepest_drawdown [1; 2; 1; 3]) as (Hle & _ & _ & Hlow).
  split; [exact Hle |].
  split; [reflexivity |].
  apply Hlow. repeat constructor; discriminate.
Defined.

(** ** The parameter grid *)

Lemma Qceiling_half (k : nat) (x : Q) :
  x == inject_Z (Z.of_nat k) + (1 # 2) -> Z.to_nat (Qceiling x) = S k.
Proof.
  intro H.
  pose proof (Qle_ceiling x) as Hle.
  pose proof (Qceiling_lt x) as Hlt.
  assert (A : inject_Z (Z.of_nat k) < inject_Z (Qceiling x)) by lra.
  assert (B : inject_Z (Qceiling x - 1) < inject_Z (Z.of_nat k + 1)).
  { rewrite (inject_Z_plus (Z.of_nat k) 1). change (inject_Z 1) with 1. lra. }
  rewrite <- Zlt_Qlt in A, B. lia.
Qed.

Lemma np_arange_to_endpoint (start stop step : Q) (k : nat) :
  0 < step ->
  stop == start + inject_Z (Z.of_nat k) * step ->
  Optimizer.np_arange start (stop + step / 2) step
  = Ok (map (fun i => start + inject_Z (Z.of_nat i) * step) (seq 0 (S k))).
Proof.
  intros Hstep Hstop. unfold Optimizer.np_arange.
  rewrite fdiv_ok by lra. cbn [bind].
  rewrite (Qceiling_half k); [reflexivity |].
  rewrite Hstop. field. lra.
Qed.

Lemma np_arange_empty (start stop step : Q) :
  0 < step -> stop <= start -> Optimizer.np_arange start stop step = Ok [].
Proof.
  intros Hstep Hstop. unfold Optimizer.np_arange.
  rewrite fdiv_ok by lra. cbn [bind].
  assert (H : (Qceiling ((stop - start) / step) <= 0)%Z).
  { assert (Hq : (stop - start) / step <= 0).
    { apply Qle_shift_div_r; [exact Hstep | lra]. }
    pose proof (Qceiling_lt ((stop - start) / step)) as Hlt.
    assert (B : inject_Z (Qceiling ((stop - start) / step) - 1) < inject_Z 0).
    { change (inject_Z 0) with 0. lra. }
    rewrite <- Zlt_Qlt in B. lia. }
  replace (Z.to_nat (Qceiling ((stop - start) / step))) with 0%nat by lia.
  reflexivity.
Qed.

Lemma flat_map_map_in {A B C : Type} (g : A -> B) (f : B -> list C) (l : list A) :
  flat_map f (map g l) = flat_map (fun a => f (g a)) l.
Proof.
  induction l as [| a l IH]; [reflexivity |]. cbn. rewrite IH. reflexivity.
Qed.

Lemma flat_map_rows_length {A B : Type} (f : A -> list B) (l : list A) (n : nat) :
  (forall a, length (f a) = n) -> length (flat_map f l) = (length l * n)%nat.
Proof.
  intro H. induction l as [| a l IH]; [reflexivity |].
  cbn. rewrite length_app, H, IH. reflexivity.
Qed.

(** X14.  For positive steps and ranges whose stop lies a whole number of
    steps after the start, the grid has every value from the start to the
    stop, both included: the sentiment thresholds [start + i * step] rounded
    to 2 places, each paired in turn with the volatility percentiles
    [start + j * step] rounded to an integer.  An empty sentiment range
    (the stop at least half a step before the start) gives an empty grid. *)
Theorem grid_covers_both_endpoints :
  forall (s_start s_stop s_step v_start v_stop v_step : Q) (ks kv : nat),
    0 < s_step ->
    0 < v_step ->
    v_stop == v_start + inject_Z (Z.of_nat kv) * v_step ->
    (s_stop == s_start + inject_Z (Z.of_nat ks) * s_step ->
     exists cells,
       Optimizer.grid_parameters (s_start, s_stop, s_step) (v_start, v_stop, v_step)
       = Ok cells
       /\ cells
          = flat_map
              (fun i =>
                 map (fun j =>
                        (round (s_start + inject_Z (Z.of_nat i) * s_step) 2,
                         inject_Z (rint (v_start + inject_Z (Z.of_nat j) * v_step))))
                     (seq 0 (S kv)))
              (seq 0 (S ks))
       /\ length cells = (S ks * S kv)%nat)
    /\ (s_stop + s_step / 2 <= s_start ->
        Optimizer.grid_parameters (s_start, s_stop, s_step) (v_start, v_stop, v_step)
        = Ok []).
Proof.
  intros s0 s1 ss v0 v1 vs ks kv Hss Hvs Hv. split.
  - intro Hs. eexists. split; [| split].
    + unfold Optimizer.grid_parameters.
      rewrite (np_arange_to_endpoint s0 s1 ss ks Hss Hs).
      rewrite (np_arange_to_endpoint v0 v1 vs kv Hvs Hv).
      cbn [bind]. reflexivity.
    + rewrite !flat_map_map_in. apply flat_map_ext. intro i.
      rewrite !map_map. reflexivity.
    + rewrite (flat_map_rows_length _ _ (S kv)).
      * rewrite !length_map, length_seq. reflexivity.
      * intro a. rewrite !length_map, length_seq. reflexivity.
  - intro Hs. unfold Optimizer.grid_parameters.
    rewrite (np_arange_empty s0 (s1 + ss / 2) ss Hss Hs).
    rewrite (np_arange_to_endpoint v0 v1 vs kv Hvs Hv).
    reflexivity.
Qed.

Lemma grid_covers_both_endpoints_witness :
  exists cells,
    Optimizer.grid_parameters (- (1 # 2), 1 # 2, 1 # 10) (20, 80, 10) = Ok cells
    /\ length cells = 77%nat.
Proof.
  destruct (grid_covers_both_endpoints (- (1 # 2)) (1 # 2) (1 # 10) 20 80 10 10 6)
    as [H _]; try reflexivity.
  destruct H as (cells & Hc & _ & Hl); [reflexivity |].
  exists cells. split; [exact Hc | exact Hl].
Defined.

(** ** One cell of the grid *)

Lemma filter_count_by_index {A : Type} (f : A -> bool) (d : A) (l : list A) :
  length (filter f l) = length (filter (fun i => f (nth i l d)) (seq 0 (length l))).
Proof.
  induction l as [| a l IH]; [reflexivity |].
  cbn [length seq filter].
  change (nth 0 (a :: l) d) with a.
  rewrite <- seq_shift.
  assert (E : length (filter (fun i => f (nth i (a :: l) d)) (map S (seq 0 (length l))))
              = length (filter (fun i => f (nth i l d)) (seq 0 (length l)))).
  { generalize (seq 0 (length l)). intro s. induction s as [| i s IHs]; [reflexivity |].
    cbn [map filter]. change (nth (S i) (a :: l) d) with (nth i l d).
    destruct (f (nth i l d)); cbn [length]; rewrite IHs; reflexivity. }
  destruct (f a); cbn [length]; rewrite E, IH; reflexivity.
Qed.

Lemma max_drawdown_nonpos (values : list Q) : Optimizer._compute_max_drawdown values <= 0.
Proof.
  unfold Optimizer._compute_max_drawdown.
  destruct values as [| first rest]; [lra |].
  exact (proj1 (drawdown_loop (first :: rest) first 0)).
Qed.

(** X15.  A cell of the grid echoes the two parameters it was computed
    for.  Its number of trades is the number of days on which the position
    differs from the one of the day before, which is at most the number of
    days less one, the first day being always flat; and its maximal drawdown
    is never positive. *)
Theorem cell_counts_position_changes :
  forall (np_sqrt : Q -> Q) (np_power : Q -> Q -> option Q) (df : FeatureSeries)
         (sentiment_threshold volatility_percentile transaction_cost : Q)
         (cell : Optimizer.GridCell),
    Optimizer._run_strategy_backtest np_sqrt np_power df sentiment_threshold
      volatility_percentile transaction_cost = Ok cell ->
    df <> [] ->
    exists vthr,
      volatility_threshold_of df volatility_percentile = Ok vthr
      /\ Optimizer.sentiment_threshold cell = sentiment_threshold
      /\ Optimizer.volatility_percentile cell = volatility_percentile
      /\ Optimizer.num_trades cell
         = length (filter (position_changed
                             (Strategy.positions sentiment_threshold vthr df))
                     (seq 0 (length df)))
      /\ (Optimizer.num_trades cell <= length df - 1)%nat
      /\ Optimizer.max_drawdown_pct cell <= 0.
Proof.
  intros np_sqrt np_power df thr pct tc cell Hrun Hne.
  unfold Optimizer._run_strategy_backtest in Hrun.
  destruct (volatility_threshold_of df pct) as [vthr | e]; cbn [bind] in Hrun;
    [| discriminate].
  match type of Hrun with
  | bind ?m _ = _ => destruct m as [sharpe | e]
  end; cbn [bind] in Hrun; [| discriminate].
  assert (Hn : Optimizer.num_trades cell
               = length (filter (fun c => (c >? 0)%Z)
                           (Optimizer.position_changes_of
                              (Optimizer.shifted_positions thr vthr df))))
    by (injection Hrun as <-; reflexivity).
  assert (Hd : Optimizer.max_drawdown_pct cell
               = round (Optimizer._compute_max_drawdown
                          (cumprod (map (Qplus 1)
                                      (Optimizer.net_strategy_returns
                                         (Optimizer.shifted_positions thr vthr df)
                                         (fillna 0 (map returns df)) tc))) * 100) 2)
    by (injection Hrun as <-; reflexivity).
  assert (Hp : Optimizer.sentiment_threshold cell = thr
               /\ Optimizer.volatility_percentile cell = pct)
    by (injection Hrun as <-; split; reflexivity).
  clear Hrun. rewrite Hn, Hd.
  exists vthr. split; [reflexivity |]. split; [exact (proj1 Hp) |].
  split; [exact (proj2 Hp) |].
  rewrite (shifted_positions_eq thr vthr df Hne).
  set (pos := Strategy.positions thr vthr df).
  assert (Hcount : length (filter (fun c => (c >? 0)%Z) (Optimizer.position_changes_of pos))
                   = length (filter (position_changed pos) (seq 0 (length df)))).
  { rewrite (filter_count_by_index _ 0%Z), changes_from_zero_length.
    unfold pos at 2. rewrite positions_length. fold pos.
    f_equal. apply filter_ext_in. intros t Ht. apply in_seq in Ht.
    apply (optimizer_cost_charged_iff_changed thr vthr df t). lia. }
  split; [exact Hcount |]. split.
  - rewrite Hcount. destruct df as [| row df0]; [congruence |].
    cbn [length seq filter position_changed].
    pose proof (filter_length_le (position_changed pos) (seq 1 (length df0))) as Hle.
    rewrite length_seq in Hle. lia.
  - apply round_nonpos.
    match goal with
    | |- Optimizer._compute_max_drawdown ?v * 100 <= 0 =>
        pose proof (max_drawdown_nonpos v) as Hm
    end.
    lra.
Qed.

Lemma cell_counts_position_changes_witness :
  exists cell,
    Optimizer._run_strategy_backtest sqrt_6dp power_nat series_gain (1 # 5) 50 (1 # 1000)
    = Ok cell
    /\ Optimizer.num_trades cell = 1%nat
    /\ Optimizer.max_drawdown_pct cell <= 0.
Proof.
  eexists. split; [vm_compute; reflexivity |].
  split; [reflexivity |].
  destruct (cell_counts_position_changes sqrt_6dp power_nat series_gain (1 # 5) 50
              (1 # 1000) _ ltac:(vm_compute; reflexivity) ltac:(discriminate))
    as (vthr & _ & _ & _ & _ & _ & H).
  exact H.
Defined.

(** ** The ranking *)

Lemma ranked_split (l : list Optimizer.GridCell) (k : nat) :
  ranked l ->
  forall a b, In a (firstn k l) -> In b (skipn k l) ->
    sharpe_ge (Optimizer.sharpe_ratio a) (Optimizer.sharpe_ratio b) = true.
Proof.
  intro H. revert k. induction H as [| c l Hl IH Hc]; intros k a b Ha Hb.
  - rewrite firstn_nil in Ha. destruct Ha.
  - destruct k as [| k]; [destruct Ha |].
    cbn [firstn skipn] in Ha, Hb. destruct Ha as [<- | Ha].
    + rewrite Forall_forall in Hc. apply Hc.
      rewrite <- (firstn_skipn k l). apply in_or_app. right. exact Hb.
    + exact (IH k a b Ha Hb).
Qed.

(** X16.  Whatever sort of the rows by descending Sharpe ratio is used, the
    top 10 of the optimizer are the first 10 rows of the full ranking, at
    most 10 and all of them when the grid has fewer; they are cells of the
    grid, the best cell is the first of them, and no cell outside the top 10
    has a higher Sharpe ratio than a cell inside. *)
Theorem top_10_are_the_ten_best :
  forall (np_sqrt : Q -> Q) (np_power : Q -> Q -> option Q)
         (sort_values : list Optimizer.GridCell -> list Optimizer.GridCell)
         (df : FeatureSeries) (sentiment_range volatility_range : Q * Q * Q)
         (transaction_cost : Q) (grid : list Optimizer.GridCell) (o : Optimizer.Optimum),
    Optimizer.grid_search np_sqrt np_power df sentiment_range volatility_range
      transaction_cost = Ok grid ->
    sorts_grid sort_values grid ->
    Optimizer.optimize_strategy np_sqrt np_power sort_values df sentiment_range
      volatility_range transaction_cost = Ok (Some o) ->
    Optimizer.top_10 o = firstn 10 (Optimizer.full_results o)
    /\ length (Optimizer.top_10 o) = Nat.min 10 (Optimizer.total_combinations o)
    /\ (forall c, In c (Optimizer.top_10 o) -> In c grid)
    /\ (exists best, hd_error (Optimizer.top_10 o) = Some best
                     /\ Optimizer.best_sharpe o = Optimizer.sharpe_ratio best
                     /\ Optimizer.best_total_return_pct o = Optimizer.total_return_pct best
                     /\ Optimizer.best_max_drawdown_pct o
                        = Optimizer.max_drawdown_pct best)
    /\ (forall a b,
          In a (Optimizer.top_10 o) ->
          In b (skipn 10 (Optimizer.full_results o)) ->
          sharpe_ge (Optimizer.sharpe_ratio a) (Optimizer.sharpe_ratio b) = true).
Proof.
  intros np_sqrt np_power sort_values df sr vr tc grid o Hgrid [Hperm Hranked] Hopt.
  unfold Optimizer.optimize_strategy in Hopt.
  destruct df as [| row df]; [discriminate |].
  rewrite Hgrid in Hopt. cbn [bind] in Hopt.
  destruct grid as [| c0 grid0] eqn:Eg; [discriminate |]. rewrite <- Eg in *.
  destruct (sort_values grid) as [| best rest] eqn:Es; [discriminate |].
  remember (best :: rest) as sorted eqn:Esorted.
  assert (Htop : Optimizer.top_10 o = firstn 10 sorted)
    by (injection Hopt as <-; reflexivity).
  assert (Hfull : Optimizer.full_results o = sorted)
    by (injection Hopt as <-; reflexivity).
  assert (Htotal : Optimizer.total_combinations o = length grid)
    by (injection Hopt as <-; reflexivity).
  assert (Hbest : Optimizer.best_sharpe o = Optimizer.sharpe_ratio best
                  /\ Optimizer.best_total_return_pct o = Optimizer.total_return_pct best
                  /\ Optimizer.best_max_drawdown_pct o = Optimizer.max_drawdown_pct best)
    by (injection Hopt as <-; repeat split).
  clear Hopt. rewrite Htop, Hfull, Htotal.
  split; [reflexivity |].
  split.
  { rewrite length_firstn. rewrite (Permutation_length Hperm). reflexivity. }
  split.
  { intros c Hc. apply (Permutation_in c Hperm).
    rewrite <- (firstn_skipn 10 sorted). apply in_or_app. left. exact Hc. }
  split.
  { exists best. rewrite Esorted. split; [reflexivity | exact Hbest]. }
  intros a b Ha Hb. exact (ranked_split sorted 10 Hranked a b Ha Hb).
Qed.

Lemma top_10_are_the_ten_best_witness :
  exists o,
    Optimizer.optimize_strategy sqrt_6dp power_nat stable_sort_values series_gain
      (fst example_ranges) (snd example_ranges) (1 # 1000) = Ok (Some o)
    /\ Optimizer.top_10 o = firstn 10 (Optimizer.full_results o)
    /\ length (Optimizer.top_10 o) = Nat.min 10 (Optimizer.total_combinations o).
Proof.
  assert (Hrun : exists o,
             Optimizer.optimize_strategy sqrt_6dp power_nat stable_sort_values series_gain
               (fst example_ranges) (snd example_ranges) (1 # 1000) = Ok (Some o))
    by (eexists; vm_compute; reflexivity).
  destruct Hrun as [o Ho].
  destruct (top_10_are_the_ten_best sqrt_6dp power_nat stable_sort_values series_gain
              (fst example_ranges) (snd example_ranges) (1 # 1000) example_grid o
              example_grid_searched (stable_sort_values_sorts example_grid) Ho)
    as (Htop & Hlen & _).
  exists o. split; [exact Ho |]. split; [exact Htop | exact Hlen].
Defined.

(** X17.  On a non-empty series, a sentiment range that holds no value (a
    positive step, and a stop that lies at least half a step before the
    start) leaves the grid empty, and the optimizer then fails with the
    [KeyError] of sorting a frame that has no [sharpe_ratio] column, whatever
    the sort is. *)
Theorem empty_grid_raises_key_error :
  forall (np_sqrt : Q -> Q) (np_power : Q -> Q -> option Q)
         (sort_values : list Optimizer.GridCell -> list Optimizer.GridCell)
         (df : FeatureSeries) (s_start s_stop s_step v_start v_stop v_step : Q)
         (transaction_cost : Q),
    df <> [] ->
    0 < s_step ->
    s_stop + s_step / 2 <= s_start ->
    ~ v_step == 0 ->
    Optimizer.grid_search np_sqrt np_power df (s_start, s_stop, s_step)
      (v_start, v_stop, v_step) transaction_cost = Ok []
    /\ Optimizer.optimize_strategy np_sqrt np_power sort_values df
         (s_start, s_stop, s_step) (v_start, v_stop, v_step) transaction_cost
       = Raise KeyError.
Proof.
  intros np_sqrt np_power sort_values df s0 s1 ss v0 v1 vs tc Hne Hss Hs Hvs.
  assert (Hgrid : Optimizer.grid_search np_sqrt np_power df (s0, s1, ss) (v0, v1, vs) tc
                  = Ok []).
  { unfold Optimizer.grid_search, Optimizer.grid_parameters.
    rewrite (np_arange_empty s0 (s1 + ss / 2) ss Hss Hs).
    unfold Optimizer.np_arange at 1. rewrite fdiv_ok by exact Hvs.
    reflexivity. }
  split; [exact Hgrid |].
  unfold Optimizer.optimize_strategy.
  destruct df as [| row df]; [congruence |].
  rewrite Hgrid. reflexivity.
Qed.

Lemma empty_grid_raises_key_error_witness :
  Optimizer.optimize_strategy sqrt_6dp power_nat stable_sort_values series_gain
    (1 # 2, 0, 1 # 10) (20, 80, 10) (1 # 1000) = Raise KeyError.
Proof.
  apply (empty_grid_raises_key_error sqrt_6dp power_nat stable_sort_values series_gain
           (1 # 2) 0 (1 # 10) 20 80 10 (1 # 1000)).
  - discriminate.
  - reflexivity.
  - discriminate.
  - discriminate.
Defined.

(** ** metrics.py *)

Lemma run_backtest_length (df : FeatureSeries) (ic tc thr pct : Q)
    (rows : list Backtest.BacktestRow) :
  Backtest.run_backtest df ic tc thr pct = Ok rows -> length rows = length df.
Proof.
  intro Hrun. destruct df as [| row0 df0] eqn:Edf.
  - apply run_backtest_empty in Hrun. subst rows. reflexivity.
  - rewrite <- Edf in *.
    assert (Hne : df <> []) by (rewrite Edf; discriminate).
    destruct (run_backtest_rows df ic tc thr pct rows Hne Hrun)
      as (_ & _ & _ & _ & _ & _ & Hd & _).
    rewrite <- (length_map Backtest.b_date), Hd, length_map. reflexivity.
Qed.

(** X18.  The metrics are the empty dictionary exactly when the series is
    empty.  Otherwise the trading days are the number of days of the series,
    and the maximal drawdown is never positive, the first day being its own
    peak. *)
Theorem metrics_count_days_and_drawdown :
  forall (np_sqrt : Q -> Q) (np_power : Q -> Q -> option Q) (df : FeatureSeries)
         (risk_free_rate : Q) (trading_days : Z)
         (initial_capital transaction_cost sentiment_threshold volatility_percentile : Q)
         (res : option Metrics.MetricsDict),
    Metrics.calculate_performance_metrics np_sqrt np_power df risk_free_rate trading_days
      initial_capital transaction_cost sentiment_threshold volatility_percentile = Ok res ->
    (res = None <-> df = [])
    /\ forall m, res = Some m ->
         Metrics.trading_days_out m = length df
         /\ Metrics.max_drawdown m <= 0.
Proof.
  intros np_sqrt np_power df rf td ic tc thr pct res H.
  unfold Metrics.calculate_performance_metrics in H.
  destruct (Backtest.run_backtest df ic tc thr pct) as [rows | e] eqn:Hrun;
    cbn [bind] in H; [| discriminate].
  pose proof (run_backtest_length df ic tc thr pct rows Hrun) as Hlen.
  destruct rows as [| first rest].
  - injection H as <-. split.
    + split; [intros _ | reflexivity]. destruct df; [reflexivity | discriminate Hlen].
    + intros m Hm. discriminate Hm.
  - repeat match type of H with
           | bind ?m _ = _ =>
               let E := fresh "E" in
               destruct m eqn:E; cbn [bind] in H; [| discriminate]
           end.
    injection H as <-. split.
    + split; [discriminate | intro Hdf; rewrite Hdf in Hlen; discriminate Hlen].
    + intros m Hm. injection Hm as <-.
      cbn [Metrics.trading_days_out Metrics.max_drawdown].
      split; [rewrite length_map; exact Hlen |].
      apply round_nonpos.
      match goal with
      | Hd : mapM _ _ = Ok ?dd |- _ => rename Hd into Hdraw; rename dd into drawdown
      end.
      cbn [map Metrics.cummax combine mapM] in Hdraw.
      match type of Hdraw with
      | bind (fdiv ?x ?y) _ = _ => destruct (fdiv x y) as [d | e0] eqn:D
      end; cbn [bind] in Hdraw; [| discriminate].
      match type of Hdraw with
      | bind ?mm _ = _ => destruct mm as [ds | e0]
      end; cbn [bind] in Hdraw; [| discriminate].
      injection Hdraw as <-.
      apply fdiv_inv in D. destruct D as [Hnz Hd].
      cbn [fst snd] in Hd, Hnz.
      assert (Hd0 : d == 0) by (rewrite Hd; unfold Qdiv; ring).
      pose proof (py_min_le d ds d (or_introl eq_refl)) as Hmin.
      lra.
Qed.

Lemma metrics_count_days_and_drawdown_witness :
  exists m,
    Metrics.calculate_performance_metrics sqrt_6dp power_nat series_loss 0 3
      10000 (1 # 1000) (1 # 5) 50 = Ok (Some m)
    /\ Metrics.trading_days_out m = 3%nat
    /\ Metrics.max_drawdown m <= 0.
Proof.
  assert (Hrun : exists m,
             Metrics.calculate_performance_metrics sqrt_6dp power_nat series_loss 0 3
               10000 (1 # 1000) (1 # 5) 50 = Ok (Some m))
    by (eexists; vm_compute; reflexivity).
  destruct Hrun as [m Hm].
  destruct (metrics_count_days_and_drawdown sqrt_6dp power_nat series_loss 0 3
              10000 (1 # 1000) (1 # 5) 50 (Some m) Hm) as [_ H].
  destruct (H m eq_refl) as [Hdays Hdd].
  exists m. split; [exact Hm |]. split; [exact Hdays | exact Hdd].
Defined.

(** ** The percentile argument *)

Lemma np_percentile_out_of_range (a : list Q) (q : Q) :
  q < 0 \/ 100 < q -> np_percentile a q = Raise ValueError.
Proof.
  intro H. unfold np_percentile.
  assert (E : Qltb q 0 || Qltb 100 q = true).
  { apply orb_true_iff. destruct H as [H | H]; [left | right]; apply Qltb_lt; exact H. }
  rewrite E. reflexivity.
Qed.

(** X19.  On a non-empty series, a volatility percentile outside [0, 100]
    makes the strategy, the backtest, the metrics, the live simulation and
    the optimizer's cell all fail with the [ValueError] of
    [numpy.percentile], whatever the other arguments are. *)
Theorem percentile_out_of_range_raises :
  forall (np_sqrt : Q -> Q) (np_power : Q -> Q -> option Q) (df : FeatureSeries)
         (risk_free_rate : Q) (trading_days : Z)
         (initial_capital transaction_cost sentiment_threshold volatility_percentile : Q),
    df <> [] ->
    volatility_percentile < 0 \/ 100 < volatility_percentile ->
    Strategy.generate_sentiment_strategy df sentiment_threshold volatility_percentile
    = Raise ValueError
    /\ Backtest.run_backtest df initial_capital transaction_cost sentiment_threshold
         volatility_percentile = Raise ValueError
    /\ Metrics.calculate_performance_metrics np_sqrt np_power df risk_free_rate
         trading_days initial_capital transaction_cost sentiment_threshold
         volatility_percentile = Raise ValueError
    /\ LiveSimulator.run_live_simulation df initial_capital transaction_cost
         sentiment_threshold volatility_percentile = Raise ValueError
    /\ Optimizer._run_strategy_backtest np_sqrt np_power df sentiment_threshold
         volatility_percentile transaction_cost = Raise ValueError.
Proof.
  intros np_sqrt np_power df rf td ic tc thr pct Hne Hq.
  assert (Hv : volatility_threshold_of df pct = Raise ValueError)
    by (apply np_percentile_out_of_range; exact Hq).
  assert (Hs : Strategy.generate_sentiment_strategy df thr pct = Raise ValueError).
  { unfold Strategy.generate_sentiment_strategy.
    destruct df; [congruence |]. rewrite Hv. reflexivity. }
  assert (Hb : Backtest.run_backtest df ic tc thr pct = Raise ValueError).
  { unfold Backtest.run_backtest. rewrite Hs. reflexivity. }
  split; [exact Hs |]. split; [exact Hb |]. split; [| split].
  - unfold Metrics.calculate_performance_metrics. rewrite Hb. reflexivity.
  - unfold LiveSimulator.run_live_simulation.
    destruct df; [congruence |]. rewrite Hv. reflexivity.
  - unfold Optimizer._run_strategy_backtest. rewrite Hv. reflexivity.
Qed.

Lemma percentile_out_of_range_raises_witness :
  Backtest.run_backtest series_gain 10000 (1 # 1000) (1 # 5) 150 = Raise ValueError
  /\ LiveSimulator.run_live_simulation series_gain 10000 (1 # 1000) (1 # 5) 150
     = Raise ValueError.
Proof.
  destruct (percentile_out_of_range_raises sqrt_6dp power_nat series_gain 0 252
              10000 (1 # 1000) (1 # 5) 150) as (_ & Hb & _ & Hl & _).
  - discriminate.
  - right. reflexivity.
  - split; [exact Hb | exact Hl].
Defined.

(** ** The feature frame *)

Lemma combine_seq_nth_error {A : Type} (l : list A) (a t : nat) :
  nth_error (combine (seq a (length l)) l) t
  = option_map (fun x => ((a + t)%nat, x)) (nth_error l t).
Proof.
  revert a t. induction l as [| x l IH]; intros a t.
  - destruct t; reflexivity.
  - destruct t as [| t]; cbn [length seq combine nth_error option_map].
    + rewrite Nat.add_0_r. reflexivity.
    + rewrite IH. replace (S a + t)%nat with (a + S t)%nat by lia. reflexivity.
Qed.

Lemma rolling_features_nth (np_sqrt : Q -> Q)
    (df : list (Features.PriceRow * Features.SentimentRow)) (t : nat) :
  nth_error (Features.rolling_features np_sqrt df) t
  = option_map
      (fun r =>
         mkFeatureRow (Features.p_date (fst r)) (Features.p_close (fst r))
           (Features.p_returns (fst r)) (Features.sn_sentiment (snd r))
           (Some (round (Features.mean
                           (Features.rolling 5
                              (map (fun r => Features.sn_sentiment (snd r)) df) t)) 4))
           (nan_map (fun x => round x 6)
              (np_std_ddof1 np_sqrt
                 (dropna (Features.rolling 5
                            (map (fun r => Features.p_returns (fst r)) df) t)))))
      (nth_error df t).
Proof.
  unfold Features.rolling_features.
  rewrite nth_error_map, combine_seq_nth_error.
  destruct (nth_error df t); reflexivity.
Qed.

Lemma rolling_length {A : Type} (col : list A) (t : nat) :
  (t < length col)%nat -> (1 <= length (Features.rolling 5 col t) <= 5)%nat.
Proof.
  intros Ht. unfold Features.rolling.
  rewrite length_skipn, length_firstn. lia.
Qed.

Lemma rolling_incl {A : Type} (w : nat) (col : list A) (t : nat) (x : A) :
  In x (Features.rolling w col t) -> In x col.
Proof.
  unfold Features.rolling. intro H.
  assert (H1 : In x (firstn (S t) col)).
  { rewrite <- (firstn_skipn (S t - w) (firstn (S t) col)). apply in_or_app. right. exact H. }
  rewrite <- (firstn_skipn (S t) col). apply in_or_app. left. exact H1.
Qed.

Lemma rolling_of_prefix {A : Type} (w : nat) (col : list A) (t k : nat) :
  (t < k)%nat -> Features.rolling w (firstn k col) t = Features.rolling w col t.
Proof.
  intro H. unfold Features.rolling. rewrite firstn_firstn.
  replace (Nat.min (S t) k) with (S t) by lia. reflexivity.
Qed.

Lemma inject_nat_succ (n : nat) :
  inject_Z (Z.of_nat (S n)) == inject_Z (Z.of_nat n) + 1.
Proof.
  rewrite Nat2Z.inj_succ. unfold Z.succ. rewrite inject_Z_plus. reflexivity.
Qed.

Lemma fold_sum_bounds (l : list Q) (a lo hi : Q) :
  Forall (fun x => lo <= x /\ x <= hi) l ->
  a + inject_Z (Z.of_nat (length l)) * lo <= fold_left Qplus l a
  /\ fold_left Qplus l a <= a + inject_Z (Z.of_nat (length l)) * hi.
Proof.
  intro H. revert a. induction H as [| x l [Hlo Hhi] Hl IH]; intro a.
  - cbn [fold_left length]. change (inject_Z (Z.of_nat 0)) with 0. split; lra.
  - cbn [fold_left length]. destruct (IH (a + x)) as [L U].
    rewrite inject_nat_succ. split; lra.
Qed.

Lemma mean_bounds (l : list Q) (lo hi : Q) :
  l <> [] -> Forall (fun x => lo <= x /\ x <= hi) l ->
  lo <= Features.mean l /\ Features.mean l <= hi.
Proof.
  intros Hne H. unfold Features.mean, sum.
  destruct (fold_sum_bounds l 0 lo hi H) as [L U].
  assert (Hn : 0 < inject_Z (Z.of_nat (length l))).
  { change 0 with (inject_Z 0). rewrite <- Zlt_Qlt.
    destruct l; [congruence | cbn [length]; lia]. }
  split.
  - apply Qle_shift_div_l; [exact Hn | lra].
  - apply Qle_shift_div_r; [exact Hn | lra].
Qed.

Lemma merge_on_date_in (price : list Features.PriceRow) (sent : list Features.SentimentRow)
    (p : Features.PriceRow) (s : Features.SentimentRow) :
  In (p, s) (Features.merge_on_date price sent)
  <-> In p price /\ In s sent /\ Features.sn_date s = Features.p_date p.
Proof.
  unfold Features.merge_on_date. rewrite in_flat_map. split.
  - intros (p' & Hp & H). apply in_map_iff in H. destruct H as (s' & E & Hs).
    injection E as -> ->. apply filter_In in Hs. destruct Hs as [Hs Hd].
    apply String.eqb_eq in Hd. auto.
  - intros (Hp & Hs & Hd). exists p. split; [exact Hp |].
    apply in_map. apply filter_In. split; [exact Hs |].
    apply String.eqb_eq. exact Hd.
Qed.

Lemma merge_price_and_sentiment_rolling (np_sqrt : Q -> Q)
    (price : list Features.PriceRow) (sent : list Features.SentimentRow) :
  Features.merge_price_and_sentiment np_sqrt price sent
  = Features.rolling_features np_sqrt (Features.merge_on_date price sent).
Proof.
  unfold Features.merge_price_and_sentiment.
  destruct price as [| p price]; [reflexivity |].
  destruct sent as [| s sent]; [| reflexivity].
  unfold Features.merge_on_date. cbn [filter map].
  induction (p :: price) as [| q l IH]; [reflexivity |].
  cbn [flat_map app]. exact IH.
Qed.

Lemma first_window_has_no_deviation (np_sqrt : Q -> Q) (col : list (option Q)) :
  np_std_ddof1 np_sqrt (dropna (Features.rolling 5 col 0)) = None.
Proof.
  unfold Features.rolling. cbn [Nat.sub skipn].
  destruct col as [| [x |] col]; reflexivity.
Qed.

(** X20.  The feature frame has one row for every pair of a price record
    and a sentiment row of the same date, in the order of the price
    records, and copies the date, the close, the return and the sentiment.
    The 5-day sentiment average of every row is defined and lies between
    the rounded bounds of the sentiment column: within [-1, 1] with the
    sentiment.  The 5-day volatility of the first row is always [NaN]. *)
Theorem feature_rows_and_rolling_bounds :
  forall (np_sqrt : Q -> Q) (price_data : list Features.PriceRow)
         (sentiment_df : list Features.SentimentRow) (lo hi : Q),
    Forall (fun s => lo <= Features.sn_sentiment s /\ Features.sn_sentiment s <= hi)
      sentiment_df ->
    let df := Features.merge_price_and_sentiment np_sqrt price_data sentiment_df in
    let merged := Features.merge_on_date price_data sentiment_df in
    map (fun row => (date row, close row, returns row, sentiment row)) df
    = map (fun r => (Features.p_date (fst r), Features.p_close (fst r),
                     Features.p_returns (fst r), Features.sn_sentiment (snd r))) merged
    /\ (forall p s, In (p, s) merged <->
          In p price_data /\ In s sentiment_df
          /\ Features.sn_date s = Features.p_date p)
    /\ Forall (fun row => exists a, sentiment_avg_5d row = Some a
                                    /\ round lo 4 <= a /\ a <= round hi 4) df
    /\ (forall first, nth_error df 0 = Some first -> volatility_5d first = None).
Proof.
  intros np_sqrt price sent lo hi Hb df merged.
  unfold df. rewrite merge_price_and_sentiment_rolling. fold merged.
  split; [| split; [| split]].
  - apply nth_error_ext. intro t.
    rewrite !nth_error_map, rolling_features_nth.
    destruct (nth_error merged t); reflexivity.
  - intros p s. apply merge_on_date_in.
  - apply Forall_forall. intros row Hin.
    apply In_nth_error in Hin. destruct Hin as [t Ht].
    rewrite rolling_features_nth in Ht.
    destruct (nth_error merged t) as [r |] eqn:Er; [| discriminate Ht].
    injection Ht as <-. cbn [sentiment_avg_5d].
    eexists. split; [reflexivity |].
    set (col := map (fun r => Features.sn_sentiment (snd r)) merged).
    assert (Hlt : (t < length col)%nat).
    { unfold col. rewrite length_map. apply nth_error_Some. congruence. }
    assert (Hcol : Forall (fun x => lo <= x /\ x <= hi) (Features.rolling 5 col t)).
    { apply Forall_forall. intros x Hx. apply rolling_incl in Hx.
      unfold col in Hx. apply in_map_iff in Hx. destruct Hx as ([p s] & <- & Hps).
      apply merge_on_date_in in Hps. destruct Hps as (_ & Hs & _).
      rewrite Forall_forall in Hb. exact (Hb s Hs). }
    assert (Hne : Features.rolling 5 col t <> []).
    { pose proof (rolling_length col t Hlt) as L.
      destruct (Features.rolling 5 col t); [cbn in L; lia | discriminate]. }
    destruct (mean_bounds _ lo hi Hne Hcol) as [L U].
    split; apply round_mono; assumption.
  - intros first Hfirst. rewrite rolling_features_nth in Hfirst.
    destruct (nth_error merged 0) as [r |]; [| discriminate Hfirst].
    injection Hfirst as <-. cbn [volatility_5d].
    rewrite first_window_has_no_deviation. reflexivity.
Qed.

Lemma feature_rows_and_rolling_bounds_witness :
  let price := [ Features.mkPriceRow "2024-01-02" 100 None;
                 Features.mkPriceRow "2024-01-03" 101 (Some (1 # 100));
                 Features.mkPriceRow "2024-01-04" 99 (Some (- (2 # 100))) ] in
  let sent := [ Features.mkSentimentRow "2024-01-02" (1 # 2);
                Features.mkSentimentRow "2024-01-03" (- (1 # 4));
                Features.mkSentimentRow "2024-01-04" 1 ] in
  Forall (fun row => exists a, sentiment_avg_5d row = Some a
                               /\ round (-1) 4 <= a /\ a <= round 1 4)
    (Features.merge_price_and_sentiment sqrt_6dp price sent)
  /\ length (Features.merge_price_and_sentiment sqrt_6dp price sent) = 3%nat.
Proof.
  intros price sent.
  split; [| reflexivity].
  apply (feature_rows_and_rolling_bounds sqrt_6dp price sent (-1) 1).
  repeat constructor; discriminate.
Defined.

(** X21.  The rolling features do not look ahead: the features of the
    first [k] rows are the same whether the later rows are there or not. *)
Theorem rolling_features_do_not_look_ahead :
  forall (np_sqrt : Q -> Q) (df : list (Features.PriceRow * Features.SentimentRow))
         (k : nat),
    firstn k (Features.rolling_features np_sqrt df)
    = Features.rolling_features np_sqrt (firstn k df).
Proof.
  intros np_sqrt df k. apply nth_error_ext. intro t.
  rewrite rolling_features_nth.
  destruct (Nat.lt_ge_cases t k) as [Hlt | Hge].
  - rewrite nth_error_firstn.
    destruct (Nat.ltb_spec t k) as [_ | H]; [| lia].
    rewrite rolling_features_nth. rewrite nth_error_firstn.
    destruct (Nat.ltb_spec t k) as [_ | H]; [| lia].
    rewrite <- !firstn_map, !rolling_of_prefix by exact Hlt. reflexivity.
  - rewrite !nth_error_firstn.
    destruct (Nat.ltb_spec t k) as [H | _]; [lia | reflexivity].
Qed.

(** X22.  On the feature frame the simulator can never trade on the first
    day: the volatility of the first row is [NaN], so the first signal is
    Flat, the first step holds no position and carries no trade. *)
Theorem first_day_of_a_feature_frame_is_flat :
  forall (np_sqrt : Q -> Q) (price_data : list Features.PriceRow)
         (sentiment_df : list Features.SentimentRow)
         (initial_capital transaction_cost sentiment_threshold volatility_percentile : Q)
         (r : LiveSimulator.LiveResult),
    LiveSimulator.run_live_simulation
      (Features.merge_price_and_sentiment np_sqrt price_data sentiment_df)
      initial_capital transaction_cost sentiment_threshold volatility_percentile
    = Ok (Some r) ->
    exists s0,
      nth_error (LiveSimulator.r_simulation_states r) 0 = Some s0
      /\ LiveSimulator.signal s0 = 0%Z
      /\ LiveSimulator.pos_current s0 = 0%Z
      /\ LiveSimulator.trade s0 = None
      /\ LiveSimulator.pf_total_value s0 = round initial_capital 2.
Proof.
  intros np_sqrt price sent ic tc thr pct r Hrun.
  destruct (run_live_simulation_inv _ ic tc thr pct r Hrun)
    as (vthr & vf & _ & Hsim & Hs & _).
  rewrite merge_price_and_sentiment_rolling in Hsim.
  destruct (Features.rolling_features np_sqrt (Features.merge_on_date price sent))
    as [| row rest] eqn:Edf.
  { unfold LiveSimulator.run_live_simulation in Hrun.
    rewrite merge_price_and_sentiment_rolling, Edf in Hrun. discriminate Hrun. }
  assert (Hvol : volatility_5d row = None).
  { assert (H0 : nth_error (Features.rolling_features np_sqrt
                              (Features.merge_on_date price sent)) 0 = Some row)
      by (rewrite Edf; reflexivity).
    rewrite rolling_features_nth in H0.
    destruct (nth_error (Features.merge_on_date price sent) 0); [| discriminate H0].
    injection H0 as <-. cbn [volatility_5d].
    rewrite first_window_has_no_deviation. reflexivity. }
  cbn [LiveSimulator.simulate_days] in Hsim.
  destruct (LiveSimulator.simulate_day ic tc thr vthr (LiveSimulator.initial_vars ic) row)
    as [v1 | e] eqn:Hday; cbn [bind] in Hsim; [| discriminate].
  assert (Hsig : LiveSimulator._generate_signal (sentiment_avg_5d row) (volatility_5d row)
                   vthr thr = 0%Z).
  { rewrite Hvol. unfold LiveSimulator._generate_signal.
    destruct (sentiment_avg_5d row); reflexivity. }
  destruct (simulate_day_idle ic tc thr vthr (LiveSimulator.initial_vars ic) v1 row Hsig
              eq_refl eq_refl eq_refl eq_refl eq_refl Hday)
    as (_ & s & d & h & Hstates & _ & _ & A1 & A2 & A3 & A4 & _).
  destruct (simulate_days_log ic tc thr vthr rest v1 vf Hsim) as (ext & _ & _ & Hext & _).
  exists s. rewrite Hs, Hext, Hstates. cbn.
  repeat split; assumption.
Qed.

Lemma first_day_of_a_feature_frame_is_flat_witness :
  let price := [ Features.mkPriceRow "2024-01-02" 100 None;
                 Features.mkPriceRow "2024-01-03" 101 (Some (1 # 100));
                 Features.mkPriceRow "2024-01-04" 99 (Some (- (2 # 100))) ] in
  let sent := [ Features.mkSentimentRow "2024-01-02" (1 # 2);
                Features.mkSentimentRow "2024-01-03" (- (1 # 4));
                Features.mkSentimentRow "2024-01-04" 1 ] in
  exists r s0,
    LiveSimulator.run_live_simulation
      (Features.merge_price_and_sentiment sqrt_6dp price sent)
      10000 (1 # 1000) (1 # 5) 50 = Ok (Some r)
    /\ nth_error (LiveSimulator.r_simulation_states r) 0 = Some s0
    /\ LiveSimulator.signal s0 = 0%Z.
Proof.
  intros price sent.
  assert (Hrun : exists r,
             LiveSimulator.run_live_simulation
               (Features.merge_price_and_sentiment sqrt_6dp price sent)
               10000 (1 # 1000) (1 # 5) 50 = Ok (Some r))
    by (eexists; vm_compute; reflexivity).
  destruct Hrun as [r Hrun].
  destruct (first_day_of_a_feature_frame_is_flat sqrt_6dp price sent 10000 (1 # 1000)
              (1 # 5) 50 r Hrun) as (s0 & H0 & Hsig & _).
  exists r, s0. split; [exact Hrun |]. split; [exact H0 | exact Hsig].
Defined.

(** ** The drawdown events *)

Lemma slice_nth {A : Type} (l : list A) (a b j : nat) (d : A) :
  (a <= j < b)%nat -> (b <= length l)%nat -> In (nth j l d) (Analyst.slice l a b).
Proof.
  intros Hj Hb. unfold Analyst.slice.
  replace (nth j l d) with (nth (j - a) (firstn (b - a) (skipn a l)) d).
  - apply nth_In. rewrite length_firstn, length_skipn. lia.
  - rewrite nth_firstn.
    destruct (Nat.ltb_spec (j - a) (b - a)) as [_ | H]; [| lia].
    rewrite nth_skipn. f_equal. lia.
Qed.

Lemma StronglySorted_snoc {A : Type} (R : A -> A -> Prop) (l : list A) (x : A) :
  StronglySorted R l -> Forall (fun y => R y x) l -> StronglySorted R (l ++ [x]).
Proof.
  intro H. induction H as [| a l Hl IH Ha]; intro Hx.
  - cbn. constructor; constructor.
  - inversion Hx as [| ? ? Hax Hlx]; subst.
    cbn. constructor; [apply IH; exact Hlx |].
    apply Forall_app. split; [exact Ha |]. constructor; [exact Hax | constructor].
Qed.

Lemma scan_events_ok (drawdowns : list Q) :
  forall (rest : list Q) (i : nat) (current : option nat)
         (events : list Analyst.DrawdownEvent),
    (exists pre, drawdowns = pre ++ rest /\ length pre = i) ->
    Forall (event_of drawdowns) events ->
    StronglySorted event_before events ->
    match current with
    | None => Forall (fun e => (Analyst.end_idx e < i)%nat) events
    | Some start =>
        (start < i)%nat
        /\ 5 < nth start drawdowns 0
        /\ (forall j, (start < j < i)%nat -> 2 <= nth j drawdowns 0)
        /\ Forall (fun e => (Analyst.end_idx e < start)%nat) events
    end ->
    exists out,
      Analyst.scan_events drawdowns i rest current events = Ok out
      /\ Forall (event_of drawdowns) out
      /\ StronglySorted event_before out
      /\ exists later, out = events ++ later.
Proof.
  induction rest as [| dd rest IH]; intros i current events (pre & Hpre & Hlen) Hev Hsorted Hcur.
  - exists events. cbn. split; [reflexivity |]. split; [exact Hev |].
    split; [exact Hsorted |]. exists []. symmetry. apply app_nil_r.
  - assert (Hnext : exists pre', drawdowns = pre' ++ rest /\ length pre' = S i).
    { exists (pre ++ [dd]). rewrite <- app_assoc. split; [exact Hpre |].
      rewrite length_app. cbn. lia. }
    assert (Hdd : nth i drawdowns 0 = dd).
    { rewrite Hpre, app_nth2 by lia. rewrite Hlen, Nat.sub_diag. reflexivity. }
    assert (Hi : (i < length drawdowns)%nat).
    { rewrite Hpre, length_app. cbn. lia. }
    cbn [Analyst.scan_events].
    destruct current as [start |].
    + destruct Hcur as (Hsi & Hstart & Hmid & Hbefore).
      destruct (Qltb dd 2) eqn:L.
      * apply Qltb_lt in L.
        assert (Hslice : exists x xs, Analyst.slice drawdowns start (i + 1) = x :: xs).
        { pose proof (slice_nth drawdowns start (i + 1) start 0 ltac:(lia) ltac:(lia)) as I.
          destruct (Analyst.slice drawdowns start (i + 1)) as [| x xs]; [destruct I |].
          exists x, xs. reflexivity. }
        destruct Hslice as (x & xs & Hslice). rewrite Hslice. cbn [Analyst.py_max_of bind].
        assert (Hmax : forall j, (start <= j <= i)%nat -> nth j drawdowns 0 <= py_max x xs).
        { intros j Hj. apply py_max_ge. rewrite <- Hslice.
          apply slice_nth; lia. }
        set (e := Analyst.mkDrawdownEvent start i (i - start) (py_max x xs)).
        assert (He : event_of drawdowns e).
        { unfold event_of, e. cbn.
          split; [lia |]. split; [reflexivity |]. split; [exact Hstart |].
          split; [rewrite Hdd; exact L |]. split; [exact Hmid |].
          split; [| exact Hmax].
          pose proof (Hmax start ltac:(lia)). lra. }
        destruct (IH (S i) None (events ++ [e]) Hnext) as (out & Hout & Fo & So & later & Hl).
        -- apply Forall_app. split; [exact Hev |]. constructor; [exact He | constructor].
        -- apply StronglySorted_snoc; [exact Hsorted |].
           eapply Forall_impl; [| exact Hbefore]. intros a Ha. unfold event_before, e. cbn.
           exact Ha.
        -- apply Forall_app. split.
           ++ eapply Forall_impl; [| exact Hbefore]. intros a Ha. cbn in Ha. lia.
           ++ constructor; [unfold e; cbn; lia | constructor].
        -- exists out. split; [exact Hout |]. split; [exact Fo |]. split; [exact So |].
           exists ([e] ++ later). rewrite Hl, <- app_assoc. reflexivity.
      * apply Qltb_ge in L.
        apply (IH (S i) (Some start) events Hnext Hev Hsorted).
        split; [lia |]. split; [exact Hstart |]. split; [| exact Hbefore].
        intros j Hj. destruct (Nat.eq_dec j i) as [-> | Hne].
        -- rewrite Hdd. exact L.
        -- apply Hmid. lia.
    + destruct (Qgtb dd 5) eqn:G.
      * apply Qgtb_gt in G.
        apply (IH (S i) (Some i) events Hnext Hev Hsorted).
        split; [lia |]. split; [rewrite Hdd; exact G |].
        split; [intros j Hj; lia | exact Hcur].
      * apply (IH (S i) None events Hnext Hev Hsorted).
        eapply Forall_impl; [| exact Hcur]. intros a Ha. cbn in Ha. lia.
Qed.

(** X23.  The scan of a drawdown series for events always returns.  Every
    event it returns starts on a day whose drawdown exceeds 5 and ends on
    the first later day whose drawdown is under 2; it lasts at least one
    day; its maximal drawdown exceeds 5 and bounds the drawdown of each of
    its days.  The events come in order and do not overlap: each ends
    before the next one starts, so there are at most half as many events
    as days. *)
Theorem drawdown_events_are_disjoint_episodes :
  forall drawdowns : list Q,
    exists events,
      Analyst.drawdown_events_of drawdowns = Ok events
      /\ Forall (event_of drawdowns) events
      /\ StronglySorted event_before events
      /\ Forall (fun e => (1 <= Analyst.duration e)%nat) events
      /\ (2 * length events <= length drawdowns)%nat.
Proof.
  intro drawdowns. unfold Analyst.drawdown_events_of.
  destruct (scan_events_ok drawdowns drawdowns 0 None []) as (out & Hout & Fo & So & _).
  - exists []. split; reflexivity.
  - constructor.
  - constructor.
  - constructor.
  - exists out. split; [exact Hout |]. split; [exact Fo |]. split; [exact So |].
    split.
    + eapply Forall_impl; [| exact Fo].
      intros e (Hse & Hd & _). cbn beta. rewrite Hd. destruct Hse as [Hse _]. lia.
    + assert (B : forall (l : list Analyst.DrawdownEvent) (lo : nat),
                 Forall (event_of drawdowns) l ->
                 StronglySorted event_before l ->
                 Forall (fun e => (lo <= Analyst.start_idx e)%nat) l ->
                 l <> [] ->
                 (lo + 2 * length l <= length drawdowns)%nat).
      { induction l as [| e l IHl]; intros lo Fl Sl Ll Hne.
        - congruence.
        - inversion Fl as [| ? ? He Fl']; subst.
          inversion Sl as [| ? ? Sl' Hel]; subst.
          inversion Ll as [| ? ? Hlo _]; subst.
          destruct He as (Hse & _).
          destruct l as [| e' l'].
          + cbn. lia.
          + assert (Hnext : (S (Analyst.end_idx e) + 2 * length (e' :: l')
                             <= length drawdowns)%nat).
            { apply IHl; [exact Fl' | exact Sl' | | discriminate].
              eapply Forall_impl; [| exact Hel]. intros a Ha. unfold event_before in Ha. lia. }
            cbn [length] in Hnext |- *. lia. }
      destruct out as [| e l]; [cbn; lia |].
      specialize (B (e :: l) 0%nat Fo So).
      assert (L0 : Forall (fun e0 => (0 <= Analyst.start_idx e0)%nat) (e :: l)).
      { apply Forall_forall. intros; lia. }
      specialize (B L0 ltac:(discriminate)). lia.
Qed.

(** ** The time-based split *)

(** X24.  The time-based split cuts the frame in two without reordering or
    losing a row, whatever the ratio is: the training features followed by
    the test features are the features of the frame, and so for the targets;
    features and targets are split at the same row.  For a ratio in [0, 1]
    the training part has [floor (len * ratio)] rows. *)
Theorem time_based_split_is_a_partition :
  forall (Row X Y : Type) (feature_cols : Row -> X) (target : Row -> Y)
         (df : list Row) (train_ratio : Q),
    let '(X_train, X_test, y_train, y_test) :=
      MlModel.train_test_split_time_based Row X Y feature_cols target df
        train_ratio in
    X_train ++ X_test = map feature_cols df
    /\ y_train ++ y_test = map target df
    /\ length X_train = length y_train
    /\ length X_test = length y_test
    /\ (0 <= train_ratio -> train_ratio <= 1 ->
        Z.of_nat (length X_train)
        = Qfloor (inject_Z (Z.of_nat (length df)) * train_ratio)).
Proof.
  intros Row X Y feature_cols target df ratio.
  unfold MlModel.train_test_split_time_based.
  set (k := MlModel.iloc_bound df
              (Optimizer.py_int (inject_Z (Z.of_nat (length df)) * ratio))).
  split; [rewrite <- map_app, firstn_skipn; reflexivity |].
  split; [rewrite <- map_app, firstn_skipn; reflexivity |].
  split; [rewrite !length_map; reflexivity |].
  split; [rewrite !length_map; reflexivity |].
  intros H0 H1. rewrite length_map, length_firstn.
  set (n := inject_Z (Z.of_nat (length df))) in *.
  assert (Hn : 0 <= n) by apply inject_nat_nonneg.
  assert (Hx0 : 0 <= n * ratio) by (apply Qmult_le_0_compat; assumption).
  assert (Hx1 : n * ratio <= n).
  { assert (0 <= n * (1 - ratio)) by (apply Qmult_le_0_compat; lra). lra. }
  assert (Hf0 : (0 <= Qfloor (n * ratio))%Z).
  { change 0%Z with (Qfloor 0). apply Qfloor_resp_le. exact Hx0. }
  assert (Hf1 : (Qfloor (n * ratio) <= Z.of_nat (length df))%Z).
  { rewrite <- (Qfloor_Z (Z.of_nat (length df))). apply Qfloor_resp_le. exact Hx1. }
  unfold k, MlModel.iloc_bound, Optimizer.py_int.
  apply Qle_bool_iff in Hx0. rewrite Hx0.
  destruct (Z.ltb_spec (Qfloor (n * ratio)) 0) as [H | _]; lia.
Qed.

Lemma time_based_split_is_a_partition_witness :
  let '(X_train, X_test, y_train, y_test) :=
    MlModel.train_test_split_time_based nat nat bool (fun x => x) Nat.even
      [1; 2; 3; 4; 5]%nat (4 # 5) in
  X_train ++ X_test = [1; 2; 3; 4; 5]%nat /\ length X_train = 4%nat.
Proof.
  pose proof (time_based_split_is_a_partition nat nat bool (fun x => x) Nat.even
                [1; 2; 3; 4; 5]%nat (4 # 5)) as H.
  cbv beta iota zeta delta [MlModel.train_test_split_time_based] in H |- *.
  destruct H as (Hx & _ & _ & _ & Hlen).
  split; [rewrite Hx; reflexivity |].
  apply Nat2Z.inj. rewrite Hlen; [reflexivity | discriminate | discriminate].
Defined.

(** ** The ML feature set *)

Lemma shift_back_length {A : Type} (l : list (option A)) :
  length (MlModel.shift_back l) = length l.
Proof.
  destruct l as [| x l]; [reflexivity |]. cbn. rewrite length_app. cbn. lia.
Qed.

Lemma shift_back_nth_error {A : Type} (l : list (option A)) (t : nat) (x : A) :
  nth_error (MlModel.shift_back l) t = Some (Some x) -> nth_error l (S t) = Some (Some x).
Proof.
  destruct l as [| y l]; cbn [MlModel.shift_back].
  - destruct t; discriminate.
  - cbn [nth_error]. intro H.
    destruct (Nat.lt_ge_cases t (length l)) as [Hlt | Hge].
    + rewrite nth_error_app1 in H by exact Hlt. exact H.
    + rewrite nth_error_app2 in H by exact Hge.
      destruct (t - length l)%nat as [| k]; cbn in H; [discriminate |].
      destruct k; discriminate.
Qed.

Lemma combine_nth_error {A B : Type} (l : list A) (l' : list B) (t : nat) (a : A) (b : B) :
  nth_error (combine l l') t = Some (a, b) ->
  nth_error l t = Some a /\ nth_error l' t = Some b.
Proof.
  revert l' t. induction l as [| x l IH]; intros [| y l'] [| t] H; cbn in H;
    try discriminate.
  - injection H as -> ->. split; reflexivity.
  - exact (IH l' t H).
Qed.

Lemma flat_map_at_most_one {A B : Type} (f : A -> list B) (l : list A) :
  (forall a, (length (f a) <= 1)%nat) -> (length (flat_map f l) <= length l)%nat.
Proof.
  intro H. induction l as [| a l IH]; [cbn; lia |].
  cbn [flat_map length]. rewrite length_app. specialize (H a). lia.
Qed.

(** X25.  Every row of the ML feature set is a day [t] of the frame that
    has a following day: its next-day return is the return of day [t + 1],
    which is defined, and its target is 1 when that return is positive and 0
    otherwise; its date, return and volatility are those of day [t], all
    defined.  So the target looks one day ahead, the features do not, and
    the last day of the frame is never a row. *)
Theorem ml_target_is_the_next_day_direction :
  forall df : FeatureSeries,
    Forall (fun m =>
              exists t row next,
                nth_error df t = Some row
                /\ nth_error df (S t) = Some next
                /\ returns next = Some (MlModel.next_day_return m)
                /\ MlModel.ml_target m
                   = (if Qgtb (MlModel.next_day_return m) 0 then 1%Z else 0%Z)
                /\ MlModel.ml_date m = date row
                /\ returns row = Some (MlModel.ml_returns m)
                /\ sentiment_avg_5d row = Some (MlModel.rolling_sentiment_5d m)
                /\ volatility_5d row = Some (MlModel.ml_volatility_5d m))
      (MlModel.prepare_ml_features df)
    /\ (length (MlModel.prepare_ml_features df) <= length df - 1)%nat.
Proof.
  intro df. split.
  - apply Forall_forall. intros m Hm.
    unfold MlModel.prepare_ml_features in Hm.
    apply in_flat_map in Hm. destruct Hm as ([t [row nx]] & Hin & Hm).
    cbn [fst snd] in Hm.
    apply In_nth_error in Hin. destruct Hin as [i Hi].
    assert (Hlen : length (combine df (MlModel.shift_back (map returns df))) = length df).
    { rewrite length_combine, shift_back_length, length_map. lia. }
    rewrite <- Hlen in Hi. rewrite combine_seq_nth_error in Hi.
    destruct (nth_error (combine df (MlModel.shift_back (map returns df))) i)
      as [[row' nx'] |] eqn:Ec; [| discriminate Hi].
    cbn in Hi. injection Hi as <- <- <-.
    apply combine_nth_error in Ec. destruct Ec as [Hrow Hnx].
    destruct (returns row') as [r |] eqn:Er; [| destruct Hm].
    destruct (sentiment_avg_5d row') as [s |] eqn:Es; [| destruct Hm].
    destruct (volatility_5d row') as [v |] eqn:Ev; [| destruct Hm].
    destruct (MlModel.rolling_mean_6dp (map returns df) i) as [a |]; [| destruct Hm].
    destruct nx' as [n |]; [| destruct Hm].
    destruct Hm as [<- | []]. cbn.
    apply shift_back_nth_error in Hnx. rewrite nth_error_map in Hnx.
    destruct (nth_error df (S i)) as [next |] eqn:En; [| discriminate Hnx].
    injection Hnx as Hnx.
    exists i, row', next. repeat split; assumption.
  - destruct df as [| row0 df0] eqn:Edf; [cbn; lia |]. rewrite <- Edf.
    unfold MlModel.prepare_ml_features.
    set (f := fun tr : nat * (FeatureRow * option Q) => _).
    assert (Hone : forall a, (length (f a) <= 1)%nat).
    { intros [t [row nx]]. unfold f. cbn [fst snd].
      destruct (returns row), (sentiment_avg_5d row), (volatility_5d row),
        (MlModel.rolling_mean_6dp (map returns df) t), nx; cbn; lia. }
    set (l := combine (seq 0 (length df)) (combine df (MlModel.shift_back (map returns df)))).
    assert (Hl : length l = length df).
    { unfold l. rewrite !length_combine, length_seq, shift_back_length, length_map. lia. }
    assert (Hlast : exists init t row, l = init ++ [(t, (row, None))]).
    { assert (Hn : nth_error l (length df - 1)
                   = option_map (fun x => ((0 + (length df - 1))%nat, x))
                       (nth_error (combine df (MlModel.shift_back (map returns df)))
                          (length df - 1))).
      { unfold l.
        replace (length df) with
          (length (combine df (MlModel.shift_back (map returns df)))) at 1
          by (rewrite length_combine, shift_back_length, length_map; lia).
        apply combine_seq_nth_error. }
      assert (Hne : l <> []).
      { intro E. rewrite E in Hl. rewrite Edf in Hl. discriminate Hl. }
      destruct (exists_last Hne) as (init & [t [row nx]] & El).
      exists init, t, row. rewrite El. f_equal. f_equal. f_equal. f_equal.
      assert (Hi : length init = (length df - 1)%nat).
      { rewrite El, length_app in Hl. cbn in Hl. lia. }
      rewrite El, nth_error_app2 in Hn by lia.
      rewrite Hi, Nat.sub_diag in Hn. cbn [nth_error] in Hn.
      destruct (nth_error (combine df (MlModel.shift_back (map returns df)))
                  (length df - 1)) as [[row' nx'] |] eqn:Ec; [| discriminate Hn].
      cbn in Hn. injection Hn as _ _ ->.
      apply combine_nth_error in Ec. destruct Ec as [_ Hnx].
      destruct nx' as [x |]; [| reflexivity].
      apply shift_back_nth_error in Hnx.
      assert (Hlt : (S (length df - 1) < length (map returns df))%nat)
        by (apply nth_error_Some; congruence).
      rewrite length_map in Hlt. lia. }
    destruct Hlast as (init & t & row & El).
    rewrite El, flat_map_app. rewrite length_app.
    assert (Hf : f (t, (row, None)) = []).
    { unfold f. cbn [fst snd].
      destruct (returns row), (sentiment_avg_5d row), (volatility_5d row),
        (MlModel.rolling_mean_6dp (map returns df) t); reflexivity. }
    cbn [flat_map]. rewrite Hf. cbn [app length].
    pose proof (flat_map_at_most_one f init Hone) as Hi.
    rewrite El, length_app in Hl. cbn in Hl. lia.
Qed.

(** ** Holding days *)

Lemma ltb_leb (a b : string) :
  String.ltb a b = true -> String.leb a b = true /\ String.leb b a = false.
Proof.
  unfold String.ltb, String.leb. rewrite (String.compare_antisym a b).
  destruct (String.compare b a); cbn; intro H; try discriminate. split; reflexivity.
Qed.

Lemma StronglySorted_around {A : Type} (R : A -> A -> Prop) (l1 l2 : list A) (x : A) :
  StronglySorted R (l1 ++ x :: l2) -> Forall (fun y => R y x) l1 /\ Forall (R x) l2.
Proof.
  induction l1 as [| a l1 IH]; cbn [app]; intro H.
  - inversion H as [| ? ? _ Hx]; subst. split; [constructor | exact Hx].
  - inversion H as [| ? ? Hl Ha]; subst.
    destruct (IH Hl) as [H1 H2]. split; [| exact H2].
    constructor; [| exact H1].
    rewrite Forall_forall in Ha. apply Ha. apply in_or_app. right. left. reflexivity.
Qed.

Lemma filter_none_length {A : Type} (f : A -> bool) (l : list A) :
  Forall (fun y => f y = false) l -> length (filter f l) = 0%nat.
Proof.
  intro H. induction H as [| a l Ha _ IH]; [reflexivity |].
  cbn [filter]. rewrite Ha. exact IH.
Qed.

Lemma filter_all_length {A : Type} (f : A -> bool) (l : list A) :
  Forall (fun y => f y = true) l -> length (filter f l) = length l.
Proof.
  intro H. induction H as [| a l Ha _ IH]; [reflexivity |].
  cbn [filter]. rewrite Ha. cbn [length]. rewrite IH. reflexivity.
Qed.

Lemma days_from_entry (dates : list string) (i j : nat) (d : string) :
  dates_increase dates ->
  (i < j)%nat -> (j < length dates)%nat ->
  nth_error dates i = Some d ->
  length (filter (String.leb d) (firstn j dates)) = (j - i)%nat.
Proof.
  intros Hs Hij Hj Hi.
  destruct (nth_error_split dates i Hi) as (l1 & l2 & El & Hl1).
  rewrite El in Hs. destruct (StronglySorted_around _ l1 l2 d Hs) as [Hbefore Hafter].
  assert (Hl2 : (j - S i < length l2)%nat).
  { rewrite El, length_app in Hj. cbn [length] in Hj. lia. }
  rewrite El, firstn_app, Hl1.
  rewrite firstn_all2 by lia.
  replace (j - i)%nat with (S (j - S i)) at 1 by lia.
  cbn [firstn]. rewrite filter_app, length_app. cbn [filter]. rewrite leb_refl.
  cbn [length].
  rewrite filter_none_length.
  - rewrite filter_all_length.
    + rewrite length_firstn. lia.
    + apply Forall_firstn. eapply Forall_impl; [| exact Hafter].
      intros y Hy. apply ltb_leb. exact Hy.
  - eapply Forall_impl; [| exact Hbefore].
    intros y Hy. apply ltb_leb. exact Hy.
Qed.

(** X26.  When the dates of the series strictly increase, the holding days
    of a completed trade are the days from its entry to its exit: a trade
    entered at the close of day [i] and left at the close of day [j] has
    [j - i] holding days. *)
Theorem holding_days_run_from_entry_to_exit :
  forall (df : FeatureSeries)
         (initial_capital transaction_cost sentiment_threshold volatility_percentile : Q)
         (r : LiveSimulator.LiveResult),
    LiveSimulator.run_live_simulation df initial_capital transaction_cost
      sentiment_threshold volatility_percentile = Ok (Some r) ->
    dates_increase (map date df) ->
    Forall (fun t =>
              exists i j : nat,
                (i < j)%nat
                /\ nth_error (map date df) i = Some (LiveSimulator.ct_entry_date t)
                /\ nth_error (map date df) j = Some (LiveSimulator.exit_date t)
                /\ LiveSimulator.holding_days t = (j - i)%nat)
      (LiveSimulator.r_completed_trades r).
Proof.
  intros df ic tc thr pct r Hrun Hinc.
  destruct (run_live_simulation_inv df ic tc thr pct r Hrun)
    as (vthr & vf & _ & Hsim & _ & Hct & _).
  destruct (simulate_days_ledger ic tc thr vthr df _ vf (ledger_ok_initial ic) Hsim)
    as ((_ & _ & Hsp) & _).
  destruct (simulate_days_entries ic tc thr vthr df _ vf Hsim) as (A & _).
  cbn in A. rewrite A in Hsp. rewrite Hct.
  eapply Forall_impl; [| exact Hsp].
  intros t (i & j & Hij & Hi & Hj & Hh). exists i, j.
  split; [exact Hij |]. split; [exact Hi |]. split; [exact Hj |].
  rewrite Hh. apply days_from_entry; try assumption.
  apply nth_error_Some. congruence.
Qed.

Lemma holding_days_run_from_entry_to_exit_witness :
  exists r,
    LiveSimulator.run_live_simulation series_gain 10000 (1 # 1000) (1 # 5) 50
      = Ok (Some r)
    /\ Forall (fun t =>
                 exists i j : nat,
                   (i < j)%nat
                   /\ nth_error (map date series_gain) i
                      = Some (LiveSimulator.ct_entry_date t)
                   /\ nth_error (map date series_gain) j
                      = Some (LiveSimulator.exit_date t)
                   /\ LiveSimulator.holding_days t = (j - i)%nat)
         (LiveSimulator.r_completed_trades r).
Proof.
  eexists. split; [vm_compute; reflexivity |].
  apply (holding_days_run_from_entry_to_exit series_gain 10000 (1 # 1000) (1 # 5) 50).
  - vm_compute. reflexivity.
  - repeat constructor.
Defined.
